(** * loom-warp: agent registry, work queue, dead letter queue, coordinator

    A shallow embedding of the coordination core of loom-warp: the
    coordinator (src/coordinator.ts), the work queue (src/workqueue.ts), the
    dead letter queue (src/dlq.ts), the registry bucket (kv.ts, third file
    of unnamed/part_003), the connection (nats.ts, unnamed/part_005) and the
    tool handlers (tools/registry.ts, second file of unnamed/part_004),
    together with the properties stated about them.

    Conventions of the embedding.
    - A JavaScript string is a [string], read as its UTF-8 encoding; [===]
      on strings is [String.eqb].
    - An ISO-8601 timestamp ([new Date().toISOString()]) is represented by
      the instant it denotes, in milliseconds, as a [Z]; the clock is an
      explicit argument [now].
    - A thrown [Error] is [Throw msg] where [msg] is the error's message; the
      [catch] blocks of the source dispatch on substrings of that message
      and so does the model ([Js.includes]).
    - The payload of a stream message is the value that was serialised
      ([JSON.parse (JSON.stringify v) = v]); [PRaw] stands for bytes that do
      not parse.
    - Log calls are not modelled. *)

From stdpp Require Import gmap strings list fin_maps sorting pretty.
From Stdlib Require Import ZArith Lia Ascii String.

Open Scope Z_scope.
Open Scope string_scope.

(* ===================================================================== *)
(** ** JavaScript string helpers *)
(* ===================================================================== *)

Module Js.

(** [haystack.includes(needle)] *)
Fixpoint includes (needle hay : string) : bool :=
  String.prefix needle hay ||
  match hay with
  | EmptyString => false
  | String _ rest => includes needle rest
  end.

(** White space on the ASCII range: TAB, LF, VT, FF, CR and SPACE. *)
Definition is_space (c : ascii) : bool :=
  let n := nat_of_ascii c in
  ((9 <=? n)%nat && (n <=? 13)%nat) || (n =? 32)%nat.

(** U+00A0 in UTF-8. *)
Definition is_space2 (a b : ascii) : bool :=
  (nat_of_ascii a =? 194)%nat && (nat_of_ascii b =? 160)%nat.

(** U+1680, U+2000..U+200A, U+2028, U+2029, U+202F, U+205F, U+3000 and
    U+FEFF in UTF-8. *)
Definition is_space3 (a b c : ascii) : bool :=
  let x := nat_of_ascii a in
  let y := nat_of_ascii b in
  let z := nat_of_ascii c in
  ((x =? 225) && (y =? 154) && (z =? 128))%nat
  || ((x =? 226) && (y =? 128)
      && (((128 <=? z) && (z <=? 138)) || (z =? 168) || (z =? 169) || (z =? 175)))%nat
  || ((x =? 226) && (y =? 129) && (z =? 159))%nat
  || ((x =? 227) && (y =? 128) && (z =? 128))%nat
  || ((x =? 239) && (y =? 187) && (z =? 191))%nat.

(** [s.trim() === '']: the string is made of white space only, white space
    being what [String.prototype.trim] strips (WhiteSpace and
    LineTerminator of ECMAScript), read off the UTF-8 encoding. *)
Fixpoint trim_is_empty (s : string) : bool :=
  match s with
  | EmptyString => true
  | String a r1 =>
      if is_space a then trim_is_empty r1
      else
        match r1 with
        | String b r2 =>
            if is_space2 a b then trim_is_empty r2
            else
              match r2 with
              | String c r3 => if is_space3 a b c then trim_is_empty r3 else false
              | EmptyString => false
              end
        | EmptyString => false
        end
  end.

(** Truthiness of a string: [''] is falsy. *)
Definition truthy (s : string) : bool :=
  match s with EmptyString => false | _ => true end.

(** Truthiness of an optional string ([undefined] is falsy). *)
Definition truthy_opt (o : option string) : bool :=
  match o with Some s => truthy s | None => false end.

Definition is_digit (c : ascii) : bool :=
  let n := nat_of_ascii c in (48 <=? n)%nat && (n <=? 57)%nat.

(** [[0-9a-f]] under the [i] flag *)
Definition is_hex (c : ascii) : bool :=
  let n := nat_of_ascii c in
  is_digit c
  || ((97 <=? n)%nat && (n <=? 102)%nat)
  || ((65 <=? n)%nat && (n <=? 70)%nat).

(** [[89ab]] under the [i] flag *)
Definition is_89ab (c : ascii) : bool :=
  let n := nat_of_ascii c in
  (n =? 56)%nat || (n =? 57)%nat
  || (n =? 97)%nat || (n =? 98)%nat
  || (n =? 65)%nat || (n =? 66)%nat.

Definition is_char (x c : ascii) : bool := Ascii.eqb x c.

(** An anchored regular expression made of one character class per
    position: [^c1c2...cn$]. *)
Fixpoint matches (pattern : list (ascii -> bool)) (s : string) : bool :=
  match pattern, s with
  | [], EmptyString => true
  | p :: ps, String c rest => p c && matches ps rest
  | _, _ => false
  end.

(** [/^[0-9a-f]{8}-[0-9a-f]{4}-4[0-9a-f]{3}-[89ab][0-9a-f]{3}-[0-9a-f]{12}$/i] *)
Definition UUID_V4_PATTERN : list (ascii -> bool) :=
  replicate 8 is_hex ++ [is_char "-"%char] ++
  replicate 4 is_hex ++ [is_char "-"%char] ++
  [is_char "4"%char] ++ replicate 3 is_hex ++ [is_char "-"%char] ++
  [is_89ab] ++ replicate 3 is_hex ++ [is_char "-"%char] ++
  replicate 12 is_hex.

(** [s.replace(/-/g, '_')] *)
Fixpoint replace_dash (s : string) : string :=
  match s with
  | EmptyString => EmptyString
  | String c rest =>
      String (if Ascii.eqb c "-"%char then "_"%char else c) (replace_dash rest)
  end.

Definition is_alnum (c : ascii) : bool :=
  let n := nat_of_ascii c in
  is_digit c
  || ((97 <=? n)%nat && (n <=? 122)%nat)
  || ((65 <=? n)%nat && (n <=? 90)%nat).

Definition to_upper (c : ascii) : ascii :=
  let n := nat_of_ascii c in
  if (97 <=? n)%nat && (n <=? 122)%nat then ascii_of_nat (n - 32) else c.

(** [Math.min(100, Math.max(0, p))] *)
Definition clamp_0_100 (p : Z) : Z := Z.min 100 (Z.max 0 p).

(** Decimal rendering of an integer inside a template literal. *)
Definition show_Z (z : Z) : string := pretty z.

End Js.

(* ===================================================================== *)
(** ** Data model (types.ts) *)
(* ===================================================================== *)

Module Types.

Definition timestamp := Z.

Inductive Scope := ScopeUser | ScopeProject.
Inductive Visibility := Private | ProjectOnly | UserOnly | Public.
Inductive Status := Online | Busy | Offline.

#[global] Instance Scope_eq_dec : EqDecision Scope.
Proof. solve_decision. Defined.
#[global] Instance Visibility_eq_dec : EqDecision Visibility.
Proof. solve_decision. Defined.
#[global] Instance Status_eq_dec : EqDecision Status.
Proof. solve_decision. Defined.

Record RegistryEntry := mkRegistryEntry {
  guid : string;
  agentType : string;
  handle : string;
  hostname : string;
  projectId : string;
  natsUrl : string;
  username : option string;
  capabilities : list string;
  scope : Scope;
  visibility : Visibility;
  status : Status;
  currentTaskCount : Z;
  registeredAt : timestamp;
  lastHeartbeat : timestamp;
}.

(** [Partial<RegistryEntry>]: every field may be absent. *)
Record PartialEntry := mkPartialEntry {
  p_guid : option string;
  p_agentType : option string;
  p_handle : option string;
  p_hostname : option string;
  p_projectId : option string;
  p_natsUrl : option string;
  p_username : option string;
  p_capabilities : option (list string);
  p_scope : option Scope;
  p_visibility : option Visibility;
  p_status : option Status;
  p_currentTaskCount : option Z;
  p_registeredAt : option timestamp;
  p_lastHeartbeat : option timestamp;
}.

Record Requester := mkRequester {
  r_guid : string;
  r_projectId : string;
  r_username : option string;
}.

Record WorkItem := mkWorkItem {
  w_id : string;
  w_taskId : string;
  w_capability : string;
  w_description : string;
  w_priority : option Z;
  w_deadline : option timestamp;
  w_contextData : option string;
  w_offeredBy : string;
  w_offeredAt : timestamp;
  w_attempts : Z;
}.

Record DLQItem := mkDLQItem {
  d_id : string;
  d_workItem : WorkItem;
  d_reason : string;
  d_attempts : Z;
  d_failedAt : timestamp;
  d_errors : list string;
}.

Record InboxMessage := mkInboxMessage {
  i_id : string;
  i_senderGuid : string;
  i_senderHandle : string;
  i_recipientGuid : string;
  i_messageType : string;
  i_content : string;
  i_metadata : option string;
  i_timestamp : timestamp;
}.

(** Thrown errors and returned values. *)
Inductive result (A : Type) : Type :=
| Ok (a : A)
| Throw (msg : string).
Arguments Ok {A} a.
Arguments Throw {A} msg.

End Types.
Export Types.

(* ===================================================================== *)
(** ** registry.ts: visibility and redaction *)
(* ===================================================================== *)

Module Registry.

Definition same_username (e : RegistryEntry) (r : Requester) : bool :=
  match username e, r_username r with
  | Some u, Some v => Js.truthy u && Js.truthy v && String.eqb u v
  | _, _ => false
  end.

(** Modelled from the spec: registry.ts is not among the sources (only its
    tests, which follow coordinator.ts in the sources at lines 780-880, and
    its callers are); [isVisibleTo] follows the visibility predicate of
    section 4.1. *)
Definition isVisibleTo (e : RegistryEntry) (r : Requester) : bool :=
  match visibility e with
  | Private => String.eqb (r_guid r) (guid e)
  | ProjectOnly =>
      String.eqb (r_guid r) (guid e) || String.eqb (r_projectId r) (projectId e)
  | UserOnly => same_username e r || String.eqb (r_guid r) (guid e)
  | Public => true
  end.

Definition empty_view : PartialEntry :=
  mkPartialEntry None None None None None None None None None None None None None None.

(** The entry itself, seen as a [Partial<RegistryEntry>]. *)
Definition full_view (e : RegistryEntry) : PartialEntry :=
  mkPartialEntry (Some (guid e)) (Some (agentType e)) (Some (handle e))
    (Some (hostname e)) (Some (projectId e)) (Some (natsUrl e)) (username e)
    (Some (capabilities e)) (Some (scope e)) (Some (visibility e))
    (Some (status e)) (Some (currentTaskCount e)) (Some (registeredAt e))
    (Some (lastHeartbeat e)).

(** Modelled from the spec: registry.ts is not among the sources;
    [redactEntry] follows the redaction rule of section 4.1, except for
    the one point that the repository's own tests of [redactEntry]
    (after coordinator.ts in the sources, lines 946-970: "public shows
    hostname") decide differently: the hostname of a public entry is kept
    for a requester of another project. *)
Definition redactEntry (e : RegistryEntry) (r : Requester) : PartialEntry :=
  if negb (isVisibleTo e r) then empty_view
  else if String.eqb (r_guid r) (guid e) then full_view e
  else
    let same_project := String.eqb (r_projectId r) (projectId e) in
    let is_public := bool_decide (visibility e = Public) in
    {| p_guid := Some (guid e);
       p_agentType := Some (agentType e);
       p_handle := Some (handle e);
       p_hostname := if same_project || is_public then Some (hostname e) else None;
       p_projectId := if same_project then Some (projectId e) else None;
       p_natsUrl := if same_project then Some (natsUrl e) else None;
       p_username :=
         if bool_decide (visibility e = UserOnly) && same_username e r
         then username e else None;
       p_capabilities := Some (capabilities e);
       p_scope := Some (scope e);
       p_visibility := None;
       p_status := Some (status e);
       p_currentTaskCount := Some (currentTaskCount e);
       p_registeredAt := None;
       p_lastHeartbeat := Some (lastHeartbeat e) |}.

(** [redactEntry] as section 4.1 words it: hostname, projectId and the
    broker address are kept only for a requester of the same project. *)
Definition redactEntry_spec (e : RegistryEntry) (r : Requester) : PartialEntry :=
  if negb (isVisibleTo e r) then empty_view
  else if String.eqb (r_guid r) (guid e) then full_view e
  else
    let same_project := String.eqb (r_projectId r) (projectId e) in
    {| p_guid := Some (guid e);
       p_agentType := Some (agentType e);
       p_handle := Some (handle e);
       p_hostname := if same_project then Some (hostname e) else None;
       p_projectId := if same_project then Some (projectId e) else None;
       p_natsUrl := if same_project then Some (natsUrl e) else None;
       p_username :=
         if bool_decide (visibility e = UserOnly) && same_username e r
         then username e else None;
       p_capabilities := Some (capabilities e);
       p_scope := Some (scope e);
       p_visibility := None;
       p_status := Some (status e);
       p_currentTaskCount := Some (currentTaskCount e);
       p_registeredAt := None;
       p_lastHeartbeat := Some (lastHeartbeat e) |}.

End Registry.


(* ===================================================================== *)
(** ** The broker (nats.ts and the JetStream API used by the sources) *)
(* ===================================================================== *)

Module Nats.

Inductive Payload :=
| PWorkItem (w : WorkItem)
| PDLQItem (d : DLQItem)
| PInbox (m : InboxMessage)
| PRaw (s : string).

Record StoredMsg := mkStoredMsg {
  m_seq : nat;
  m_data : Payload;
}.

(** A durable consumer: the sequences it has acknowledged and how often
    each sequence was delivered to it ([msg.info.deliveryCount]). *)
Record Consumer := mkConsumer {
  c_max_deliver : option nat;
  c_acked : gset nat;
  c_delivered : gmap nat nat;
}.

Record Stream := mkStream {
  s_subject : string;
  s_workqueue : bool;            (* RetentionPolicy.Workqueue *)
  s_msgs : list StoredMsg;
  s_last_seq : nat;
  s_msgids : gset string;        (* msgID deduplication *)
  s_consumers : gmap string Consumer;
}.

(** The connection of this process and the streams of the server: by name,
    and by the subject they capture (subjects of distinct streams do not
    overlap). *)
Record Broker := mkBroker {
  connected : bool;
  streams : gmap string Stream;
  routes : gmap string string;
}.

(** Computations that read and write the broker and may throw. *)
Definition M (A : Type) : Type := Broker -> result A * Broker.

Definition ret {A} (a : A) : M A := fun b => (Ok a, b).
Definition throw {A} (msg : string) : M A := fun b => (Throw msg, b).
Definition bind {A B} (m : M A) (k : A -> M B) : M B :=
  fun b => match m b with
           | (Ok a, b') => k a b'
           | (Throw e, b') => (Throw e, b')
           end.
(** [try { m } catch (err) { h err.message }] *)
Definition try_catch {A} (m : M A) (h : string -> M A) : M A :=
  fun b => match m b with
           | (Ok a, b') => (Ok a, b')
           | (Throw e, b') => h e b'
           end.

Declare Scope nats_scope.
Delimit Scope nats_scope with nats.
Notation "'let*' x ':=' m 'in' k" := (bind m (fun x => k))
  (at level 10, x pattern, m at level 100, k at level 200) : nats_scope.
Notation "m ';;;' k" := (bind m (fun _ => k))
  (at level 100, k at level 200, right associativity) : nats_scope.

Definition set_streams (f : gmap string Stream -> gmap string Stream) (b : Broker) : Broker :=
  mkBroker (connected b) (f (streams b)) (routes b).

Definition set_msgs (f : list StoredMsg -> list StoredMsg) (s : Stream) : Stream :=
  mkStream (s_subject s) (s_workqueue s) (f (s_msgs s)) (s_last_seq s)
           (s_msgids s) (s_consumers s).

Definition set_consumers (f : gmap string Consumer -> gmap string Consumer) (s : Stream) : Stream :=
  mkStream (s_subject s) (s_workqueue s) (s_msgs s) (s_last_seq s)
           (s_msgids s) (f (s_consumers s)).

(** [getJetStreamClient()] (nats.ts line 259) *)
Definition getJetStreamClient : M unit :=
  fun b => if connected b then (Ok tt, b)
           else (Throw "JetStream client not initialized. Call connectToNats() first.", b).

(** [getJetStreamManager()] (nats.ts line 269) *)
Definition getJetStreamManager : M unit :=
  fun b => if connected b then (Ok tt, b)
           else (Throw "JetStream manager not initialized. Call connectToNats() first.", b).

(** [jsm.streams.info(name)] *)
Definition streams_info (name : string) : M Stream :=
  fun b => match streams b !! name with
           | Some s => (Ok s, b)
           | None => (Throw "stream not found", b)
           end.

(** [jsm.streams.add({name, subjects: [subject], retention, ...})] *)
Definition streams_add (name subject : string) (workqueue : bool) : M unit :=
  fun b => match streams b !! name, routes b !! subject with
           | Some _, _ => (Throw "stream name already in use", b)
           | None, Some _ => (Throw "subjects overlap with an existing stream", b)
           | None, None =>
               (Ok tt,
                mkBroker (connected b)
                  (<[name := mkStream subject workqueue [] 0 ∅ ∅]> (streams b))
                  (<[subject := name]> (routes b)))
           end.

(** What the server does with a message published on a subject that the
    stream [s] captures: a message whose [msgID] was seen before is
    acknowledged and dropped, any other is stored under the next sequence. *)
Definition store (payload : Payload) (msgID : option string) (s : Stream) : Stream :=
  match msgID with
  | Some i =>
      if bool_decide (i ∈ s_msgids s) then s
      else mkStream (s_subject s) (s_workqueue s)
             (s_msgs s ++ [mkStoredMsg (S (s_last_seq s)) payload])
             (S (s_last_seq s)) ({[i]} ∪ s_msgids s) (s_consumers s)
  | None =>
      mkStream (s_subject s) (s_workqueue s)
        (s_msgs s ++ [mkStoredMsg (S (s_last_seq s)) payload])
        (S (s_last_seq s)) (s_msgids s) (s_consumers s)
  end.

(** [js.publish(subject, payload, {msgID})]; the acknowledgement carries
    the sequence. A subject that no stream captures has no responder. *)
Definition publish (subject : string) (payload : Payload) (msgID : option string) : M nat :=
  fun b => match routes b !! subject with
           | Some name =>
               match streams b !! name with
               | Some s =>
                   let s' := store payload msgID s in
                   (Ok (s_last_seq s'), set_streams (insert name s') b)
               | None => (Throw "503", b)
               end
           | None => (Throw "503", b)
           end.

Definition find_msg (seq : nat) (msgs : list StoredMsg) : option StoredMsg :=
  List.find (fun m => Nat.eqb (m_seq m) seq) msgs.

(** [jsm.streams.getMessage(name, {seq})] *)
Definition getMessage (name : string) (seq : nat) : M StoredMsg :=
  fun b => match streams b !! name with
           | Some s =>
               match find_msg seq (s_msgs s) with
               | Some m => (Ok m, b)
               | None => (Throw "no message found", b)
               end
           | None => (Throw "stream not found", b)
           end.

Definition remove_seq (seq : nat) (msgs : list StoredMsg) : list StoredMsg :=
  List.filter (fun m => negb (Nat.eqb (m_seq m) seq)) msgs.

(** [jsm.streams.deleteMessage(name, seq)] *)
Definition deleteMessage (name : string) (seq : nat) : M bool :=
  fun b => match streams b !! name with
           | Some s =>
               match find_msg seq (s_msgs s) with
               | Some _ =>
                   (Ok true, set_streams (insert name (set_msgs (remove_seq seq) s)) b)
               | None => (Throw "no message found", b)
               end
           | None => (Throw "stream not found", b)
           end.

(** [jsm.consumers.info(stream, consumer)] *)
Definition consumers_info (name cname : string) : M Consumer :=
  fun b => match streams b !! name with
           | Some s =>
               match s_consumers s !! cname with
               | Some c => (Ok c, b)
               | None => (Throw "consumer not found", b)
               end
           | None => (Throw "stream not found", b)
           end.

(** [jsm.consumers.add(stream, {durable_name, max_deliver, ...})] *)
Definition consumers_add (name cname : string) (max_deliver : option nat) : M unit :=
  fun b => match streams b !! name with
           | Some s =>
               match s_consumers s !! cname with
               | Some _ => (Ok tt, b)
               | None =>
                   (Ok tt,
                    set_streams
                      (insert name (set_consumers (insert cname (mkConsumer max_deliver ∅ ∅)) s))
                      b)
               end
           | None => (Throw "stream not found", b)
           end.

Definition deliveries (c : Consumer) (seq : nat) : nat :=
  default 0%nat (c_delivered c !! seq).

(** The messages a consumer may still receive: stored, not acknowledged by
    it, and delivered fewer than [max_deliver] times. *)
Definition pending (c : Consumer) (msgs : list StoredMsg) : list StoredMsg :=
  List.filter
    (fun m => negb (bool_decide (m_seq m ∈ c_acked c))
              && match c_max_deliver c with
                 | Some n => (deliveries c (m_seq m) <? n)%nat
                 | None => true
                 end)
    msgs.

Definition mark_delivered (batch : list StoredMsg) (c : Consumer) : Consumer :=
  mkConsumer (c_max_deliver c) (c_acked c)
    (foldr (fun m d => <[m_seq m := S (default 0%nat (d !! m_seq m))]> d)
           (c_delivered c) batch).

(** A delivered message: the stored message and its delivery count. *)
Record JsMsg := mkJsMsg {
  j_seq : nat;
  j_data : Payload;
  j_deliveryCount : nat;
}.

(** [consumer.fetch({max_messages})]: the first [max_messages] pending
    messages, each with its delivery count raised by one. *)
Definition fetch (name cname : string) (max_messages : nat) : M (list JsMsg) :=
  fun b => match streams b !! name with
           | Some s =>
               match s_consumers s !! cname with
               | Some c =>
                   let batch := take max_messages (pending c (s_msgs s)) in
                   (Ok (List.map (fun m => mkJsMsg (m_seq m) (m_data m)
                                             (S (deliveries c (m_seq m)))) batch),
                    set_streams
                      (insert name (set_consumers (insert cname (mark_delivered batch c)) s))
                      b)
               | None => (Throw "consumer not found", b)
               end
           | None => (Throw "stream not found", b)
           end.

(** [msg.ack()]: the consumer will not receive the sequence again; a stream
    with work-queue retention also drops the message. *)
Definition ack (name cname : string) (seq : nat) : M unit :=
  fun b => match streams b !! name with
           | Some s =>
               match s_consumers s !! cname with
               | Some c =>
                   let c' := mkConsumer (c_max_deliver c) ({[seq]} ∪ c_acked c) (c_delivered c) in
                   let s' := set_consumers (insert cname c') s in
                   let s'' := if s_workqueue s then set_msgs (remove_seq seq) s' else s' in
                   (Ok tt, set_streams (insert name s'') b)
               | None => (Ok tt, b)
               end
           | None => (Ok tt, b)
           end.

Definition parseWorkItem (p : Payload) : option WorkItem :=
  match p with PWorkItem w => Some w | _ => None end.
Definition parseDLQItem (p : Payload) : option DLQItem :=
  match p with PDLQItem d => Some d | _ => None end.
Definition parseInboxMessage (p : Payload) : option InboxMessage :=
  match p with PInbox m => Some m | _ => None end.

End Nats.


(* ===================================================================== *)
(** ** workqueue.ts *)
(* ===================================================================== *)

Module Workqueue.
Import Nats.
Local Open Scope nats_scope.

Definition WORKQUEUE_SUBJECT_PREFIX : string := "global.workqueue".

(** [DEFAULT_OPTIONS.maxDeliveryAttempts] *)
Definition DEFAULT_maxDeliveryAttempts : nat := 3.

(** [capability.replace(/[^a-zA-Z0-9]/g, '_').toUpperCase()] *)
Fixpoint sanitizeCapability (capability : string) : string :=
  match capability with
  | EmptyString => EmptyString
  | String c rest =>
      String (if Js.is_alnum c then Js.to_upper c else "_"%char)
             (sanitizeCapability rest)
  end.

Definition getWorkQueueSubject (capability : string) : string :=
  WORKQUEUE_SUBJECT_PREFIX +:+ "." +:+ capability.

Definition streamName (capability : string) : string :=
  "WORKQUEUE_" +:+ sanitizeCapability capability.

Definition consumerName (capability : string) : string :=
  "worker-" +:+ sanitizeCapability capability.

Definition isValidUUID (uuid : string) : bool :=
  Js.matches Js.UUID_V4_PATTERN uuid.

Definition validateWorkItem (item : WorkItem) : result unit :=
  if negb (isValidUUID (w_id item)) then
    Throw ("Invalid work item ID: " +:+ w_id item +:+ " (must be UUID v4)")
  else if negb (Js.truthy (w_capability item)) || Js.trim_is_empty (w_capability item) then
    Throw "Work item capability cannot be empty"
  else
    match w_priority item with
    | Some p =>
        if ((p <? 1) || (p >? 10))%Z then
          Throw ("Invalid priority: " +:+ Js.show_Z p +:+ " (must be 1-10)")
        else Ok tt
    | None => Ok tt
    end.

Definition createWorkQueueStream (capability : string) : M unit :=
  getJetStreamManager ;;;
  try_catch
    (let* existingStream :=
       try_catch (let* s := streams_info (streamName capability) in ret (Some s))
                 (fun _ => ret None) in
     match existingStream with
     | Some _ => ret tt
     | None => streams_add (streamName capability) (getWorkQueueSubject capability) true
     end)
    (fun e =>
       if Js.includes "already in use" e then ret tt
       else throw ("Failed to create work queue stream for " +:+ capability +:+ ": " +:+ e)).

Definition publishWorkItem (item : WorkItem) : M string :=
  match validateWorkItem item with
  | Throw e => throw e
  | Ok _ =>
      getJetStreamClient ;;;
      try_catch
        (publish (getWorkQueueSubject (w_capability item)) (PWorkItem item) None ;;;
         ret (w_id item))
        (fun e =>
           throw ("Failed to publish work item " +:+ w_id item +:+ " to queue "
                  +:+ w_capability item +:+ ": " +:+ e))
  end.

Definition set_attempts (n : Z) (w : WorkItem) : WorkItem :=
  mkWorkItem (w_id w) (w_taskId w) (w_capability w) (w_description w)
    (w_priority w) (w_deadline w) (w_contextData w) (w_offeredBy w)
    (w_offeredAt w) n.

(** [msgInfo?.deliveryCount || 1] *)
Definition deliveryCount_or_1 (n : nat) : Z :=
  match n with O => 1 | _ => Z.of_nat n end.

(** The body of [for await (const msg of messages)] in [claimWorkItem]. *)
Fixpoint claim_loop (name cname : string) (messages : list JsMsg) : M (option WorkItem) :=
  match messages with
  | [] => ret None
  | msg :: rest =>
      match parseWorkItem (j_data msg) with
      | Some item =>
          ack name cname (j_seq msg) ;;;
          ret (Some (set_attempts (deliveryCount_or_1 (j_deliveryCount msg)) item))
      | None =>
          ack name cname (j_seq msg) ;;;
          claim_loop name cname rest
      end
  end.

(** [claimWorkItem(capability, timeoutMs)]. No time passes in the model: a
    fetch that would expire is a fetch that delivers nothing. *)
Definition claimWorkItem (capability : string) (timeoutMs : Z) : M (option WorkItem) :=
  getJetStreamClient ;;;
  getJetStreamManager ;;;
  let name := streamName capability in
  let cname := consumerName capability in
  try_catch
    (let* exists_ :=
       try_catch (streams_info name ;;; ret true) (fun _ => ret false) in
     if negb exists_ then ret None
     else
       try_catch (consumers_info name cname ;;; ret tt)
         (fun _ => consumers_add name cname (Some DEFAULT_maxDeliveryAttempts)) ;;;
       let* messages := fetch name cname 1 in
       claim_loop name cname messages)
    (fun e =>
       if Js.includes "timeout" e || Js.includes "expired" e then ret None
       else throw ("Failed to claim work from " +:+ capability +:+ " queue: " +:+ e)).

Definition getPendingWorkCount (capability : string) : M nat :=
  getJetStreamManager ;;;
  try_catch
    (let* info := streams_info (streamName capability) in
     ret (List.length (s_msgs info)))
    (fun e =>
       if Js.includes "not found" e then ret 0%nat
       else throw ("Failed to get pending work count for " +:+ capability +:+ ": " +:+ e)).

End Workqueue.

(* ===================================================================== *)
(** ** dlq.ts *)
(* ===================================================================== *)

Module Dlq.
Import Nats.
Local Open Scope nats_scope.

Definition DLQ_SUBJECT : string := "global.workqueue.deadletter".
Definition DLQ_STREAM_NAME : string := "WORKQUEUE_DEADLETTER".

Definition createDLQStream : M unit :=
  getJetStreamManager ;;;
  try_catch
    (let* existingStream :=
       try_catch (let* s := streams_info DLQ_STREAM_NAME in ret (Some s))
                 (fun _ => ret None) in
     match existingStream with
     | Some _ => ret tt
     | None => streams_add DLQ_STREAM_NAME DLQ_SUBJECT false
     end)
    (fun e =>
       if Js.includes "already in use" e then ret tt
       else throw ("Failed to create DLQ stream: " +:+ e)).

Definition moveToDeadLetter (now : timestamp) (item : WorkItem) (reason : string)
    (errors : option (list string)) : M unit :=
  getJetStreamClient ;;;
  let dlqItem :=
    mkDLQItem (w_id item) item reason (w_attempts item) now (default [] errors) in
  try_catch
    (publish DLQ_SUBJECT (PDLQItem dlqItem) (Some (w_id item)) ;;; ret tt)
    (fun e => throw ("Failed to move item " +:+ w_id item +:+ " to DLQ: " +:+ e)).

Definition not_found_msg (id : string) : string :=
  "DLQ item " +:+ id +:+ " not found".

(** The scan [for (let seq = 1; seq <= last_seq; seq++)] shared by
    [getDeadLetterItem], [retryDeadLetterItem] and [discardDeadLetterItem]:
    the first sequence whose message parses to an item with this id; a
    message that is missing or does not parse is skipped. *)
Fixpoint scan (id : string) (seqs : list nat) : M (option (DLQItem * nat)) :=
  match seqs with
  | [] => ret None
  | seq :: rest =>
      let* hit :=
        try_catch
          (let* msgInfo := getMessage DLQ_STREAM_NAME seq in
           match parseDLQItem (m_data msgInfo) with
           | Some item =>
               ret (if String.eqb (d_id item) id then Some (item, seq) else None)
           | None => throw "Unexpected token in JSON"
           end)
          (fun _ => ret None) in
      match hit with
      | Some found => ret (Some found)
      | None => scan id rest
      end
  end.

Definition getDeadLetterItem (id : string) : M (option DLQItem) :=
  getJetStreamManager ;;;
  try_catch
    (let* streamInfo := streams_info DLQ_STREAM_NAME in
     if (List.length (s_msgs streamInfo) =? 0)%nat then ret None
     else
       let* hit := scan id (seq 1 (s_last_seq streamInfo)) in
       ret (fst <$> hit))
    (fun e =>
       if Js.includes "not found" e || Js.includes "invalid json" e then ret None
       else throw ("Failed to get DLQ item " +:+ id +:+ ": " +:+ e)).

Definition set_workItem (w : WorkItem) (d : DLQItem) : DLQItem :=
  mkDLQItem (d_id d) w (d_reason d) (d_attempts d) (d_failedAt d) (d_errors d).

Definition retryDeadLetterItem (id : string) (resetAttempts : bool) : M unit :=
  getJetStreamManager ;;;
  getJetStreamClient ;;;
  try_catch
    (let* streamInfo := streams_info DLQ_STREAM_NAME in
     if (List.length (s_msgs streamInfo) =? 0)%nat then throw (not_found_msg id)
     else
       let* hit := scan id (seq 1 (s_last_seq streamInfo)) in
       match hit with
       | None => throw (not_found_msg id)
       | Some (dlqItem, messageSeq) =>
           let dlqItem :=
             if resetAttempts
             then set_workItem (Workqueue.set_attempts 0 (d_workItem dlqItem)) dlqItem
             else dlqItem in
           let workQueueSubject := "global.workqueue." +:+ w_capability (d_workItem dlqItem) in
           publish workQueueSubject (PWorkItem (d_workItem dlqItem)) None ;;;
           deleteMessage DLQ_STREAM_NAME messageSeq ;;;
           ret tt
       end)
    (fun e =>
       if Js.includes "not found" e
          || Js.includes (not_found_msg id) e
          || Js.includes "invalid json" e
       then throw (not_found_msg id)
       else throw ("Failed to retry DLQ item " +:+ id +:+ ": " +:+ e)).

Definition discardDeadLetterItem (id : string) : M unit :=
  getJetStreamManager ;;;
  try_catch
    (let* streamInfo := streams_info DLQ_STREAM_NAME in
     if (List.length (s_msgs streamInfo) =? 0)%nat then throw (not_found_msg id)
     else
       let* hit := scan id (seq 1 (s_last_seq streamInfo)) in
       match hit with
       | None => throw (not_found_msg id)
       | Some (_, messageSeq) =>
           deleteMessage DLQ_STREAM_NAME messageSeq ;;;
           ret tt
       end)
    (fun e =>
       if Js.includes "not found" e
          || Js.includes (not_found_msg id) e
          || Js.includes "invalid json" e
       then throw (not_found_msg id)
       else throw ("Failed to discard DLQ item " +:+ id +:+ ": " +:+ e)).

End Dlq.


(* ===================================================================== *)
(** ** coordinator.ts *)
(* ===================================================================== *)

Module Coordinator.
Import Nats.

Inductive AssignmentStatus := Pending | Assigned | InProgress | Completed | Failed.

#[global] Instance AssignmentStatus_eq_dec : EqDecision AssignmentStatus.
Proof. solve_decision. Defined.

Record WorkAssignment := mkWorkAssignment {
  a_workItemId : string;
  a_taskId : string;
  a_capability : string;
  a_assignedTo : option string;
  a_assignedAt : option timestamp;
  a_status : AssignmentStatus;
  a_progress : Z;
  a_attempts : Z;
  a_maxAttempts : Z;
  a_createdAt : timestamp;
  a_completedAt : option timestamp;
  a_result : option string;
  a_error : option string;
}.

Record CoordinatorConfig := mkCoordinatorConfig {
  cfg_maxAttempts : option Z;
  cfg_assignmentTimeoutMs : option Z;
  cfg_autoRetry : option bool;
  cfg_coordinatorGuid : string;
  cfg_projectId : string;
  cfg_username : option string;
}.

(** [this.config], with the defaults filled in. *)
Record Config := mkConfig {
  maxAttempts : Z;
  assignmentTimeoutMs : Z;
  autoRetry : bool;
  coordinatorGuid : string;
  coordinatorProjectId : string;
  coordinatorUsername : option string;
}.

Record WorkRequest := mkWorkRequest {
  q_taskId : string;
  q_capability : string;
  q_description : string;
  q_priority : option Z;
  q_deadline : option timestamp;
  q_contextData : option string;
  q_preferredWorker : option string;
}.

(** The state of a [Coordinator] object. A pending [setTimeout] is recorded
    by the instant at which it fires. *)
Record t := mkCoordinator {
  config : Config;
  assignments : gmap string WorkAssignment;
  timeoutCheckers : gmap string Z;
}.

Definition createCoordinator (c : CoordinatorConfig) : t :=
  mkCoordinator
    (mkConfig (default 3 (cfg_maxAttempts c))
              (default 300000 (cfg_assignmentTimeoutMs c))
              (default true (cfg_autoRetry c))
              (cfg_coordinatorGuid c) (cfg_projectId c)
              (if Js.truthy_opt (cfg_username c) then cfg_username c else None))
    ∅ ∅.

Definition set_assignment (id : string) (a : WorkAssignment) (c : t) : t :=
  mkCoordinator (config c) (<[id := a]> (assignments c)) (timeoutCheckers c).

Definition clearTimeoutChecker (workItemId : string) (c : t) : t :=
  mkCoordinator (config c) (assignments c) (delete workItemId (timeoutCheckers c)).

Definition startTimeoutChecker (now : timestamp) (workItemId : string) (c : t) : t :=
  let c := clearTimeoutChecker workItemId c in
  mkCoordinator (config c) (assignments c)
    (<[workItemId := now + assignmentTimeoutMs (config c)]> (timeoutCheckers c)).

Definition resetTimeoutChecker := startTimeoutChecker.

Definition getAssignment (workItemId : string) (c : t) : option WorkAssignment :=
  assignments c !! workItemId.

Definition submitWork (now : timestamp) (randomUUID : string) (request : WorkRequest)
    (c : t) (b : Broker) : result string * t * Broker :=
  let workItemId := randomUUID in
  let assignment :=
    mkWorkAssignment workItemId (q_taskId request) (q_capability request)
      None None Pending 0 0 (maxAttempts (config c)) now None None None in
  let c := set_assignment workItemId assignment c in
  let workItem :=
    mkWorkItem workItemId (q_taskId request) (q_capability request)
      (q_description request) (Some (default 5 (q_priority request)))
      (q_deadline request) (q_contextData request)
      (coordinatorGuid (config c)) now 0 in
  match Workqueue.createWorkQueueStream (q_capability request) b with
  | (Throw e, b) => (Throw e, c, b)
  | (Ok _, b) =>
      match Workqueue.publishWorkItem workItem b with
      | (Throw e, b) => (Throw e, c, b)
      | (Ok _, b) => (Ok workItemId, startTimeoutChecker now workItemId c, b)
      end
  end.

Definition recordClaim (now : timestamp) (workItemId workerGuid : string) (c : t) : bool * t :=
  match assignments c !! workItemId with
  | None => (false, c)
  | Some assignment =>
      if negb (bool_decide (a_status assignment = Pending)) then (false, c)
      else
        let assignment :=
          mkWorkAssignment (a_workItemId assignment) (a_taskId assignment)
            (a_capability assignment) (Some workerGuid) (Some now) Assigned
            (a_progress assignment) (a_attempts assignment + 1)
            (a_maxAttempts assignment) (a_createdAt assignment)
            (a_completedAt assignment) (a_result assignment) (a_error assignment) in
        (true, resetTimeoutChecker now workItemId (set_assignment workItemId assignment c))
  end.

Definition recordProgress (now : timestamp) (workItemId : string) (progress : Z)
    (c : t) : bool * t :=
  match assignments c !! workItemId with
  | None => (false, c)
  | Some assignment =>
      if negb (bool_decide (a_status assignment = Assigned))
         && negb (bool_decide (a_status assignment = InProgress))
      then (false, c)
      else
        let assignment :=
          mkWorkAssignment (a_workItemId assignment) (a_taskId assignment)
            (a_capability assignment) (a_assignedTo assignment)
            (a_assignedAt assignment) InProgress (Js.clamp_0_100 progress)
            (a_attempts assignment) (a_maxAttempts assignment)
            (a_createdAt assignment) (a_completedAt assignment)
            (a_result assignment) (a_error assignment) in
        (true, resetTimeoutChecker now workItemId (set_assignment workItemId assignment c))
  end.

Definition recordCompletion (now : timestamp) (workItemId : string)
    (result : option string) (c : t) : bool * t :=
  match assignments c !! workItemId with
  | None => (false, c)
  | Some assignment =>
      let assignment :=
        mkWorkAssignment (a_workItemId assignment) (a_taskId assignment)
          (a_capability assignment) (a_assignedTo assignment)
          (a_assignedAt assignment) Completed 100
          (a_attempts assignment) (a_maxAttempts assignment)
          (a_createdAt assignment) (Some now)
          (match result with Some r => Some r | None => a_result assignment end)
          (a_error assignment) in
      (true, clearTimeoutChecker workItemId (set_assignment workItemId assignment c))
  end.

(** The work item republished by the retry branch of [recordError]. *)
Definition retryWorkItem (now : timestamp) (c : t) (workItemId : string)
    (assignment : WorkAssignment) : WorkItem :=
  mkWorkItem workItemId (a_taskId assignment) (a_capability assignment)
    ("Retry attempt " +:+ Js.show_Z (a_attempts assignment + 1))
    (Some 7) None None (coordinatorGuid (config c)) now (a_attempts assignment).

(** The work item handed to the dead letter queue by [recordError]. *)
Definition failedWorkItem (c : t) (workItemId : string)
    (assignment : WorkAssignment) : WorkItem :=
  mkWorkItem workItemId (a_taskId assignment) (a_capability assignment)
    "Failed work item" None None None (coordinatorGuid (config c))
    (a_createdAt assignment) (a_attempts assignment).

Definition recordError (now : timestamp) (workItemId error : string) (recoverable : bool)
    (c : t) (b : Broker) : result bool * t * Broker :=
  match assignments c !! workItemId with
  | None => (Ok false, c, b)
  | Some assignment =>
      if recoverable && autoRetry (config c)
         && (a_attempts assignment <? a_maxAttempts assignment)%Z
      then
        let assignment :=
          mkWorkAssignment (a_workItemId assignment) (a_taskId assignment)
            (a_capability assignment) None None Pending 0
            (a_attempts assignment) (a_maxAttempts assignment)
            (a_createdAt assignment) (a_completedAt assignment)
            (a_result assignment) (Some error) in
        let c := set_assignment workItemId assignment c in
        match Workqueue.publishWorkItem (retryWorkItem now c workItemId assignment) b with
        | (Throw e, b) => (Throw e, c, b)
        | (Ok _, b) => (Ok true, startTimeoutChecker now workItemId c, b)
        end
      else
        let assignment :=
          mkWorkAssignment (a_workItemId assignment) (a_taskId assignment)
            (a_capability assignment) (a_assignedTo assignment)
            (a_assignedAt assignment) Failed (a_progress assignment)
            (a_attempts assignment) (a_maxAttempts assignment)
            (a_createdAt assignment) (a_completedAt assignment)
            (a_result assignment) (Some error) in
        let c := clearTimeoutChecker workItemId (set_assignment workItemId assignment c) in
        match Dlq.moveToDeadLetter now (failedWorkItem c workItemId assignment)
                error (Some [error]) b with
        | (Throw e, b) => (Throw e, c, b)
        | (Ok _, b) => (Ok true, c, b)
        end
  end.

(** The callback armed by [startTimeoutChecker], run when the timer fires. *)
Definition timeoutFired (now : timestamp) (workItemId : string)
    (c : t) (b : Broker) : result bool * t * Broker :=
  match assignments c !! workItemId with
  | Some assignment =>
      if bool_decide (a_status assignment = Pending)
         || bool_decide (a_status assignment = Assigned)
      then recordError now workItemId "Assignment timed out" true c b
      else (Ok false, c, b)
  | None => (Ok false, c, b)
  end.

(** One call of the four recording methods. *)
Inductive Call :=
| CallClaim (workItemId workerGuid : string)
| CallProgress (workItemId : string) (progress : Z)
| CallCompletion (workItemId : string) (result : option string)
| CallError (workItemId error : string) (recoverable : bool).

Definition call (now : timestamp) (k : Call) (c : t) (b : Broker) : t * Broker :=
  match k with
  | CallClaim i w => ((recordClaim now i w c).2, b)
  | CallProgress i p => ((recordProgress now i p c).2, b)
  | CallCompletion i r => ((recordCompletion now i r c).2, b)
  | CallError i e r =>
      let '(_, c', b') := recordError now i e r c b in (c', b')
  end.

Definition is_terminal (s : AssignmentStatus) : bool :=
  bool_decide (s = Completed) || bool_decide (s = Failed).

End Coordinator.


(* ===================================================================== *)
(** ** kv.ts: the registry bucket *)
(* ===================================================================== *)

Module Kv.

(** [bucketInstance] of kv.ts and the content of the bucket on the server
    (key = GUID). Every value was written by [putRegistryEntry] and parses. *)
Record t := mkKv {
  bucketInstance : bool;
  entries : gmap string RegistryEntry;
}.

Definition not_initialized : string :=
  "KV bucket not initialized. Call initializeRegistry() first.".

(** [initializeRegistry()]: returns early when the bucket handle is there,
    needs the JetStream manager otherwise. The creation of a bucket that
    does not exist yet, and the race with a concurrent creator, end with the
    handle set and are not distinguished. *)
Definition initializeRegistry (connected : bool) (kv : t) : result unit * t :=
  if bucketInstance kv then (Ok tt, kv)
  else if connected then (Ok tt, mkKv true (entries kv))
  else (Throw "JetStream manager not initialized. Call connectToNats() first.", kv).

Definition getRegistryEntry (guid : string) (kv : t) : result (option RegistryEntry) :=
  if bucketInstance kv then Ok (entries kv !! guid) else Throw not_initialized.

Definition putRegistryEntry (guid : string) (entry : RegistryEntry) (kv : t) : result unit * t :=
  if bucketInstance kv then (Ok tt, mkKv true (<[guid := entry]> (entries kv)))
  else (Throw not_initialized, kv).

(** [listRegistryEntries(filter)]: the keys of the bucket in the order the
    bucket enumerates them, each fetched and kept when the filter accepts. *)
Definition listRegistryEntries (filter : RegistryEntry -> bool) (kv : t)
    : result (list RegistryEntry) :=
  if bucketInstance kv
  then Ok (List.filter filter (snd <$> map_to_list (entries kv)))
  else Throw not_initialized.

End Kv.

(* ===================================================================== *)
(** ** tools/registry.ts: the tool handlers *)
(* ===================================================================== *)

Module Tools.
Import Nats.
Local Open Scope nats_scope.

Record SessionState := mkSessionState {
  st_handle : option string;
  agentGuid : option string;
  registeredEntry : option RegistryEntry;
}.

Record ResolvedConfig := mkResolvedConfig {
  cfg_natsUrl : string;
  cfg_projectPath : string;
}.

(** What a handler reads from its host: [hostname()], [process.env.USER ||
    process.env.USERNAME], the clock and [randomUUID()], and the two helpers
    of this repository that are not among the sources, [validateHandle]
    (tools/handle.ts) and [generateProjectId] (registry.ts). *)
Record Host := mkHost {
  os_hostname : string;
  env_user : option string;
  now : timestamp;
  randomUUID : string;
  validateHandle : string -> option string;
  generateProjectId : string -> string;
}.

(** The broker-side and module-level state the handlers act on: the
    registry bucket, the streams, and the background tasks of this session
    ([heartbeatCleanup], [inboxUnsubscribe]), each recorded by the GUID it
    serves. *)
Record World := mkWorld {
  kv : Kv.t;
  broker : Broker;
  heartbeat : option string;
  inboxSubscription : option string;
}.

Inductive Response (A : Type) : Type :=
| RError (text : string)
| RSuccess (a : A).
Arguments RError {A} text.
Arguments RSuccess {A} a.

Record EntryParams := mkEntryParams {
  ep_agentType : string;
  ep_handle : string;
  ep_hostname : string;
  ep_projectPath : string;
  ep_natsUrl : string;
  ep_capabilities : option (list string);
  ep_scope : option Scope;
  ep_visibility : option Visibility;
  ep_username : option string;
}.

(** Modelled from the spec: [createRegistryEntry] of registry.ts is not among
    the sources; a new entry gets a fresh UUID v4, the project id derived
    from the project path, status online, no task, both timestamps set to
    now, and the defaults its tests name (after coordinator.ts in the
    sources, lines 973-1106). *)
Definition createRegistryEntry (h : Host) (p : EntryParams) : RegistryEntry :=
  mkRegistryEntry (randomUUID h) (ep_agentType p) (ep_handle p) (ep_hostname p)
    (generateProjectId h (ep_projectPath p)) (ep_natsUrl p) (ep_username p)
    (default [] (ep_capabilities p)) (default ScopeProject (ep_scope p))
    (default ProjectOnly (ep_visibility p)) Online 0 (now h) (now h).

Definition to_lower (c : ascii) : ascii :=
  let n := nat_of_ascii c in
  if (65 <=? n)%nat && (n <=? 90)%nat then ascii_of_nat (n + 32) else c.

(** [.toLowerCase().replace(/[\s_]+/g, '-')], on ASCII input *)
Fixpoint hyphenate (in_run : bool) (s : string) : string :=
  match s with
  | EmptyString => EmptyString
  | String c rest =>
      if Js.is_space c || Ascii.eqb c "_"%char
      then (if in_run then hyphenate true rest else String "-"%char (hyphenate true rest))
      else String (to_lower c) (hyphenate false rest)
  end.

(** [.replace(/[^a-z0-9-]/g, '')] *)
Fixpoint keep_handle_chars (s : string) : string :=
  match s with
  | EmptyString => EmptyString
  | String c rest =>
      let n := nat_of_ascii c in
      if Js.is_digit c || ((97 <=? n)%nat && (n <=? 122)%nat) || Ascii.eqb c "-"%char
      then String c (keep_handle_chars rest)
      else keep_handle_chars rest
  end.

Definition generateHandle (agentType : string) : string :=
  let base := keep_handle_chars (hyphenate false agentType) in
  if Js.truthy base then base else "agent".

(** The filter of [findReusableAgent]. *)
Definition reusable (handle projectId hostnameStr : string) (entry : RegistryEntry) : bool :=
  String.eqb (Types.handle entry) handle
  && String.eqb (Types.projectId entry) projectId
  && String.eqb (Types.hostname entry) hostnameStr
  && bool_decide (status entry = Offline).

Definition findReusableAgent (handle projectId hostnameStr : string) (k : Kv.t)
    : option string :=
  match Kv.listRegistryEntries (reusable handle projectId hostnameStr) k with
  | Ok (first :: _) => Some (guid first)
  | Ok [] => None
  | Throw _ => None
  end.

Definition set_guid (g : string) (e : RegistryEntry) : RegistryEntry :=
  mkRegistryEntry g (agentType e) (handle e) (hostname e) (projectId e)
    (natsUrl e) (username e) (capabilities e) (scope e) (visibility e)
    (status e) (currentTaskCount e) (registeredAt e) (lastHeartbeat e).

Definition INBOX_CONSUMER : string := "inbox".

Definition inboxStreamName (guid : string) : string :=
  "INBOX_" +:+ Js.replace_dash guid.

Definition getInboxSubject (guid : string) : string :=
  "global.agent." +:+ guid.

(** Modelled from the spec: [createInboxStream] and [subscribeToInbox] of
    inbox.ts are not among the sources; the stream of an agent is created
    if absent (an existing one is kept), and so is its durable consumer. *)
Definition createInboxStream (guid : string) : M unit :=
  getJetStreamManager ;;;
  try_catch
    (let* existing :=
       try_catch (let* s := streams_info (inboxStreamName guid) in ret (Some s))
                 (fun _ => ret None) in
     match existing with
     | Some _ => ret tt
     | None => streams_add (inboxStreamName guid) (getInboxSubject guid) false
     end)
    (fun e => if Js.includes "already in use" e then ret tt else throw e) ;;;
  consumers_add (inboxStreamName guid) INBOX_CONSUMER None.

Record RegisterArgs := mkRegisterArgs {
  arg_agentType : option string;
  arg_capabilities : option (list string);
  arg_scope : option Scope;
  arg_visibility : option Visibility;
}.

(** The successful answer of [handleRegisterAgent]: the entry it stored and
    whether the summary says the GUID was reused. *)
Record Registered := mkRegistered {
  reg_entry : RegistryEntry;
  reg_reused : bool;
}.

Definition handleRegisterAgent (h : Host) (args : RegisterArgs)
    (state : SessionState) (config : ResolvedConfig) (w : World)
    : Response Registered * SessionState * World :=
  let agentType := default "" (arg_agentType args) in
  if negb (Js.truthy agentType) || Js.trim_is_empty agentType then
    (RError "Error: agentType cannot be empty", state, w)
  else
    let handle :=
      if Js.truthy_opt (st_handle state) then default "" (st_handle state)
      else generateHandle agentType in
    match (if Js.truthy_opt (st_handle state) then None else validateHandle h handle) with
    | Some validationError =>
        (RError ("Error: Generated handle is invalid: " +:+ validationError), state, w)
    | None =>
        let state := mkSessionState (Some handle) (agentGuid state) (registeredEntry state) in
        match Kv.initializeRegistry (connected (broker w)) (kv w) with
        | (Throw e, _) =>
            (RError ("Error: Failed to initialize registry: " +:+ e), state, w)
        | (Ok _, k) =>
            let hostnameStr := os_hostname h in
            let username := env_user h in
            let projectId :=
              projectId (createRegistryEntry h
                (mkEntryParams agentType handle hostnameStr (cfg_projectPath config)
                   (cfg_natsUrl config) None None None None)) in
            let reusableGuid := findReusableAgent handle projectId hostnameStr k in
            let entryParams :=
              mkEntryParams agentType handle hostnameStr (cfg_projectPath config)
                (cfg_natsUrl config) (Some (default [] (arg_capabilities args)))
                (Some (default ScopeProject (arg_scope args)))
                (Some (default ProjectOnly (arg_visibility args)))
                (if Js.truthy_opt username then username else None) in
            let entry :=
              if Js.truthy_opt reusableGuid
              then set_guid (default "" reusableGuid) (createRegistryEntry h entryParams)
              else createRegistryEntry h entryParams in
            match Kv.putRegistryEntry (guid entry) entry k with
            | (Throw e, k) =>
                (RError ("Error: Failed to publish to registry: " +:+ e), state,
                 mkWorld k (broker w) (heartbeat w) (inboxSubscription w))
            | (Ok _, k) =>
                let state := mkSessionState (Some handle) (Some (guid entry)) (Some entry) in
                let '(inbox_ok, b) :=
                  match createInboxStream (guid entry) (broker w) with
                  | (Ok _, b) => (true, b)
                  | (Throw _, b) => (false, b)
                  end in
                (Tools.RSuccess (mkRegistered entry (Js.truthy_opt reusableGuid)), state,
                 mkWorld k b (Some (guid entry))
                   (if inbox_ok then Some (guid entry) else None))
            end
        end
    end.

Record PresenceArgs := mkPresenceArgs {
  arg_status : option Status;
  arg_currentTaskCount : option Z;
  arg_presence_capabilities : option (list string);
}.

Definition registered (state : SessionState) : option (string * RegistryEntry) :=
  match agentGuid state, registeredEntry state with
  | Some g, Some e => if Js.truthy g then Some (g, e) else None
  | _, _ => None
  end.

Definition handleUpdatePresence (h : Host) (args : PresenceArgs)
    (state : SessionState) (w : World)
    : Response RegistryEntry * SessionState * World :=
  match registered state with
  | None =>
      (RError "Error: You must be registered to update presence. Use register_agent first.",
       state, w)
  | Some (guid, _) =>
      match arg_status args, arg_currentTaskCount args, arg_presence_capabilities args with
      | None, None, None =>
          (RError "Error: At least one field (status, currentTaskCount, or capabilities) must be provided",
           state, w)
      | status, currentTaskCount, capabilities =>
          match Kv.getRegistryEntry guid (kv w) with
          | Throw e =>
              (RError ("Error: Failed to retrieve current entry: " +:+ e), state, w)
          | Ok None =>
              (RError "Error: Registry entry not found. You may need to re-register.", state, w)
          | Ok (Some currentEntry) =>
              let updatedEntry :=
                mkRegistryEntry (Types.guid currentEntry) (agentType currentEntry)
                  (handle currentEntry) (hostname currentEntry) (projectId currentEntry)
                  (natsUrl currentEntry) (username currentEntry)
                  (default (Types.capabilities currentEntry) capabilities)
                  (scope currentEntry) (visibility currentEntry)
                  (default (Types.status currentEntry) status)
                  (default (Types.currentTaskCount currentEntry) currentTaskCount)
                  (registeredAt currentEntry) (now h) in
              match Kv.putRegistryEntry guid updatedEntry (kv w) with
              | (Throw e, k) =>
                  (RError ("Error: Failed to update presence: " +:+ e), state,
                   mkWorld k (broker w) (heartbeat w) (inboxSubscription w))
              | (Ok _, k) =>
                  (Tools.RSuccess updatedEntry,
                   mkSessionState (st_handle state) (agentGuid state) (Some updatedEntry),
                   mkWorld k (broker w)
                     (if bool_decide (status = Some Offline) then None else heartbeat w)
                     (inboxSubscription w))
              end
          end
      end
  end.

Definition set_status (s : Status) (e : RegistryEntry) : RegistryEntry :=
  mkRegistryEntry (guid e) (agentType e) (handle e) (hostname e) (projectId e)
    (natsUrl e) (username e) (capabilities e) (scope e) (visibility e)
    s (currentTaskCount e) (registeredAt e) (lastHeartbeat e).

Definition handleDeregisterAgent (state : SessionState) (w : World)
    : Response (string * string) * SessionState * World :=
  match registered state with
  | None =>
      (RError "Error: You must be registered to deregister. Use register_agent first.",
       state, w)
  | Some (guid, entry0) =>
      let handle := Types.handle entry0 in
      (* stop the heartbeat, then unsubscribe from the inbox *)
      let w := mkWorld (kv w) (broker w) None None in
      match Kv.getRegistryEntry guid (kv w) with
      | Throw e => (RError ("Error: Failed to retrieve agent entry: " +:+ e), state, w)
      | Ok None => (RError "Error: Agent entry not found in registry.", state, w)
      | Ok (Some entry) =>
          let updatedEntry := set_status Offline entry in
          match Kv.putRegistryEntry guid updatedEntry (kv w) with
          | (Throw e, k) =>
              (RError ("Error: Failed to update registry entry: " +:+ e), state,
               mkWorld k (broker w) None None)
          | (Ok _, k) =>
              (Tools.RSuccess (guid, handle),
               mkSessionState (st_handle state) None None,
               mkWorld k (broker w) None None)
          end
      end
  end.

Record ReadArgs := mkReadArgs {
  arg_limit : option nat;
  arg_messageType : option string;
  arg_senderGuid : option string;
}.

(** [Math.min(args.limit ?? 10, 100)] *)
Definition read_limit (args : ReadArgs) : nat :=
  Nat.min (default 10%nat (arg_limit args)) 100.

(** The two filters of [handleReadDirectMessages]; a filter that is absent
    or empty accepts every message. *)
Definition matches_filters (messageType senderGuid : option string)
    (payload : InboxMessage) : bool :=
  negb (Js.truthy_opt messageType
        && negb (String.eqb (i_messageType payload) (default "" messageType)))
  && negb (Js.truthy_opt senderGuid
           && negb (String.eqb (i_senderGuid payload) (default "" senderGuid))).

(** The body of [for await (const msg of iter)]: a message that matches is
    kept and queued for acknowledgement, one that does not match or does not
    parse is acknowledged at once; the loop is left as soon as [limit]
    messages are kept. *)
Fixpoint read_loop (streamName : string) (limit : nat)
    (messageType senderGuid : option string) (iter : list JsMsg)
    (messages : list InboxMessage) (messagesToAck : list nat)
    : M (list InboxMessage * list nat) :=
  match iter with
  | [] => ret (messages, messagesToAck)
  | msg :: rest =>
      match parseInboxMessage (j_data msg) with
      | Some payload =>
          if matches_filters messageType senderGuid payload then
            let messages := (messages ++ [payload])%list in
            let messagesToAck := (messagesToAck ++ [j_seq msg])%list in
            if (limit <=? List.length messages)%nat then ret (messages, messagesToAck)
            else read_loop streamName limit messageType senderGuid rest messages messagesToAck
          else
            ack streamName INBOX_CONSUMER (j_seq msg) ;;;
            read_loop streamName limit messageType senderGuid rest messages messagesToAck
      | None =>
          ack streamName INBOX_CONSUMER (j_seq msg) ;;;
          read_loop streamName limit messageType senderGuid rest messages messagesToAck
      end
  end.

(** [for (const msg of messagesToAck) msg.ack()] *)
Fixpoint ack_all (streamName : string) (seqs : list nat) : M unit :=
  match seqs with
  | [] => ret tt
  | seq :: rest => ack streamName INBOX_CONSUMER seq ;;; ack_all streamName rest
  end.

(** Insertion of [m] after the messages that are not later than it. *)
Fixpoint insert_by_time (m : InboxMessage) (l : list InboxMessage) : list InboxMessage :=
  match l with
  | [] => [m]
  | x :: rest =>
      if (i_timestamp x <=? i_timestamp m)%Z then x :: insert_by_time m rest
      else m :: x :: rest
  end.

(** [messages.sort((a, b) => aTime - bTime)]: ascending by time, messages of
    equal time in their order of arrival (the sort is stable). *)
Definition sort_by_time (l : list InboxMessage) : list InboxMessage :=
  foldl (fun acc m => insert_by_time m acc) [] l.

(** [handleReadDirectMessages(args, state)]. The answer "No direct messages
    in your inbox." is the success with no message. [js.consumers.get] is
    given no consumer name in the source; the model reads through the
    consumer that the agent keeps on its inbox stream. *)
Definition handleReadDirectMessages (args : ReadArgs) (state : SessionState)
    (b : Broker) : Response (list InboxMessage) * Broker :=
  let limit := read_limit args in
  let messageType := arg_messageType args in
  let senderGuid := arg_senderGuid args in
  if Js.truthy_opt senderGuid
     && negb (Js.matches Js.UUID_V4_PATTERN (default "" senderGuid))
  then (RError "Error: Invalid senderGuid format. Must be a valid UUID v4.", b)
  else
    match registered state with
    | None =>
        (RError "Error: You must be registered to read messages. Use register_agent first.", b)
    | Some (readerGuid, _) =>
        let streamName := inboxStreamName readerGuid in
        let body : M (list InboxMessage) :=
          getJetStreamManager ;;;
          getJetStreamClient ;;;
          let* exists_ :=
            try_catch (streams_info streamName ;;; ret true) (fun _ => ret false) in
          if negb exists_ then ret []
          else
            let fetchLimit := (limit * 2)%nat in
            let* fetched :=
              try_catch
                (let* iter := fetch streamName INBOX_CONSUMER fetchLimit in
                 let* r := read_loop streamName limit messageType senderGuid iter [] [] in
                 ret (Some r))
                (fun e =>
                   if Js.includes "no messages" e || Js.includes "timeout" e
                   then ret None else throw e) in
            match fetched with
            | None => ret []
            | Some (messages, messagesToAck) =>
                ack_all streamName messagesToAck ;;;
                ret (sort_by_time messages)
            end in
        match body b with
        | (Ok messages, b) => (Tools.RSuccess messages, b)
        | (Throw e, b) => (RError ("Error: Failed to read messages: " +:+ e), b)
        end
    end.

End Tools.


(* ===================================================================== *)
(** ** Fixtures of the repository's tests and the statements under study *)
(* ===================================================================== *)

Module Fixtures.

(** [baseEntry] of the [isVisibleTo] tests (the registry tests that follow
    coordinator.ts in the sources, line 781); the two timestamps are
    2025-12-07T12:00:00.000Z. *)
Definition baseEntry (v : Visibility) : RegistryEntry :=
  mkRegistryEntry "123e4567-e89b-42d3-a456-426614174000" "developer" "TestAgent"
    "test-host" "1234567890abcdef" "nats://localhost:4222" (Some "testuser")
    ["typescript"] ScopeProject v Online 0 1765108800000 1765108800000.

(** [baseEntry] of the [redactEntry] tests (line 883). *)
Definition redactBase (v : Visibility) : RegistryEntry :=
  mkRegistryEntry "123e4567-e89b-42d3-a456-426614174000" "developer" "TestAgent"
    "test-host" "1234567890abcdef" "nats://localhost:4222" (Some "testuser")
    ["typescript"; "testing"] ScopeProject v Online 2 1765108800000 1765109100000.

Definition sameProjectRequester : Requester :=
  mkRequester "223e4567-e89b-42d3-a456-426614174000" "1234567890abcdef" (Some "otheruser").

Definition differentProjectRequester : Requester :=
  mkRequester "323e4567-e89b-42d3-a456-426614174000" "fedcba0987654321" (Some "anotheruser").

Definition sameUserRequester : Requester :=
  mkRequester "423e4567-e89b-42d3-a456-426614174000" "fedcba0987654321" (Some "testuser").

Definition with_guid (g : string) (r : Requester) : Requester :=
  mkRequester g (r_projectId r) (r_username r).

Definition with_username (u : option string) (r : Requester) : Requester :=
  mkRequester (r_guid r) (r_projectId r) u.

Definition without_username (e : RegistryEntry) : RegistryEntry :=
  mkRegistryEntry (guid e) (agentType e) (handle e) (hostname e) (projectId e)
    (natsUrl e) None (capabilities e) (scope e) (visibility e) (status e)
    (currentTaskCount e) (registeredAt e) (lastHeartbeat e).

End Fixtures.

Module Stated.

(** The requester shares the entry's user: both usernames are present, not
    empty, and equal. *)
Definition same_user (e : RegistryEntry) (r : Requester) : Prop :=
  ∃ u, u ≠ "" ∧ username e = Some u ∧ r_username r = Some u.

(** What a redacted view of an entry always shows. *)
Definition shows_public_fields (e : RegistryEntry) (v : PartialEntry) : Prop :=
  p_guid v = Some (guid e) ∧ p_agentType v = Some (agentType e)
  ∧ p_handle v = Some (handle e) ∧ p_capabilities v = Some (capabilities e)
  ∧ p_scope v = Some (scope e) ∧ p_status v = Some (status e)
  ∧ p_currentTaskCount v = Some (currentTaskCount e)
  ∧ p_lastHeartbeat v = Some (lastHeartbeat e).

(** Redaction as section 4.1 states it. *)
Definition redaction_as_stated : Prop :=
  ∀ (e : RegistryEntry) (r : Requester),
    (Registry.isVisibleTo e r = false → Registry.redactEntry e r = Registry.empty_view)
    ∧ (r_guid r = guid e → Registry.redactEntry e r = Registry.full_view e)
    ∧ (Registry.isVisibleTo e r = true → r_guid r ≠ guid e →
         let v := Registry.redactEntry e r in
         shows_public_fields e v
         ∧ (is_Some (p_hostname v) → r_projectId r = projectId e)
         ∧ (is_Some (p_projectId v) → r_projectId r = projectId e)
         ∧ (is_Some (p_natsUrl v) → r_projectId r = projectId e)
         ∧ (is_Some (p_username v) → visibility e = UserOnly ∧ same_user e r)).

End Stated.

Module WorkqueueStated.

(** One of the three conditions that [validateWorkItem] rejects. *)
Definition invalid (item : WorkItem) : Prop :=
  Workqueue.isValidUUID (w_id item) = false
  ∨ Js.trim_is_empty (w_capability item) = true
  ∨ ∃ p, w_priority item = Some p ∧ (p < 1 ∨ 10 < p).

Definition validation_error (item : WorkItem) (msg : string) : Prop :=
  msg = "Invalid work item ID: " +:+ w_id item +:+ " (must be UUID v4)"
  ∨ msg = "Work item capability cannot be empty"
  ∨ ∃ p, w_priority item = Some p
         ∧ msg = "Invalid priority: " +:+ Js.show_Z p +:+ " (must be 1-10)".

(** The stream [q] after one more message was appended to it. *)
Definition appended (payload : Nats.Payload) (q : Nats.Stream) : Nats.Stream :=
  Nats.mkStream (Nats.s_subject q) (Nats.s_workqueue q)
    (Nats.s_msgs q ++ [Nats.mkStoredMsg (S (Nats.s_last_seq q)) payload])
    (S (Nats.s_last_seq q)) (Nats.s_msgids q) (Nats.s_consumers q).

End WorkqueueStated.

Module DlqStated.




End DlqStated.

(** A broker with the work queue of capability "typescript" and a dead
    letter stream that holds one record. *)
Module Scenario.

Definition U : string := "550e8400-e29b-41d4-a716-446655440000".
Definition U' : string := "6ba7b810-9dad-41d1-80b4-00c04fd430c8".

Definition item : WorkItem :=
  mkWorkItem U "task-123" "typescript" "Test task" (Some 7) None None
    "coord-guid-1234" 1000 3.

Definition dlq_record : DLQItem :=
  mkDLQItem U item "gave up" 3 2000 ["e1"].

Definition queue_stream : Nats.Stream :=
  Nats.mkStream "global.workqueue.typescript" true [] 0 ∅ ∅.

Definition dlq_stream : Nats.Stream :=
  Nats.mkStream Dlq.DLQ_SUBJECT false
    [Nats.mkStoredMsg 1 (Nats.PDLQItem dlq_record)] 1 {[U]} ∅.

Definition empty_broker : Nats.Broker := Nats.mkBroker true ∅ ∅.

Definition queue_broker : Nats.Broker :=
  Nats.mkBroker true
    (<["WORKQUEUE_TYPESCRIPT" := queue_stream]> ∅)
    (<["global.workqueue.typescript" := "WORKQUEUE_TYPESCRIPT"]> ∅).

Definition queues_broker : Nats.Broker :=
  Nats.mkBroker true
    (<[Dlq.DLQ_STREAM_NAME := Nats.mkStream Dlq.DLQ_SUBJECT false [] 0 ∅ ∅]>
       (<["WORKQUEUE_TYPESCRIPT" := queue_stream]> ∅))
    (<[Dlq.DLQ_SUBJECT := Dlq.DLQ_STREAM_NAME]>
       (<["global.workqueue.typescript" := "WORKQUEUE_TYPESCRIPT"]> ∅)).

Definition dlq_broker : Nats.Broker :=
  Nats.mkBroker true
    (<[Dlq.DLQ_STREAM_NAME := dlq_stream]>
       (<["WORKQUEUE_TYPESCRIPT" := queue_stream]> ∅))
    (<[Dlq.DLQ_SUBJECT := Dlq.DLQ_STREAM_NAME]>
       (<["global.workqueue.typescript" := "WORKQUEUE_TYPESCRIPT"]> ∅)).

End Scenario.

Module CoordinatorStated.

(** The condition under which [recordError] retries. *)
Definition retries (recoverable : bool) (c : Coordinator.t)
    (a : Coordinator.WorkAssignment) : Prop :=
  recoverable = true ∧ Coordinator.autoRetry (Coordinator.config c) = true
  ∧ Coordinator.a_attempts a < Coordinator.a_maxAttempts a.

(** The record that [moveToDeadLetter] writes for a failed assignment. *)
Definition dead_letter (now : timestamp) (c : Coordinator.t) (id error : string)
    (a : Coordinator.WorkAssignment) : DLQItem :=
  mkDLQItem id (Coordinator.failedWorkItem c id a) error (Coordinator.a_attempts a)
    now [error].

(** Once an assignment is completed or failed, no call of the four recording
    methods changes its status, its worker or its progress. *)
Definition terminal_is_final : Prop :=
  ∀ (now : timestamp) (k : Coordinator.Call) (c : Coordinator.t) (b : Nats.Broker)
    (id : string) (a : Coordinator.WorkAssignment),
    Coordinator.assignments c !! id = Some a →
    Coordinator.is_terminal (Coordinator.a_status a) = true →
    ∃ a', Coordinator.assignments (Coordinator.call now k c b).1 !! id = Some a'
          ∧ Coordinator.a_status a' = Coordinator.a_status a
          ∧ Coordinator.a_assignedTo a' = Coordinator.a_assignedTo a
          ∧ Coordinator.a_progress a' = Coordinator.a_progress a.

End CoordinatorStated.

(** A coordinator with one work item that was submitted, claimed by a
    worker, and then failed for good. *)
Module CoordinatorScenario.

Definition request : Coordinator.WorkRequest :=
  Coordinator.mkWorkRequest "task-123" "typescript" "Test task" None None None None.

Definition c0 : Coordinator.t :=
  Coordinator.createCoordinator
    (Coordinator.mkCoordinatorConfig None None None "coord-guid-1234" "project-1234"
       (Some "coordinator")).

Definition submitted : Coordinator.t * Nats.Broker :=
  let '(_, c, b) := Coordinator.submitWork 1000 Scenario.U request c0 Scenario.queues_broker in
  (c, b).

Definition claimed : Coordinator.t * Nats.Broker :=
  ((Coordinator.recordClaim 2000 Scenario.U "worker-1" submitted.1).2, submitted.2).

(** The assignment of the work item once it is claimed. *)
Definition claimed_assignment : Coordinator.WorkAssignment :=
  Coordinator.mkWorkAssignment Scenario.U "task-123" "typescript"
    (Some "worker-1") (Some 2000) Coordinator.Assigned 0 1 3 1000 None None None.

Definition failed : Coordinator.t * Nats.Broker :=
  Coordinator.call 3000 (Coordinator.CallError Scenario.U "Fatal error" false)
    claimed.1 claimed.2.

Definition completed : Coordinator.t * Nats.Broker :=
  Coordinator.call 3000 (Coordinator.CallCompletion Scenario.U None)
    claimed.1 claimed.2.

End CoordinatorScenario.

Module ToolsStated.

(** The entry that a presence update writes over [old]. *)
Definition presence_update (now : timestamp) (args : Tools.PresenceArgs)
    (old : RegistryEntry) : RegistryEntry :=
  mkRegistryEntry (guid old) (agentType old) (handle old) (hostname old)
    (projectId old) (natsUrl old) (username old)
    (default (capabilities old) (Tools.arg_presence_capabilities args))
    (scope old) (visibility old)
    (default (status old) (Tools.arg_status args))
    (default (currentTaskCount old) (Tools.arg_currentTaskCount args))
    (registeredAt old) now.

Definition some_field (args : Tools.PresenceArgs) : Prop :=
  is_Some (Tools.arg_status args) ∨ is_Some (Tools.arg_currentTaskCount args)
  ∨ is_Some (Tools.arg_presence_capabilities args).

(** Presence update and deregistration as stated: both write the stored
    entry with [lastHeartbeat] set to the current time. *)
Definition both_stamp_lastHeartbeat : Prop :=
  ∀ (h : Tools.Host) (args : Tools.PresenceArgs) (state : Tools.SessionState)
    (w : Tools.World) (g : string) (e0 old : RegistryEntry),
    Tools.registered state = Some (g, e0) →
    Kv.bucketInstance (Tools.kv w) = true →
    Kv.entries (Tools.kv w) !! g = Some old →
    (some_field args →
     ∃ r st' w' e,
       Tools.handleUpdatePresence h args state w = (Tools.RSuccess r, st', w')
       ∧ Kv.entries (Tools.kv w') !! g = Some e
       ∧ lastHeartbeat e = Tools.now h)
    ∧ (∃ r st' w' e,
         Tools.handleDeregisterAgent state w = (Tools.RSuccess r, st', w')
         ∧ Kv.entries (Tools.kv w') !! g = Some e
         ∧ lastHeartbeat e = Tools.now h).

(** The handle under which [handleRegisterAgent] registers. *)
Definition chosen_handle (state : Tools.SessionState) (agentType : string) : string :=
  if Js.truthy_opt (Tools.st_handle state) then default "" (Tools.st_handle state)
  else Tools.generateHandle agentType.

(** An existing entry with the same handle, project and host that is
    offline. *)
Definition offline_twin (handle' projectId' hostname' : string) (e : RegistryEntry) : Prop :=
  handle e = handle' ∧ projectId e = projectId' ∧ hostname e = hostname'
  ∧ status e = Offline.

End ToolsStated.

(** A registered session whose entry is stored in the registry. *)
Module ToolsScenario.

Definition testGuid : string := "12345678-1234-4234-8234-123456789012".

(** The entry of the deregister_agent tests (tools/registry tests, line
    1381): registered 09:00:00Z and last seen 10:00:00Z on 2025-01-15. *)
Definition entry : RegistryEntry :=
  mkRegistryEntry testGuid "developer" "test-agent" "test-host" "1234567890abcdef"
    "nats://localhost:4222" None ["typescript"] ScopeProject ProjectOnly Online 0
    1736931600000 1736935200000.

Definition state : Tools.SessionState :=
  Tools.mkSessionState (Some "test-agent") (Some testGuid) (Some entry).

Definition world : Tools.World :=
  Tools.mkWorld (Kv.mkKv true (<[testGuid := entry]> ∅)) Scenario.empty_broker
    (Some testGuid) (Some testGuid).

(** A host whose clock shows 2025-01-15T11:00:00Z. *)
Definition host : Tools.Host :=
  Tools.mkHost "test-host" (Some "tester") 1736938800000 Scenario.U
    (fun _ => None) (fun _ => "1234567890abcdef").

Definition config : Tools.ResolvedConfig :=
  Tools.mkResolvedConfig "nats://localhost:4222" "/home/user/project".

Definition offline_world : Tools.World :=
  Tools.mkWorld
    (Kv.mkKv true (<[testGuid := Tools.set_status Offline entry]> ∅))
    Scenario.empty_broker None None.

Definition fresh_state : Tools.SessionState :=
  Tools.mkSessionState (Some "test-agent") None None.

Definition register_args : Tools.RegisterArgs :=
  Tools.mkRegisterArgs (Some "developer") None None None.

End ToolsScenario.

Module InboxStated.












End InboxStated.

(** An inbox with four stored messages, one of them unreadable. *)
Module InboxScenario.

Definition sender : string := "223e4567-e89b-42d3-a456-426614174000".
Definition other : string := "323e4567-e89b-42d3-a456-426614174000".

Definition message (id sender' type : string) (time : Z) : InboxMessage :=
  mkInboxMessage id sender' "peer" ToolsScenario.testGuid type "hello" None time.

Definition stream : Nats.Stream :=
  Nats.mkStream (Tools.getInboxSubject ToolsScenario.testGuid) false
    [ Nats.mkStoredMsg 1 (Nats.PInbox (message "m1" sender "text" 300));
      Nats.mkStoredMsg 2 (Nats.PRaw "{not json");
      Nats.mkStoredMsg 3 (Nats.PInbox (message "m3" other "work-offer" 200));
      Nats.mkStoredMsg 4 (Nats.PInbox (message "m4" sender "text" 100)) ]
    4 ∅ (<[Tools.INBOX_CONSUMER := Nats.mkConsumer None ∅ ∅]> ∅).

Definition broker : Nats.Broker :=
  Nats.mkBroker true
    (<[Tools.inboxStreamName ToolsScenario.testGuid := stream]> ∅)
    (<[Tools.getInboxSubject ToolsScenario.testGuid
       := Tools.inboxStreamName ToolsScenario.testGuid]> ∅).

Definition args : Tools.ReadArgs :=
  Tools.mkReadArgs (Some 5%nat) (Some "text") None.

End InboxScenario.


(* ===================================================================== *)
(** ** Array.prototype.sort *)
(* ===================================================================== *)

Module JsArray.
Section Sort.
Context {A : Type} (compare : A -> A -> Z).

(** Insertion of [m] behind the elements that [compare] does not put after
    it. *)
Fixpoint insert (m : A) (l : list A) : list A :=
  match l with
  | [] => [m]
  | x :: rest =>
      if (compare x m <=? 0)%Z then x :: insert m rest
      else m :: x :: rest
  end.

(** [array.sort(compare)] for a comparator that orders the elements
    consistently: the sort is stable, elements that compare equal keep
    their order. *)
Definition sort (l : list A) : list A :=
  foldl (fun acc m => insert m acc) [] l.

End Sort.
End JsArray.

(* ===================================================================== *)
(** ** coordinator.ts: workers, queries and shutdown *)
(* ===================================================================== *)

Module CoordinatorQueries.
Import Coordinator.

(** [getRequester()] *)
Definition getRequester (c : t) : Requester :=
  mkRequester (coordinatorGuid (config c)) (coordinatorProjectId (config c))
    (if Js.truthy_opt (coordinatorUsername (config c))
     then coordinatorUsername (config c) else None).

(** The filter of [findWorkers]. *)
Definition eligible (capability : string) (c : t) (entry : RegistryEntry) : bool :=
  if negb (existsb (String.eqb capability) (capabilities entry)) then false
  else if bool_decide (status entry = Offline) then false
  else if negb (Registry.isVisibleTo entry (getRequester c)) then false
  else if String.eqb (guid entry) (coordinatorGuid (config c)) then false
  else true.

(** The comparator of [workers.sort]. *)
Definition compareWorkers (a b : RegistryEntry) : Z :=
  if bool_decide (status a = Online) && negb (bool_decide (status b = Online)) then -1
  else if bool_decide (status b = Online) && negb (bool_decide (status a = Online)) then 1
  else currentTaskCount a - currentTaskCount b.

Definition sortWorkers (l : list RegistryEntry) : list RegistryEntry :=
  JsArray.sort compareWorkers l.

Definition findWorkers (capability : string) (c : t) (kv : Kv.t)
    : result (list RegistryEntry) :=
  match Kv.listRegistryEntries (fun _ => true) kv with
  | Throw e => Throw e
  | Ok allEntries => Ok (sortWorkers (List.filter (eligible capability c) allEntries))
  end.

(** [Array.from(this.assignments.values())]; the order of the enumeration is
    that of the map of the model, not the insertion order of a JavaScript
    [Map]. *)
Definition values (c : t) : list WorkAssignment :=
  snd <$> map_to_list (assignments c).

Record AssignmentFilter := mkAssignmentFilter {
  f_status : option AssignmentStatus;
  f_capability : option string;
}.

Definition getAssignments (filter : option AssignmentFilter) (c : t) : list WorkAssignment :=
  let result := values c in
  let result :=
    match filter ≫= f_status with
    | Some s => List.filter (fun a => bool_decide (a_status a = s)) result
    | None => result
    end in
  if Js.truthy_opt (filter ≫= f_capability)
  then List.filter
         (fun a => String.eqb (a_capability a) (default "" (filter ≫= f_capability)))
         result
  else result.

Record Stats := mkStats {
  total : nat;
  pending : nat;
  assigned : nat;
  inProgress : nat;
  completed : nat;
  failed : nat;
}.

Definition count (s : AssignmentStatus) (l : list WorkAssignment) : nat :=
  List.length (List.filter (fun a => bool_decide (a_status a = s)) l).

Definition getStats (c : t) : Stats :=
  let assignments := values c in
  mkStats (List.length assignments) (count Pending assignments)
    (count Assigned assignments) (count InProgress assignments)
    (count Completed assignments) (count Failed assignments).

(** [shutdown()]: every timer is cleared. *)
Definition shutdown (c : t) : t :=
  mkCoordinator (config c) (assignments c) ∅.

End CoordinatorQueries.

Module CoordinatorQueriesStated.

(** The order of [findWorkers]: an online worker comes before one that is
    not online; among workers that are both online, or both not, the one
    with fewer tasks comes first. *)
Definition ranks_before (a b : RegistryEntry) : Prop :=
  (status a = Online ∧ status b ≠ Online)
  ∨ ((status a = Online ↔ status b = Online)
     ∧ (currentTaskCount a ≤ currentTaskCount b)%Z).

(** The workers that [findWorkers] looks for. *)
Definition available (capability : string) (c : Coordinator.t) (kv : Kv.t)
    (e : RegistryEntry) : Prop :=
  (∃ k, Kv.entries kv !! k = Some e)
  ∧ capability ∈ capabilities e
  ∧ status e ≠ Offline
  ∧ Registry.isVisibleTo e (CoordinatorQueries.getRequester c) = true
  ∧ guid e ≠ Coordinator.coordinatorGuid (Coordinator.config c).

End CoordinatorQueriesStated.

(** Runs of a coordinator: any sequence of calls of its methods and of
    firings of its timers, each at some instant. *)
Module CoordinatorRuns.
Import Coordinator.

Inductive Op :=
| OpSubmit (randomUUID : string) (request : WorkRequest)
| OpCall (k : Call)
| OpTimeout (workItemId : string)
| OpShutdown.

Definition step (now : timestamp) (op : Op) (c : t) (b : Nats.Broker) : t * Nats.Broker :=
  match op with
  | OpSubmit u r => let '(_, c', b') := submitWork now u r c b in (c', b')
  | OpCall k => call now k c b
  | OpTimeout i => let '(_, c', b') := timeoutFired now i c b in (c', b')
  | OpShutdown => (CoordinatorQueries.shutdown c, b)
  end.

Fixpoint run (ops : list (timestamp * Op)) (c : t) (b : Nats.Broker) : t * Nats.Broker :=
  match ops with
  | [] => (c, b)
  | (now, op) :: rest => let '(c', b') := step now op c b in run rest c' b'
  end.

(** The attempts of an assignment stay within its budget, and a pending one
    has an attempt left. *)
Definition within_budget (c : t) (a : WorkAssignment) : Prop :=
  a_maxAttempts a = maxAttempts (config c)
  ∧ (0 ≤ a_attempts a ≤ a_maxAttempts a)%Z
  ∧ (a_status a = Pending → (a_attempts a < a_maxAttempts a)%Z).


(** No timer is armed for a finished assignment or for an unknown id. *)
Definition timers_ok (c : t) : Prop :=
  ∀ id, is_Some (timeoutCheckers c !! id) →
        ∃ a, assignments c !! id = Some a ∧ is_terminal (a_status a) = false.

End CoordinatorRuns.

(** What a claim does to a work queue. *)
Module ClaimStated.

(** The consumer that [claimWorkItem] creates when the queue has none. *)
Definition fresh_consumer : Nats.Consumer :=
  Nats.mkConsumer (Some Workqueue.DEFAULT_maxDeliveryAttempts) ∅ ∅.

(** The durable consumer through which the queue of a capability is read. *)
Definition worker (capability : string) (q : Nats.Stream) : Nats.Consumer :=
  default fresh_consumer (Nats.s_consumers q !! Workqueue.consumerName capability).

(** The queue once its durable consumer exists. *)
Definition ensured (capability : string) (q : Nats.Stream) : Nats.Stream :=
  Nats.set_consumers (insert (Workqueue.consumerName capability) (worker capability q)) q.

(** The consumer after message [m] was delivered to it and acknowledged. *)
Definition acknowledged (m : Nats.StoredMsg) (c : Nats.Consumer) : Nats.Consumer :=
  Nats.mkConsumer (Nats.c_max_deliver c) ({[Nats.m_seq m]} ∪ Nats.c_acked c)
    (<[Nats.m_seq m := S (Nats.deliveries c (Nats.m_seq m))]> (Nats.c_delivered c)).

(** The queue after message [m] was claimed: the consumer has acknowledged
    it and a stream with work-queue retention has dropped it. *)
Definition claimed (capability : string) (m : Nats.StoredMsg) (q : Nats.Stream)
    : Nats.Stream :=
  Nats.mkStream (Nats.s_subject q) (Nats.s_workqueue q)
    (if Nats.s_workqueue q then Nats.remove_seq (Nats.m_seq m) (Nats.s_msgs q)
     else Nats.s_msgs q)
    (Nats.s_last_seq q) (Nats.s_msgids q)
    (<[Workqueue.consumerName capability := acknowledged m (worker capability q)]>
       (Nats.s_consumers q)).

(** The work item handed to the claimant of message [m]. *)
Definition handed (capability : string) (m : Nats.StoredMsg) (q : Nats.Stream)
    : option WorkItem :=
  Workqueue.set_attempts
    (Z.of_nat (S (Nats.deliveries (worker capability q) (Nats.m_seq m))))
  <$> Nats.parseWorkItem (Nats.m_data m).

End ClaimStated.

Module NameStated.

(** A character of [[A-Z0-9_]]. *)
Definition name_char (c : ascii) : bool :=
  let n := nat_of_ascii c in
  Js.is_digit c || ((65 <=? n)%nat && (n <=? 90)%nat) || Ascii.eqb c "_"%char.

(** A character of [[a-z0-9-]]. *)
Definition handle_char (c : ascii) : bool :=
  let n := nat_of_ascii c in
  Js.is_digit c || ((97 <=? n)%nat && (n <=? 122)%nat) || Ascii.eqb c "-"%char.

(** The string is made of ASCII characters, for which one character is one
    byte of the embedding. *)
Definition ascii_only (s : string) : bool :=
  forallb (fun c => (nat_of_ascii c <? 128)%nat) (list_ascii_of_string s).

End NameStated.

(* ===================================================================== *)
(** ** nats.ts: the retry delay *)
(* ===================================================================== *)

Module Connection.

(** [RETRY_CONFIG] *)
Definition maxRetries : nat := 10.
Definition initialDelayMs : Z := 1000.
Definition maxDelayMs : Z := 60000.
Definition backoffMultiplier : Z := 2.

(** [getRetryDelay(attempt)], for the attempts 0, 1, 2, ... of the
    connection loop. *)
Definition getRetryDelay (attempt : nat) : Z :=
  let delay := (initialDelayMs * backoffMultiplier ^ Z.of_nat attempt)%Z in
  Z.min delay maxDelayMs.

End Connection.

(* ===================================================================== *)
(** ** dlq.ts: listing *)
(* ===================================================================== *)

Module DlqListing.
Import Nats.
Local Open Scope nats_scope.

(** The [options] of [listDeadLetterItems]. *)
Record ListOptions := mkListOptions {
  o_capability : option string;
  o_limit : option Z;
}.



(** [options?.limit || streamInfo.state.messages] *)
Definition fetchLimit (options : option ListOptions) (messages : nat) : Z :=
  match options ≫= o_limit with
  | Some l => if (l =? 0)%Z then Z.of_nat messages else l
  | None => Z.of_nat messages
  end.


End DlqListing.

Module DlqStated2.


(** The record that [moveToDeadLetter] writes. *)
Definition record (now : timestamp) (item : WorkItem) (reason : string)
    (errors : option (list string)) : DLQItem :=
  mkDLQItem (w_id item) item reason (w_attempts item) now (default [] errors).






End DlqStated2.

(* ===================================================================== *)
(** ** tools/registry.ts: the dead letter tools *)
(* ===================================================================== *)

Module ToolsDlq.
Import Nats Tools.







End ToolsDlq.

(* ===================================================================== *)
(** ** tools/registry.ts: the directory and messaging tools *)
(* ===================================================================== *)

Module ToolsDirectory.
Import Nats Tools.

(** The requester that a handler builds from the session. *)
Definition requester_of (guid : string) (entry : RegistryEntry) : Requester :=
  mkRequester guid (projectId entry)
    (if Js.truthy_opt (username entry) then username entry else None).

Definition keep_truthy (o : option string) : option string :=
  if Js.truthy_opt o then o else None.

(** The rows of the table that [handleGetAgentInfo] prints for a redacted
    entry: a row is printed for each field that is present and, for a
    string, not empty; the handle is in the title, the visibility has no
    row. *)
Definition rows (v : PartialEntry) : PartialEntry :=
  mkPartialEntry (keep_truthy (p_guid v)) (keep_truthy (p_agentType v)) None
    (keep_truthy (p_hostname v)) (keep_truthy (p_projectId v))
    (keep_truthy (p_natsUrl v)) (keep_truthy (p_username v)) (p_capabilities v)
    (p_scope v) None (p_status v) (p_currentTaskCount v) (p_registeredAt v)
    (p_lastHeartbeat v).

(** The successful answer of [handleGetAgentInfo]: the handle of the title
    and the rows of the table. *)
Record AgentInfo := mkAgentInfo {
  info_handle : string;
  info_rows : PartialEntry;
}.

Definition not_found_text : string := "Error: Agent not found or not visible to you.".

Definition handleGetAgentInfo (guid : option string) (state : SessionState) (k : Kv.t)
    : Response AgentInfo :=
  let guid := default "" guid in
  if negb (Js.truthy guid) || negb (Js.matches Js.UUID_V4_PATTERN guid) then
    RError "Error: Invalid GUID format. Must be a valid UUID v4."
  else
    match registered state with
    | None =>
        RError "Error: You must be registered to view agent information. Use register_agent first."
    | Some (agentGuid, registeredEntry) =>
        let requester := requester_of agentGuid registeredEntry in
        match Kv.getRegistryEntry guid k with
        | Throw e => RError ("Error: Failed to retrieve agent: " +:+ e)
        | Ok None => RError not_found_text
        | Ok (Some entry) =>
            if negb (Registry.isVisibleTo entry requester) then RError not_found_text
            else
              let redactedEntry := Registry.redactEntry entry requester in
              Tools.RSuccess (mkAgentInfo (handle entry) (rows redactedEntry))
        end
    end.

Record DiscoverArgs := mkDiscoverArgs {
  arg_agentType : option string;
  arg_capability : option string;
  arg_hostname : option string;
  arg_projectId : option string;
  arg_status : option Status;
  arg_scope : option Scope;
  arg_includeOffline : option bool;
}.

(** [if (x) entries = entries.filter(p)] for a string argument [x]. *)
Definition filter_if (x : option string) (p : string -> RegistryEntry -> bool)
    (entries : list RegistryEntry) : list RegistryEntry :=
  if Js.truthy_opt x then List.filter (p (default "" x)) entries else entries.

(** [a.lastHeartbeat ? new Date(a.lastHeartbeat).getTime() : 0] *)
Definition heartbeat_time (v : PartialEntry) : Z := default 0 (p_lastHeartbeat v).

(** The comparator of [visibleEntries.sort]: most recent heartbeat first. *)
Definition compareHeartbeat (a b : PartialEntry) : Z :=
  heartbeat_time b - heartbeat_time a.

(** The filters that [handleDiscoverAgents] applies in turn to the listed
    entries, the last one being the visibility to the requester. *)
Definition filterEntries (args : DiscoverArgs) (requester : Requester)
    (entries : list RegistryEntry) : list RegistryEntry :=
  let includeOffline := default false (arg_includeOffline args) in
  let filteredEntries := entries in
  let filteredEntries :=
    filter_if (arg_agentType args)
      (fun x entry => String.eqb (agentType entry) x) filteredEntries in
  let filteredEntries :=
    filter_if (arg_capability args)
      (fun x entry => existsb (String.eqb x) (capabilities entry)) filteredEntries in
  let filteredEntries :=
    filter_if (arg_hostname args)
      (fun x entry => String.eqb (hostname entry) x) filteredEntries in
  let filteredEntries :=
    filter_if (arg_projectId args)
      (fun x entry => String.eqb (projectId entry) x) filteredEntries in
  let filteredEntries :=
    match arg_status args with
    | Some s => List.filter (fun entry => bool_decide (status entry = s)) filteredEntries
    | None => filteredEntries
    end in
  let filteredEntries :=
    match arg_scope args with
    | Some s => List.filter (fun entry => bool_decide (scope entry = s)) filteredEntries
    | None => filteredEntries
    end in
  let filteredEntries :=
    if negb includeOffline
    then List.filter (fun entry => negb (bool_decide (status entry = Offline)))
           filteredEntries
    else filteredEntries in
  List.filter (fun entry => Registry.isVisibleTo entry requester) filteredEntries.

(** [handleDiscoverAgents(args, state, _config)]; the answer "No agents
    found matching the specified criteria." is the success with no agent.
    The lines printed for an agent are taken from its redacted entry. *)
Definition handleDiscoverAgents (args : DiscoverArgs) (state : SessionState)
    (connected : bool) (k : Kv.t) : Response (list PartialEntry) * Kv.t :=
  match registered state with
  | None =>
      (RError "Error: You must register first using register_agent before discovering other agents",
       k)
  | Some (_, registeredEntry) =>
      match Kv.initializeRegistry connected k with
      | (Throw e, k) => (RError ("Error: Failed to initialize registry: " +:+ e), k)
      | (Ok _, k) =>
          let requester := requester_of (guid registeredEntry) registeredEntry in
          match Kv.listRegistryEntries (fun _ => true) k with
          | Throw e => (RError ("Error: Failed to list registry entries: " +:+ e), k)
          | Ok entries =>
              let visibleEntries :=
                List.map (fun entry => Registry.redactEntry entry requester)
                  (filterEntries args requester entries) in
              (Tools.RSuccess (JsArray.sort compareHeartbeat visibleEntries), k)
          end
      end
  end.





End ToolsDirectory.

(* ===================================================================== *)
(** ** tools/registry.ts: the work tools *)
(* ===================================================================== *)

Module ToolsWork.
Import Nats Tools.

Record OfferArgs := mkOfferArgs {
  arg_taskId : option string;
  arg_description : option string;
  arg_requiredCapability : option string;
  arg_priority : option Z;
  arg_deadline : option timestamp;
  arg_contextData : option string;
}.

(** [!x || x.trim() === ''] *)
Definition blank (x : string) : bool := negb (Js.truthy x) || Js.trim_is_empty x.

(** The work item that [handleBroadcastWorkOffer] publishes. *)
Definition offer (h : Host) (args : OfferArgs) (agentGuid : string) : WorkItem :=
  mkWorkItem (randomUUID h) (default "" (arg_taskId args))
    (default "" (arg_requiredCapability args)) (default "" (arg_description args))
    (Some (default 5 (arg_priority args))) (arg_deadline args) (arg_contextData args)
    agentGuid (now h) 0.

(** [handleBroadcastWorkOffer(args, state)]; the success carries the id
    that [publishWorkItem] returned and the work item. *)
Definition handleBroadcastWorkOffer (h : Host) (args : OfferArgs) (state : SessionState)
    (b : Broker) : Response (string * WorkItem) * Broker :=
  let taskId := default "" (arg_taskId args) in
  let description := default "" (arg_description args) in
  let requiredCapability := default "" (arg_requiredCapability args) in
  let priority := default 5 (arg_priority args) in
  if blank taskId then
    (RError "Error: taskId is required and cannot be empty", b)
  else if blank description then
    (RError "Error: description is required and cannot be empty", b)
  else if blank requiredCapability then
    (RError "Error: requiredCapability is required and cannot be empty", b)
  else if ((priority <? 1) || (priority >? 10))%Z then
    (RError "Error: priority must be between 1 and 10", b)
  else
    match registered state with
    | None =>
        (RError "Error: You must be registered to broadcast work offers. Use register_agent first.",
         b)
    | Some (agentGuid, _) =>
        let workItem := offer h args agentGuid in
        match Workqueue.createWorkQueueStream requiredCapability b with
        | (Throw e, b) => (RError ("Error: Failed to create work queue: " +:+ e), b)
        | (Ok _, b) =>
            match Workqueue.publishWorkItem workItem b with
            | (Ok workItemId, b) => (Tools.RSuccess (workItemId, workItem), b)
            | (Throw e, b) => (RError ("Error: Failed to publish work offer: " +:+ e), b)
            end
        end
    end.

Record ClaimArgs := mkClaimArgs {
  arg_capability : option string;
  arg_timeout : option Z;
}.

(** [list.join(', ')] *)
Fixpoint join (l : list string) : string :=
  match l with
  | [] => ""
  | [x] => x
  | x :: rest => x +:+ ", " +:+ join rest
  end.

(** The double quote character. *)
Definition dquote : string := String (ascii_of_nat 34) EmptyString.

Definition missing_capability_text (capability : string) (agentCapabilities : list string)
    : string :=
  "Error: You do not have the " +:+ dquote +:+ capability +:+ dquote
  +:+ " capability registered. Your capabilities: [" +:+ join agentCapabilities
  +:+ "]. Use update_presence to add capabilities, or register with the required capability.".

(** [handleClaimWork(args, state)]; the answer "No work available" is the
    success with no work item. *)
Definition handleClaimWork (args : ClaimArgs) (state : SessionState) (b : Broker)
    : Response (option WorkItem) * Broker :=
  let capability := default "" (arg_capability args) in
  let timeout := Z.min (default 5000 (arg_timeout args)) 30000 in
  if blank capability then
    (RError "Error: capability is required and cannot be empty", b)
  else
    match registered state with
    | None =>
        (RError "Error: You must be registered to claim work. Use register_agent first.", b)
    | Some (_, registeredEntry) =>
        let agentCapabilities := capabilities registeredEntry in
        if negb (existsb (String.eqb capability) agentCapabilities) then
          (RError (missing_capability_text capability agentCapabilities), b)
        else
          match Workqueue.claimWorkItem capability timeout b with
          | (Ok workItem, b) => (Tools.RSuccess workItem, b)
          | (Throw e, b) => (RError ("Error: Failed to claim work: " +:+ e), b)
          end
    end.

End ToolsWork.

Module DirectoryStated.

(** What a string argument of discover_agents asks for; an argument that is
    absent or empty asks for nothing. *)
Definition asked (x : option string) (P : string → Prop) : Prop :=
  ∀ v, x = Some v → v ≠ "" → P v.

(** The entry passes every filter of discover_agents. *)
Definition selected (args : ToolsDirectory.DiscoverArgs) (e : RegistryEntry) : Prop :=
  asked (ToolsDirectory.arg_agentType args) (fun v => agentType e = v)
  ∧ asked (ToolsDirectory.arg_capability args) (fun v => v ∈ capabilities e)
  ∧ asked (ToolsDirectory.arg_hostname args) (fun v => hostname e = v)
  ∧ asked (ToolsDirectory.arg_projectId args) (fun v => projectId e = v)
  ∧ (∀ s, ToolsDirectory.arg_status args = Some s → status e = s)
  ∧ (∀ s, ToolsDirectory.arg_scope args = Some s → scope e = s)
  ∧ (ToolsDirectory.arg_includeOffline args ≠ Some true → status e ≠ Offline).

(** Most recent heartbeat first; a view without heartbeat counts as the
    epoch. *)
Definition newest_first (a b : PartialEntry) : Prop :=
  (ToolsDirectory.heartbeat_time b ≤ ToolsDirectory.heartbeat_time a)%Z.

End DirectoryStated.
(* ===================================================================== *)
(** ** Properties of Js *)
(* ===================================================================== *)

Lemma prefix_refl (s : string) : String.prefix s s = true.
Proof.
  induction s as [|c s IH]; simpl; [done|].
  destruct (ascii_dec c c); [done | congruence].
Qed.

Lemma prefix_app (s t : string) : String.prefix s (s +:+ t) = true.
Proof.
  induction s as [|c s IH]; simpl; [by destruct t|].
  destruct (ascii_dec c c); [done | congruence].
Qed.

Lemma includes_prefix (needle hay : string) :
  String.prefix needle hay = true → Js.includes needle hay = true.
Proof. intros H. destruct hay; simpl in *; rewrite H; done. Qed.

Lemma includes_cons (needle : string) (c : ascii) (hay : string) :
  Js.includes needle hay = true → Js.includes needle (String c hay) = true.
Proof. intros H. cbn [Js.includes]. rewrite H. apply orb_true_r. Qed.

Lemma includes_app_r (needle p t : string) :
  Js.includes needle (p +:+ needle +:+ t) = true.
Proof.
  induction p as [|c p IH].
  - change (Js.includes needle (needle +:+ t) = true).
    apply includes_prefix, prefix_app.
  - change (Js.includes needle (String c (p +:+ needle +:+ t)) = true).
    apply includes_cons, IH.
Qed.

Lemma includes_suffix (needle p : string) :
  Js.includes needle (p +:+ needle) = true.
Proof.
  induction p as [|c p IH].
  - change (Js.includes needle needle = true).
    apply includes_prefix, prefix_refl.
  - change (Js.includes needle (String c (p +:+ needle)) = true).
    apply includes_cons, IH.
Qed.

Lemma string_eqb_eq (a b : string) : String.eqb a b = true ↔ a = b.
Proof. apply String.eqb_eq. Qed.

Lemma string_eqb_neq (a b : string) : String.eqb a b = false ↔ a ≠ b.
Proof. apply String.eqb_neq. Qed.

Lemma truthy_true (s : string) : Js.truthy s = true ↔ s ≠ "".
Proof. destruct s; simpl; split; intros; congruence. Qed.

(** The UUID pattern on the identifiers of the repository's tests: a
    version 4 UUID in either case passes, a version 1 UUID, a wrong variant,
    a short string and a trailing line feed do not. *)
Example UUID_V4_PATTERN_tests :
  Js.matches Js.UUID_V4_PATTERN "123e4567-e89b-42d3-a456-426614174000" = true
  ∧ Js.matches Js.UUID_V4_PATTERN "123E4567-E89B-42D3-A456-426614174000" = true
  ∧ Js.matches Js.UUID_V4_PATTERN "123e4567-e89b-12d3-a456-426614174000" = false
  ∧ Js.matches Js.UUID_V4_PATTERN "123e4567-e89b-42d3-c456-426614174000" = false
  ∧ Js.matches Js.UUID_V4_PATTERN "not-a-uuid" = false
  ∧ Js.matches Js.UUID_V4_PATTERN
      ("123e4567-e89b-42d3-a456-426614174000" +:+ String (ascii_of_nat 10) "") = false
  ∧ Js.matches Js.UUID_V4_PATTERN "" = false.
Proof. vm_compute. repeat split. Qed.

Example trim_is_empty_tests :
  Js.trim_is_empty "" = true
  ∧ Js.trim_is_empty "   " = true
  ∧ Js.trim_is_empty (String (ascii_of_nat 9) (String (ascii_of_nat 10) " ")) = true
  ∧ Js.trim_is_empty (String (ascii_of_nat 194) (String (ascii_of_nat 160) "")) = true
  ∧ Js.trim_is_empty " ts " = false
  ∧ Js.trim_is_empty "typescript" = false.
Proof. vm_compute. repeat split. Qed.

Example includes_tests :
  Js.includes "not found" "stream not found" = true
  ∧ Js.includes "already in use" "stream name already in use" = true
  ∧ Js.includes "not found" "503" = false
  ∧ Js.includes "" "abc" = true.
Proof. vm_compute. repeat split. Qed.

(* ===================================================================== *)
(** ** registry.ts: visibility and redaction *)
(* ===================================================================== *)

Lemma same_username_spec (e : RegistryEntry) (r : Requester) :
  Registry.same_username e r = true ↔ Stated.same_user e r.
Proof.
  unfold Registry.same_username, Stated.same_user. split.
  - destruct (username e) as [u|]; [|done].
    destruct (r_username r) as [v|]; [|done].
    rewrite !andb_true_iff, !truthy_true, string_eqb_eq.
    intros [[Hu _] ->]. by exists v.
  - intros (u & Hu & -> & ->).
    rewrite !andb_true_iff, !truthy_true, string_eqb_eq. done.
Qed.

(** The tests of [isVisibleTo] (the registry tests that follow
    coordinator.ts in the sources, lines 816-879), replayed on the model. *)
Example isVisibleTo_tests :
  let e := Fixtures.baseEntry in
  Registry.isVisibleTo (e Private)
      (Fixtures.with_guid (guid (e Private)) Fixtures.sameProjectRequester) = true
  ∧ Registry.isVisibleTo (e Private) Fixtures.sameProjectRequester = false
  ∧ Registry.isVisibleTo (e Private) Fixtures.differentProjectRequester = false
  ∧ Registry.isVisibleTo (e ProjectOnly) Fixtures.sameProjectRequester = true
  ∧ Registry.isVisibleTo (e ProjectOnly) Fixtures.differentProjectRequester = false
  ∧ Registry.isVisibleTo (e ProjectOnly)
      (Fixtures.with_guid (guid (e ProjectOnly)) Fixtures.sameProjectRequester) = true
  ∧ Registry.isVisibleTo (e UserOnly) Fixtures.sameUserRequester = true
  ∧ Registry.isVisibleTo (e UserOnly) Fixtures.sameProjectRequester = false
  ∧ Registry.isVisibleTo (Fixtures.without_username (e UserOnly))
      Fixtures.sameUserRequester = false
  ∧ Registry.isVisibleTo (e UserOnly)
      (Fixtures.with_username None Fixtures.sameUserRequester) = false
  ∧ Registry.isVisibleTo (e Public) Fixtures.sameProjectRequester = true
  ∧ Registry.isVisibleTo (e Public) Fixtures.differentProjectRequester = true
  ∧ Registry.isVisibleTo (e Public) Fixtures.sameUserRequester = true.
Proof. vm_compute. repeat split. Qed.

(** The tests of [redactEntry] (same file, lines 912-970), replayed on the
    model. *)
Example redactEntry_tests :
  let e := Fixtures.redactBase in
  Registry.redactEntry (e Private) Fixtures.sameProjectRequester = Registry.empty_view
  ∧ Registry.redactEntry (e Private)
      (mkRequester (guid (e Private)) (projectId (e Private)) (username (e Private)))
    = Registry.full_view (e Private)
  ∧ (let v := Registry.redactEntry (e ProjectOnly) Fixtures.sameProjectRequester in
     is_Some (p_guid v) ∧ is_Some (p_agentType v) ∧ is_Some (p_handle v)
     ∧ is_Some (p_hostname v) ∧ is_Some (p_projectId v) ∧ is_Some (p_natsUrl v)
     ∧ is_Some (p_capabilities v) ∧ is_Some (p_scope v) ∧ is_Some (p_status v)
     ∧ is_Some (p_currentTaskCount v) ∧ is_Some (p_lastHeartbeat v)
     ∧ p_username v = None ∧ p_registeredAt v = None)
  ∧ (let v := Registry.redactEntry (e Public) Fixtures.differentProjectRequester in
     is_Some (p_guid v) ∧ p_hostname v = Some "test-host"
     ∧ p_projectId v = None ∧ p_natsUrl v = None)
  ∧ p_username (Registry.redactEntry (e UserOnly) Fixtures.sameUserRequester)
    = Some "testuser".
Proof. vm_compute. repeat split; eauto. Qed.

(** C2. [isVisibleTo] follows the visibility table: a private entry is
    visible exactly to itself; a project-only entry to itself and to
    requesters of the same project; a user-only entry to requesters with the
    same non-empty username on both sides, and to itself; a public entry to
    everyone. *)
Theorem isVisibleTo_table (e : RegistryEntry) (r : Requester) :
  Registry.isVisibleTo e r = true ↔
  match visibility e with
  | Private => r_guid r = guid e
  | ProjectOnly => r_guid r = guid e ∨ r_projectId r = projectId e
  | UserOnly => Stated.same_user e r ∨ r_guid r = guid e
  | Public => True
  end.
Proof.
  unfold Registry.isVisibleTo.
  destruct (visibility e).
  - apply string_eqb_eq.
  - rewrite orb_true_iff, !string_eqb_eq. done.
  - rewrite orb_true_iff, string_eqb_eq, same_username_spec. done.
  - done.
Qed.

Lemma visible_to_self (e : RegistryEntry) (r : Requester) :
  r_guid r = guid e → Registry.isVisibleTo e r = true.
Proof.
  intros H. apply string_eqb_eq in H. unfold Registry.isVisibleTo.
  rewrite H. destruct (visibility e); [done | done | apply orb_true_r | done].
Qed.

(** C3, as stated, fails: the hostname of a public entry is shown to a
    requester of another project (the test "should include hostname for
    public agents"). *)
Lemma redaction_as_stated_fails : ¬ Stated.redaction_as_stated.
Proof.
  intros H.
  destruct (H (Fixtures.redactBase Public) Fixtures.differentProjectRequester)
    as (_ & _ & H3).
  destruct H3 as (_ & Hhost & _); [done | done |].
  assert (Hs : is_Some (p_hostname
            (Registry.redactEntry (Fixtures.redactBase Public)
               Fixtures.differentProjectRequester))) by (vm_compute; eauto).
  specialize (Hhost Hs). vm_compute in Hhost. discriminate.
Qed.

(** Where the model and the wording of section 4.1 part: only in the
    hostname of a public entry seen from another project. *)
Lemma redactEntry_differs_from_wording (e : RegistryEntry) (r : Requester) :
  Registry.redactEntry e r ≠ Registry.redactEntry_spec e r
  ↔ visibility e = Public ∧ r_guid r ≠ guid e ∧ r_projectId r ≠ projectId e.
Proof.
  unfold Registry.redactEntry, Registry.redactEntry_spec.
  destruct (Registry.isVisibleTo e r) eqn:Hv; cbn [negb].
  2: { split; [done|]. intros (Hp & _). unfold Registry.isVisibleTo in Hv.
       rewrite Hp in Hv. discriminate. }
  destruct (String.eqb (r_guid r) (guid e)) eqn:Hg.
  { apply string_eqb_eq in Hg. split; [done | tauto]. }
  apply string_eqb_neq in Hg.
  destruct (String.eqb (r_projectId r) (projectId e)) eqn:Hp.
  { apply string_eqb_eq in Hp. cbn. split; [done | tauto]. }
  apply string_eqb_neq in Hp. cbn.
  destruct (decide (visibility e = Public)) as [Hpub|Hpub].
  - rewrite (bool_decide_true _ Hpub). split; [done|]. intros _ Heq. discriminate Heq.
  - rewrite (bool_decide_false _ Hpub). split; [done | tauto].
Qed.

(** C3, amended. [redactEntry] returns the empty object when the entry is
    not visible, the whole entry to the entry's own GUID, and otherwise a
    view that always shows guid, agentType, handle, capabilities, scope,
    status, currentTaskCount and lastHeartbeat; shows projectId and the
    broker address exactly for a requester of the same project; shows the
    hostname exactly for a requester of the same project or when the entry
    is public; and shows the username exactly when the entry is user-only
    and the requester is the same user. *)
Theorem redactEntry_view (e : RegistryEntry) (r : Requester) :
  (Registry.isVisibleTo e r = false → Registry.redactEntry e r = Registry.empty_view)
  ∧ (r_guid r = guid e → Registry.redactEntry e r = Registry.full_view e)
  ∧ (Registry.isVisibleTo e r = true → r_guid r ≠ guid e →
       let v := Registry.redactEntry e r in
       Stated.shows_public_fields e v
       ∧ p_hostname v =
           (if decide (r_projectId r = projectId e ∨ visibility e = Public)
            then Some (hostname e) else None)
       ∧ p_projectId v =
           (if decide (r_projectId r = projectId e) then Some (projectId e) else None)
       ∧ p_natsUrl v =
           (if decide (r_projectId r = projectId e) then Some (natsUrl e) else None)
       ∧ (is_Some (p_username v) ↔ visibility e = UserOnly ∧ Stated.same_user e r)
       ∧ (is_Some (p_username v) → p_username v = username e)
       ∧ p_visibility v = None ∧ p_registeredAt v = None).
Proof.
  split; [|split].
  - intros Hv. unfold Registry.redactEntry. by rewrite Hv.
  - intros Hself. unfold Registry.redactEntry.
    rewrite (visible_to_self e r Hself). simpl.
    apply string_eqb_eq in Hself. by rewrite Hself.
  - intros Hv Hne. unfold Registry.redactEntry. rewrite Hv. simpl.
    apply string_eqb_neq in Hne. rewrite Hne. simpl.
    split; [repeat split|].
    split; [|split; [|split; [|split; [|split; [|done]]]]].
    + destruct (String.eqb (r_projectId r) (projectId e)) eqn:Ep; simpl.
      * apply string_eqb_eq in Ep. by rewrite decide_True by auto.
      * apply string_eqb_neq in Ep.
        destruct (decide (visibility e = Public)) as [Hp|Hp].
        -- rewrite bool_decide_true by done. by rewrite decide_True by auto.
        -- rewrite bool_decide_false by done. rewrite decide_False; [done|]. tauto.
    + destruct (String.eqb (r_projectId r) (projectId e)) eqn:Ep.
      * apply string_eqb_eq in Ep. by rewrite decide_True.
      * apply string_eqb_neq in Ep. by rewrite decide_False.
    + destruct (String.eqb (r_projectId r) (projectId e)) eqn:Ep.
      * apply string_eqb_eq in Ep. by rewrite decide_True.
      * apply string_eqb_neq in Ep. by rewrite decide_False.
    + destruct (decide (visibility e = UserOnly)) as [Hu|Hu].
      * rewrite bool_decide_true by done. simpl.
        destruct (Registry.same_username e r) eqn:Es.
        -- apply same_username_spec in Es. split; [done|].
           intros _. destruct Es as (u & _ & -> & _). eauto.
        -- split; [intros [? ?]; discriminate|].
           intros [_ Hs]. apply same_username_spec in Hs. congruence.
      * rewrite bool_decide_false by done. simpl.
        split; [intros [? ?]; discriminate | tauto].
    + destruct (bool_decide (visibility e = UserOnly) && Registry.same_username e r);
        [done | intros [? ?]; discriminate].
Qed.

Lemma redactEntry_view_witness :
  Registry.redactEntry (Fixtures.redactBase Private) Fixtures.sameProjectRequester
  = Registry.empty_view
  ∧ Registry.redactEntry (Fixtures.redactBase Private)
      (Fixtures.with_guid (guid (Fixtures.redactBase Private))
         Fixtures.sameProjectRequester)
    = Registry.full_view (Fixtures.redactBase Private)
  ∧ p_hostname (Registry.redactEntry (Fixtures.redactBase Public)
                  Fixtures.differentProjectRequester) = Some "test-host"
  ∧ p_projectId (Registry.redactEntry (Fixtures.redactBase Public)
                   Fixtures.differentProjectRequester) = None.
Proof.
  destruct (redactEntry_view (Fixtures.redactBase Private) Fixtures.sameProjectRequester)
    as (H1 & _ & _).
  destruct (redactEntry_view (Fixtures.redactBase Private)
              (Fixtures.with_guid (guid (Fixtures.redactBase Private))
                 Fixtures.sameProjectRequester)) as (_ & H2 & _).
  destruct (redactEntry_view (Fixtures.redactBase Public)
              Fixtures.differentProjectRequester) as (_ & _ & H3).
  split; [apply H1; reflexivity|]. split; [apply H2; reflexivity|].
  destruct H3 as (_ & Hh & Hp & _); [reflexivity | discriminate |].
  split; [exact Hh | exact Hp].
Defined.

(* ===================================================================== *)
(** ** Stepping through broker computations *)
(* ===================================================================== *)

Section Steps.
Context {A B : Type}.

Lemma bind_Ok (m : Nats.M A) (k : A -> Nats.M B) (b b' : Nats.Broker) (a : A) :
  m b = (Ok a, b') → Nats.bind m k b = k a b'.
Proof. intros H. unfold Nats.bind. by rewrite H. Qed.

Lemma bind_Throw (m : Nats.M A) (k : A -> Nats.M B) (b b' : Nats.Broker) (e : string) :
  m b = (Throw e, b') → Nats.bind m k b = (Throw e, b').
Proof. intros H. unfold Nats.bind. by rewrite H. Qed.

Lemma try_catch_Ok (m : Nats.M A) (h : string -> Nats.M A) (b b' : Nats.Broker) (a : A) :
  m b = (Ok a, b') → Nats.try_catch m h b = (Ok a, b').
Proof. intros H. unfold Nats.try_catch. by rewrite H. Qed.

Lemma try_catch_Throw (m : Nats.M A) (h : string -> Nats.M A) (b b' : Nats.Broker)
    (e : string) :
  m b = (Throw e, b') → Nats.try_catch m h b = h e b'.
Proof. intros H. unfold Nats.try_catch. by rewrite H. Qed.

End Steps.

Lemma getJetStreamClient_Ok (b : Nats.Broker) :
  Nats.connected b = true → Nats.getJetStreamClient b = (Ok tt, b).
Proof. intros H. unfold Nats.getJetStreamClient. by rewrite H. Qed.

Lemma getJetStreamManager_Ok (b : Nats.Broker) :
  Nats.connected b = true → Nats.getJetStreamManager b = (Ok tt, b).
Proof. intros H. unfold Nats.getJetStreamManager. by rewrite H. Qed.

Lemma streams_info_Ok (name : string) (s : Nats.Stream) (b : Nats.Broker) :
  Nats.streams b !! name = Some s → Nats.streams_info name b = (Ok s, b).
Proof. intros H. unfold Nats.streams_info. by rewrite H. Qed.

Lemma streams_info_Throw (name : string) (b : Nats.Broker) :
  Nats.streams b !! name = None →
  Nats.streams_info name b = (Throw "stream not found", b).
Proof. intros H. unfold Nats.streams_info. by rewrite H. Qed.

(* ===================================================================== *)
(** ** workqueue.ts: validation, publication and claim *)
(* ===================================================================== *)

Lemma trim_is_empty_falsy (s : string) :
  Js.truthy s = false → Js.trim_is_empty s = true.
Proof. by destruct s. Qed.

Lemma validateWorkItem_invalid (item : WorkItem) :
  WorkqueueStated.invalid item →
  ∃ msg, Workqueue.validateWorkItem item = Throw msg
         ∧ WorkqueueStated.validation_error item msg.
Proof.
  unfold WorkqueueStated.invalid, WorkqueueStated.validation_error,
    Workqueue.validateWorkItem.
  intros H.
  destruct (Workqueue.isValidUUID (w_id item)) eqn:Eid; simpl; [|eauto].
  destruct (negb (Js.truthy (w_capability item)) || Js.trim_is_empty (w_capability item))
    eqn:Ecap; [eauto|].
  apply orb_false_iff in Ecap as [_ Ecap].
  destruct H as [H | [H | (p & Hp & Hr)]]; [congruence | congruence |].
  rewrite Hp.
  assert (((p <? 1) || (p >? 10))%Z = true) as ->.
  { apply orb_true_iff. destruct Hr; [left | right]; lia. }
  eexists. split; [reflexivity|]. right. right. by exists p.
Qed.

Lemma validateWorkItem_valid (item : WorkItem) :
  ¬ WorkqueueStated.invalid item → Workqueue.validateWorkItem item = Ok tt.
Proof.
  unfold WorkqueueStated.invalid, Workqueue.validateWorkItem. intros H.
  destruct (Workqueue.isValidUUID (w_id item)) eqn:Eid; [|tauto]. simpl.
  destruct (Js.trim_is_empty (w_capability item)) eqn:Ecap; [tauto|].
  destruct (Js.truthy (w_capability item)) eqn:Et;
    [| apply trim_is_empty_falsy in Et; congruence ].
  simpl.
  destruct (w_priority item) as [p|]; [|done].
  destruct ((p <? 1) || (p >? 10))%Z eqn:Ep; [|done].
  exfalso. apply H. right. right. exists p. split; [done|].
  apply orb_true_iff in Ep. destruct Ep; [left | right]; lia.
Qed.

Lemma publish_stored (subject name : string) (payload : Nats.Payload)
    (q : Nats.Stream) (b : Nats.Broker) :
  Nats.routes b !! subject = Some name →
  Nats.streams b !! name = Some q →
  Nats.publish subject payload None b
  = (Ok (S (Nats.s_last_seq q)),
     Nats.set_streams (insert name (WorkqueueStated.appended payload q)) b).
Proof. intros Hr Hs. unfold Nats.publish. by rewrite Hr, Hs. Qed.

Lemma publishWorkItem_ok (item : WorkItem) (name : string) (q : Nats.Stream)
    (b : Nats.Broker) :
  Workqueue.validateWorkItem item = Ok tt →
  Nats.connected b = true →
  Nats.routes b !! Workqueue.getWorkQueueSubject (w_capability item) = Some name →
  Nats.streams b !! name = Some q →
  Workqueue.publishWorkItem item b
  = (Ok (w_id item),
     Nats.set_streams
       (insert name (WorkqueueStated.appended (Nats.PWorkItem item) q)) b).
Proof.
  intros Hv Hc Hr Hs. unfold Workqueue.publishWorkItem. rewrite Hv.
  unfold Nats.bind, Nats.getJetStreamClient, Nats.try_catch. rewrite Hc.
  by rewrite (publish_stored _ _ _ _ _ Hr Hs).
Qed.

(** C6. [publishWorkItem] throws a validation error and leaves the broker
    as it was when the id is not a UUID v4, when the capability is empty or
    blank, or when a priority is given outside 1..10; for any other item,
    on a connected broker whose stream for the capability's subject is [q],
    it appends the item to [q] and returns the item's id. *)
Theorem publishWorkItem_validates (item : WorkItem) (b : Nats.Broker) :
  (WorkqueueStated.invalid item →
     ∃ msg, Workqueue.publishWorkItem item b = (Throw msg, b)
            ∧ WorkqueueStated.validation_error item msg)
  ∧ (¬ WorkqueueStated.invalid item →
     Nats.connected b = true →
     ∀ (name : string) (q : Nats.Stream),
       Nats.routes b !! Workqueue.getWorkQueueSubject (w_capability item) = Some name →
       Nats.streams b !! name = Some q →
       Workqueue.publishWorkItem item b
       = (Ok (w_id item),
          Nats.set_streams
            (insert name (WorkqueueStated.appended (Nats.PWorkItem item) q)) b)).
Proof.
  split.
  - intros Hi. destruct (validateWorkItem_invalid item Hi) as (msg & Hv & Hm).
    exists msg. split; [|done]. unfold Workqueue.publishWorkItem. by rewrite Hv.
  - intros Hv Hc name q Hr Hs.
    apply publishWorkItem_ok; auto using validateWorkItem_valid.
Qed.

(** C10. On a connected broker, claiming from a capability whose work-queue
    stream does not exist returns [null] without an error, and the broker is
    left as it was: no stream and no consumer is created. *)
Theorem claimWorkItem_no_stream (capability : string) (timeoutMs : Z) (b : Nats.Broker) :
  Nats.connected b = true →
  Nats.streams b !! Workqueue.streamName capability = None →
  Workqueue.claimWorkItem capability timeoutMs b = (Ok None, b).
Proof.
  intros Hc Hs. unfold Workqueue.claimWorkItem.
  rewrite (bind_Ok _ _ _ _ _ (getJetStreamClient_Ok b Hc)).
  rewrite (bind_Ok _ _ _ _ _ (getJetStreamManager_Ok b Hc)).
  cbv zeta.
  apply try_catch_Ok.
  erewrite bind_Ok.
  2: { erewrite try_catch_Throw; [reflexivity|].
       apply bind_Throw, streams_info_Throw, Hs. }
  reflexivity.
Qed.

Lemma claimWorkItem_no_stream_witness :
  let b := Nats.mkBroker true ∅ ∅ in
  Nats.connected b = true
  ∧ Nats.streams b !! Workqueue.streamName "typescript" = None
  ∧ Workqueue.claimWorkItem "typescript" 5000 b = (Ok None, b).
Proof.
  split; [reflexivity|]. split; [reflexivity|].
  apply (claimWorkItem_no_stream "typescript" 5000 (Nats.mkBroker true ∅ ∅));
    reflexivity.
Defined.

(* ===================================================================== *)
(** ** dlq.ts: retry and discard *)
(* ===================================================================== *)













(** The scenario brokers are what the operations of the model build. *)
Example scenario_brokers :
  (Workqueue.createWorkQueueStream "typescript" Scenario.empty_broker)
  = (Ok tt, Scenario.queue_broker)
  ∧ Dlq.createDLQStream Scenario.queue_broker = (Ok tt, Scenario.queues_broker)
  ∧ Dlq.moveToDeadLetter 2000 Scenario.item "gave up" (Some ["e1"]) Scenario.queues_broker
    = (Ok tt, Scenario.dlq_broker).
Proof. vm_compute. repeat split. Qed.

Lemma publishWorkItem_validates_witness :
  (∃ msg, Workqueue.publishWorkItem (Workqueue.set_attempts 0
             (mkWorkItem "not-a-uuid" "t" "typescript" "d" None None None "o" 0 0))
             Scenario.queue_broker = (Throw msg, Scenario.queue_broker)
          ∧ msg = "Invalid work item ID: not-a-uuid (must be UUID v4)")
  ∧ Workqueue.publishWorkItem Scenario.item Scenario.queue_broker
    = (Ok Scenario.U,
       Nats.set_streams
         (insert "WORKQUEUE_TYPESCRIPT"
            (WorkqueueStated.appended (Nats.PWorkItem Scenario.item)
               Scenario.queue_stream))
         Scenario.queue_broker).
Proof.
  split.
  - destruct (publishWorkItem_validates
                (Workqueue.set_attempts 0
                   (mkWorkItem "not-a-uuid" "t" "typescript" "d" None None None "o" 0 0))
                Scenario.queue_broker) as [H _].
    destruct H as (msg & Hm & Hv); [by left|].
    exists msg. split; [exact Hm|].
    vm_compute in Hm. congruence.
  - destruct (publishWorkItem_validates Scenario.item Scenario.queue_broker) as [_ H].
    apply H; try reflexivity.
    intros [Hi | [Hi | (p & Hp & Hr)]]; [discriminate Hi | discriminate Hi |].
    injection Hp as <-. lia.
Defined.


(* ===================================================================== *)
(** ** coordinator.ts: the assignment state machine *)
(* ===================================================================== *)

Lemma store_fresh (payload : Nats.Payload) (i : string) (s : Nats.Stream) :
  i ∉ Nats.s_msgids s →
  Nats.s_msgs (Nats.store payload (Some i) s)
  = (Nats.s_msgs s ++ [Nats.mkStoredMsg (S (Nats.s_last_seq s)) payload])%list.
Proof. intros H. unfold Nats.store. by rewrite bool_decide_false. Qed.

Lemma publish_routed (subject name : string) (payload : Nats.Payload)
    (msgID : option string) (s : Nats.Stream) (b : Nats.Broker) :
  Nats.routes b !! subject = Some name →
  Nats.streams b !! name = Some s →
  Nats.publish subject payload msgID b
  = (Ok (Nats.s_last_seq (Nats.store payload msgID s)),
     Nats.set_streams (insert name (Nats.store payload msgID s)) b).
Proof. intros Hr Hs. unfold Nats.publish. by rewrite Hr, Hs. Qed.

Lemma moveToDeadLetter_Ok (now : timestamp) (item : WorkItem) (reason : string)
    (errors : option (list string)) (name : string) (s : Nats.Stream) (b : Nats.Broker) :
  Nats.connected b = true →
  Nats.routes b !! Dlq.DLQ_SUBJECT = Some name →
  Nats.streams b !! name = Some s →
  Dlq.moveToDeadLetter now item reason errors b
  = (Ok tt,
     Nats.set_streams
       (insert name
          (Nats.store
             (Nats.PDLQItem (mkDLQItem (w_id item) item reason (w_attempts item) now
                               (default [] errors)))
             (Some (w_id item)) s))
       b).
Proof.
  intros Hc Hr Hs. unfold Dlq.moveToDeadLetter.
  rewrite (bind_Ok _ _ _ _ _ (getJetStreamClient_Ok b Hc)).
  apply try_catch_Ok.
  by rewrite (bind_Ok _ _ _ _ _ (publish_routed _ _ _ _ _ _ Hr Hs)).
Qed.

Lemma retries_dec (recoverable : bool) (c : Coordinator.t)
    (a : Coordinator.WorkAssignment) :
  (recoverable && Coordinator.autoRetry (Coordinator.config c)
   && (Coordinator.a_attempts a <? Coordinator.a_maxAttempts a)%Z) = true
  ↔ CoordinatorStated.retries recoverable c a.
Proof.
  unfold CoordinatorStated.retries.
  rewrite !andb_true_iff, Z.ltb_lt. tauto.
Qed.

(** C8. For a tracked assignment and a connected broker. When the error is
    recoverable, auto-retry is on and attempts < maxAttempts (and the
    work item can be published: its id is a UUID v4, its capability is not
    blank, and the capability's subject has a stream), [recordError] sets
    the assignment back to pending with no worker and progress 0, appends a
    new work item of priority 7 to the capability's queue, and arms the
    timer anew. In every other case (the dead letter subject having a
    stream) it sets the status to failed, removes the timer, and publishes
    to the dead letter queue a record of a synthesized work item whose
    reason is the error message and whose errors list is that message
    alone. *)
Theorem recordError_branches (now : timestamp) (id error : string) (recoverable : bool)
    (c : Coordinator.t) (b : Nats.Broker) (a : Coordinator.WorkAssignment) :
  Coordinator.assignments c !! id = Some a →
  Nats.connected b = true →
  (CoordinatorStated.retries recoverable c a →
   Workqueue.isValidUUID id = true →
   Js.trim_is_empty (Coordinator.a_capability a) = false →
   ∀ (qn : string) (q : Nats.Stream),
     Nats.routes b !! Workqueue.getWorkQueueSubject (Coordinator.a_capability a) = Some qn →
     Nats.streams b !! qn = Some q →
     ∃ (c' : Coordinator.t) (a' : Coordinator.WorkAssignment) (w : WorkItem),
       Coordinator.recordError now id error recoverable c b
       = (Ok true, c',
          Nats.set_streams (insert qn (WorkqueueStated.appended (Nats.PWorkItem w) q)) b)
       ∧ w_id w = id ∧ w_capability w = Coordinator.a_capability a
       ∧ w_priority w = Some 7
       ∧ Coordinator.assignments c' !! id = Some a'
       ∧ Coordinator.a_status a' = Coordinator.Pending
       ∧ Coordinator.a_assignedTo a' = None
       ∧ Coordinator.a_progress a' = 0
       ∧ Coordinator.timeoutCheckers c' !! id
         = Some (now + Coordinator.assignmentTimeoutMs (Coordinator.config c)))
  ∧ (¬ CoordinatorStated.retries recoverable c a →
     ∀ (dn : string) (s : Nats.Stream),
       Nats.routes b !! Dlq.DLQ_SUBJECT = Some dn →
       Nats.streams b !! dn = Some s →
       let record := CoordinatorStated.dead_letter now c id error a in
       ∃ (c' : Coordinator.t) (a' : Coordinator.WorkAssignment),
         Coordinator.recordError now id error recoverable c b
         = (Ok true, c',
            Nats.set_streams
              (insert dn (Nats.store (Nats.PDLQItem record) (Some id) s)) b)
         ∧ d_reason record = error ∧ d_errors record = [error]
         ∧ (id ∉ Nats.s_msgids s →
            Nats.s_msgs (Nats.store (Nats.PDLQItem record) (Some id) s)
            = (Nats.s_msgs s
                ++ [Nats.mkStoredMsg (S (Nats.s_last_seq s)) (Nats.PDLQItem record)])%list)
         ∧ Coordinator.assignments c' !! id = Some a'
         ∧ Coordinator.a_status a' = Coordinator.Failed
         ∧ Coordinator.timeoutCheckers c' !! id = None).
Proof.
  intros Ha Hc. split.
  - intros Hretry Hid Hcap qn q Hr Hq.
    unfold Coordinator.recordError. rewrite Ha.
    rewrite (proj2 (retries_dec recoverable c a) Hretry).
    cbv zeta.
    erewrite publishWorkItem_ok; [| | exact Hc | exact Hr | exact Hq].
    + do 3 eexists. split; [reflexivity|].
      split; [reflexivity|]. split; [reflexivity|]. split; [reflexivity|].
      split; [cbn; rewrite lookup_insert_eq; reflexivity|].
      split; [reflexivity|]. split; [reflexivity|]. split; [reflexivity|].
      cbn. rewrite lookup_insert_eq. reflexivity.
    + apply validateWorkItem_valid.
      intros [Hi | [Hi | (p & Hp & Hrange)]]; cbn in *; [congruence | congruence |].
      injection Hp as <-. lia.
  - intros Hno dn s Hr Hs record.
    unfold Coordinator.recordError. rewrite Ha.
    destruct (recoverable && Coordinator.autoRetry (Coordinator.config c)
              && (Coordinator.a_attempts a <? Coordinator.a_maxAttempts a)%Z) eqn:E.
    { apply retries_dec in E. contradiction. }
    cbv zeta.
    erewrite moveToDeadLetter_Ok; [| exact Hc | exact Hr | exact Hs].
    do 2 eexists. split; [reflexivity|].
    split; [reflexivity|]. split; [reflexivity|].
    split; [apply store_fresh|].
    split; [cbn; rewrite lookup_insert_eq; reflexivity|].
    split; [reflexivity|].
    cbn. apply lookup_delete_eq.
Qed.

Example claimed_assignment_tracked :
  Coordinator.assignments CoordinatorScenario.claimed.1 !! Scenario.U
  = Some CoordinatorScenario.claimed_assignment.
Proof. vm_compute. reflexivity. Qed.

Lemma recordError_branches_witness :
  let c := CoordinatorScenario.claimed.1 in
  let b := CoordinatorScenario.claimed.2 in
  (∃ c' b',
      Coordinator.recordError 3000 Scenario.U "Temporary failure" true c b
      = (Ok true, c', b')
      ∧ Coordinator.a_status <$> Coordinator.assignments c' !! Scenario.U
        = Some Coordinator.Pending)
  ∧ (∃ c' b',
      Coordinator.recordError 3000 Scenario.U "Fatal error" false c b
      = (Ok true, c', b')
      ∧ Coordinator.a_status <$> Coordinator.assignments c' !! Scenario.U
        = Some Coordinator.Failed).
Proof.
  intros c b.
  assert (Ha : Coordinator.assignments c !! Scenario.U
               = Some CoordinatorScenario.claimed_assignment)
    by (vm_compute; reflexivity).
  split.
  - destruct (recordError_branches 3000 Scenario.U "Temporary failure" true c b _
                Ha eq_refl) as [H _].
    edestruct H as (c' & a' & w & Heq & _ & _ & _ & Hl & Hst & _).
    + split; [reflexivity|]. split; [reflexivity|]. simpl. lia.
    + reflexivity.
    + reflexivity.
    + vm_compute. reflexivity.
    + vm_compute. reflexivity.
    + exists c'. eexists. split; [exact Heq|]. rewrite Hl. simpl. by rewrite Hst.
  - destruct (recordError_branches 3000 Scenario.U "Fatal error" false c b _
                Ha eq_refl) as [_ H].
    edestruct H as (c' & a' & Heq & _ & _ & _ & Hl & Hst & _).
    + intros (Hrec & _). discriminate Hrec.
    + vm_compute. reflexivity.
    + vm_compute. reflexivity.
    + exists c'. eexists. split; [exact Heq|]. rewrite Hl. simpl. by rewrite Hst.
Defined.

(** The guards of [recordClaim] and [recordProgress]: neither touches an
    assignment that is completed or failed. *)
Lemma recordClaim_terminal (now : timestamp) (id worker : string) (c : Coordinator.t)
    (a : Coordinator.WorkAssignment) :
  Coordinator.assignments c !! id = Some a →
  Coordinator.is_terminal (Coordinator.a_status a) = true →
  Coordinator.recordClaim now id worker c = (false, c).
Proof.
  intros Ha Ht. unfold Coordinator.recordClaim. rewrite Ha.
  destruct (Coordinator.a_status a); try discriminate Ht; reflexivity.
Qed.

Lemma recordProgress_terminal (now : timestamp) (id : string) (p : Z) (c : Coordinator.t)
    (a : Coordinator.WorkAssignment) :
  Coordinator.assignments c !! id = Some a →
  Coordinator.is_terminal (Coordinator.a_status a) = true →
  Coordinator.recordProgress now id p c = (false, c).
Proof.
  intros Ha Ht. unfold Coordinator.recordProgress. rewrite Ha.
  destruct (Coordinator.a_status a); try discriminate Ht; reflexivity.
Qed.

Lemma recordClaim_other (now : timestamp) (id id' worker : string) (c : Coordinator.t) :
  id ≠ id' →
  Coordinator.assignments (Coordinator.recordClaim now id worker c).2 !! id'
  = Coordinator.assignments c !! id'.
Proof.
  intros Hne. unfold Coordinator.recordClaim.
  destruct (Coordinator.assignments c !! id) as [a|]; [|done].
  destruct (negb _); [done|]. cbn. by rewrite lookup_insert_ne.
Qed.

Lemma recordProgress_other (now : timestamp) (id id' : string) (p : Z) (c : Coordinator.t) :
  id ≠ id' →
  Coordinator.assignments (Coordinator.recordProgress now id p c).2 !! id'
  = Coordinator.assignments c !! id'.
Proof.
  intros Hne. unfold Coordinator.recordProgress.
  destruct (Coordinator.assignments c !! id) as [a|]; [|done].
  destruct (_ && _); [done|]. cbn. by rewrite lookup_insert_ne.
Qed.

(** C1, on the code. A work item that was submitted, claimed and then
    failed for good has status failed; [recordCompletion] on it succeeds
    and leaves it completed with progress 100. A work item that was
    completed has status completed, progress 100 and its worker;
    [recordError] with a recoverable error on it succeeds, sets it back to
    pending with no worker and progress 0, and publishes it again. *)
Theorem terminal_status_overwritten :
  let view (c : Coordinator.t) :=
    (fun a => (Coordinator.a_status a, Coordinator.a_assignedTo a, Coordinator.a_progress a))
      <$> Coordinator.assignments c !! Scenario.U in
  view CoordinatorScenario.failed.1 = Some (Coordinator.Failed, Some "worker-1", 0)
  ∧ (let r := Coordinator.recordCompletion 4000 Scenario.U None
                CoordinatorScenario.failed.1 in
     r.1 = true
     ∧ view r.2 = Some (Coordinator.Completed, Some "worker-1", 100))
  ∧ view CoordinatorScenario.completed.1
    = Some (Coordinator.Completed, Some "worker-1", 100)
  ∧ (let '(r, c', b') :=
       Coordinator.recordError 4000 Scenario.U "late error" true
         CoordinatorScenario.completed.1 CoordinatorScenario.completed.2 in
     r = Ok true
     ∧ view c' = Some (Coordinator.Pending, None, 0)
     ∧ (List.length ∘ Nats.s_msgs) <$> Nats.streams b' !! "WORKQUEUE_TYPESCRIPT"
       = Some 2%nat).
Proof. vm_compute. repeat split. Qed.

(** C1 as stated does not hold of the code. *)
Lemma terminal_is_final_fails : ¬ CoordinatorStated.terminal_is_final.
Proof.
  intros H.
  destruct (H 4000 (Coordinator.CallCompletion Scenario.U None)
              CoordinatorScenario.failed.1 CoordinatorScenario.failed.2 Scenario.U
              (Coordinator.mkWorkAssignment Scenario.U "task-123" "typescript"
                 (Some "worker-1") (Some 2000) Coordinator.Failed 0 1 3 1000 None None
                 (Some "Fatal error")))
    as (a' & Hl & Hst & _).
  - vm_compute. reflexivity.
  - reflexivity.
  - vm_compute in Hl. injection Hl as <-. discriminate Hst.
Qed.

(** What does hold: the two guarded methods leave a completed or failed
    assignment as it is. *)
Lemma terminal_kept_by_claim_and_progress (now : timestamp) (c : Coordinator.t)
    (b : Nats.Broker) (id : string) (a : Coordinator.WorkAssignment) (k : Coordinator.Call) :
  Coordinator.assignments c !! id = Some a →
  Coordinator.is_terminal (Coordinator.a_status a) = true →
  match k with
  | Coordinator.CallClaim _ _ | Coordinator.CallProgress _ _ =>
      Coordinator.assignments (Coordinator.call now k c b).1 !! id = Some a
  | _ => True
  end.
Proof.
  intros Ha Ht. destruct k as [i w | i p | |]; [| |done|done]; cbn.
  - destruct (decide (i = id)) as [->|Hne].
    + by rewrite (recordClaim_terminal now id w c a Ha Ht).
    + by rewrite recordClaim_other.
  - destruct (decide (i = id)) as [->|Hne].
    + by rewrite (recordProgress_terminal now id p c a Ha Ht).
    + by rewrite recordProgress_other.
Qed.

(* ===================================================================== *)
(** ** tools/registry.ts: presence, deregistration and registration *)
(* ===================================================================== *)

Lemma registered_guid (state : Tools.SessionState) (g : string) (e0 : RegistryEntry) :
  Tools.registered state = Some (g, e0) →
  Tools.agentGuid state = Some g ∧ Tools.registeredEntry state = Some e0.
Proof.
  unfold Tools.registered.
  destruct (Tools.agentGuid state) as [g'|]; [|done].
  destruct (Tools.registeredEntry state) as [e'|]; [|done].
  destruct (Js.truthy g'); [|done]. by intros [= -> ->].
Qed.

Lemma handleUpdatePresence_writes (h : Tools.Host) (args : Tools.PresenceArgs)
    (state : Tools.SessionState) (w : Tools.World) (g : string) (e0 old : RegistryEntry) :
  Tools.registered state = Some (g, e0) →
  Kv.bucketInstance (Tools.kv w) = true →
  Kv.entries (Tools.kv w) !! g = Some old →
  ToolsStated.some_field args →
  let new := ToolsStated.presence_update (Tools.now h) args old in
  ∃ st' w',
    Tools.handleUpdatePresence h args state w = (Tools.RSuccess new, st', w')
    ∧ Kv.entries (Tools.kv w') = <[g := new]> (Kv.entries (Tools.kv w))
    ∧ Tools.registeredEntry st' = Some new.
Proof.
  intros Hreg Hb Hold Hsome. cbv zeta.
  unfold ToolsStated.presence_update, Tools.handleUpdatePresence. rewrite Hreg.
  unfold Kv.getRegistryEntry, Kv.putRegistryEntry. rewrite Hb, Hold.
  destruct Hsome as [[x Hx] | [[x Hx] | [x Hx]]];
    destruct (Tools.arg_status args) as [s|] eqn:Es;
    destruct (Tools.arg_currentTaskCount args) as [n|] eqn:En;
    destruct (Tools.arg_presence_capabilities args) as [l|] eqn:El;
    try discriminate;
    (do 2 eexists; split; [reflexivity | split; reflexivity]).
Qed.

Lemma handleDeregisterAgent_writes (state : Tools.SessionState) (w : Tools.World)
    (g : string) (e0 old : RegistryEntry) :
  Tools.registered state = Some (g, e0) →
  Kv.bucketInstance (Tools.kv w) = true →
  Kv.entries (Tools.kv w) !! g = Some old →
  ∃ st' w',
    Tools.handleDeregisterAgent state w = (Tools.RSuccess (g, handle e0), st', w')
    ∧ Kv.entries (Tools.kv w')
      = <[g := Tools.set_status Offline old]> (Kv.entries (Tools.kv w))
    ∧ Tools.agentGuid st' = None ∧ Tools.registeredEntry st' = None
    ∧ Tools.heartbeat w' = None ∧ Tools.inboxSubscription w' = None.
Proof.
  intros Hreg Hb Hold.
  unfold Tools.handleDeregisterAgent. rewrite Hreg.
  unfold Kv.getRegistryEntry, Kv.putRegistryEntry. cbn. rewrite Hb, Hold.
  do 2 eexists. repeat split.
Qed.

(** C4, as stated, fails: deregistration writes the entry with the
    [lastHeartbeat] it had (here 10:00:00Z while the clock shows 11:00:00Z). *)
Lemma both_stamp_lastHeartbeat_fails : ¬ ToolsStated.both_stamp_lastHeartbeat.
Proof.
  intros H.
  destruct (H ToolsScenario.host (Tools.mkPresenceArgs (Some Busy) None None)
              ToolsScenario.state ToolsScenario.world ToolsScenario.testGuid
              ToolsScenario.entry ToolsScenario.entry eq_refl eq_refl eq_refl)
    as [_ (r & st' & w' & e & Heq & Hl & Hhb)].
  vm_compute in Heq. injection Heq as _ _ <-.
  vm_compute in Hl. injection Hl as <-.
  vm_compute in Hhb. discriminate Hhb.
Qed.

(** C4, amended. For a registered agent whose entry is stored: a presence
    update that names at least one field writes, under the agent's GUID,
    the stored entry with [lastHeartbeat] set to the current time and with
    the named fields among status, currentTaskCount and capabilities
    replaced, every other field as it was; a deregistration writes the
    stored entry with status offline and every other field, including
    [lastHeartbeat], as it was. No other key is written. *)
Theorem presence_and_deregistration_write (h : Tools.Host) (args : Tools.PresenceArgs)
    (state : Tools.SessionState) (w : Tools.World) (g : string) (e0 old : RegistryEntry) :
  Tools.registered state = Some (g, e0) →
  Kv.bucketInstance (Tools.kv w) = true →
  Kv.entries (Tools.kv w) !! g = Some old →
  (ToolsStated.some_field args →
   ∃ st' w',
     Tools.handleUpdatePresence h args state w
     = (Tools.RSuccess (ToolsStated.presence_update (Tools.now h) args old), st', w')
     ∧ Kv.entries (Tools.kv w')
       = <[g := ToolsStated.presence_update (Tools.now h) args old]>
           (Kv.entries (Tools.kv w))
     ∧ lastHeartbeat (ToolsStated.presence_update (Tools.now h) args old) = Tools.now h)
  ∧ (∃ st' w',
       Tools.handleDeregisterAgent state w = (Tools.RSuccess (g, handle e0), st', w')
       ∧ Kv.entries (Tools.kv w')
         = <[g := Tools.set_status Offline old]> (Kv.entries (Tools.kv w))
       ∧ lastHeartbeat (Tools.set_status Offline old) = lastHeartbeat old).
Proof.
  intros Hreg Hb Hold. split.
  - intros Hsome.
    destruct (handleUpdatePresence_writes h args state w g e0 old Hreg Hb Hold Hsome)
      as (st' & w' & Heq & Hk & _).
    exists st', w'. done.
  - destruct (handleDeregisterAgent_writes state w g e0 old Hreg Hb Hold)
      as (st' & w' & Heq & Hk & _).
    exists st', w'. done.
Qed.

Lemma presence_and_deregistration_write_witness :
  (∃ st' w',
      Tools.handleUpdatePresence ToolsScenario.host
        (Tools.mkPresenceArgs (Some Busy) (Some 2) None)
        ToolsScenario.state ToolsScenario.world
      = (Tools.RSuccess
           (mkRegistryEntry ToolsScenario.testGuid "developer" "test-agent" "test-host"
              "1234567890abcdef" "nats://localhost:4222" None ["typescript"]
              ScopeProject ProjectOnly Busy 2 1736931600000 1736938800000),
         st', w'))
  ∧ (∃ st' w',
       Tools.handleDeregisterAgent ToolsScenario.state ToolsScenario.world
       = (Tools.RSuccess (ToolsScenario.testGuid, "test-agent"), st', w')
       ∧ Kv.entries (Tools.kv w') !! ToolsScenario.testGuid
         = Some (mkRegistryEntry ToolsScenario.testGuid "developer" "test-agent"
                   "test-host" "1234567890abcdef" "nats://localhost:4222" None
                   ["typescript"] ScopeProject ProjectOnly Offline 0
                   1736931600000 1736935200000)).
Proof.
  destruct (presence_and_deregistration_write ToolsScenario.host
              (Tools.mkPresenceArgs (Some Busy) (Some 2) None)
              ToolsScenario.state ToolsScenario.world ToolsScenario.testGuid
              ToolsScenario.entry ToolsScenario.entry eq_refl eq_refl eq_refl)
    as [Hp Hd].
  split.
  - destruct Hp as (st' & w' & Heq & _); [left; eauto|].
    exists st', w'. exact Heq.
  - destruct Hd as (st' & w' & Heq & Hk & _).
    exists st', w'. split; [exact Heq|]. rewrite Hk. apply lookup_insert_eq.
Defined.

Lemma reusable_spec (handle' projectId' hostname' : string) (e : RegistryEntry) :
  Tools.reusable handle' projectId' hostname' e = true
  ↔ ToolsStated.offline_twin handle' projectId' hostname' e.
Proof.
  unfold Tools.reusable, ToolsStated.offline_twin.
  rewrite !andb_true_iff, !string_eqb_eq, bool_decide_eq_true. tauto.
Qed.

Lemma elem_of_listed (f : RegistryEntry → bool) (m : gmap string RegistryEntry)
    (e : RegistryEntry) :
  e ∈ List.filter f (snd <$> map_to_list m) ↔ f e = true ∧ ∃ k, m !! k = Some e.
Proof.
  rewrite list_elem_of_In, List.filter_In, <- list_elem_of_In, list_elem_of_fmap.
  split.
  - intros [([k e'] & -> & Hin) Hf]. apply elem_of_map_to_list in Hin. eauto.
  - intros [Hf (k & Hk)]. split; [|done].
    exists (k, e). split; [done|]. by apply elem_of_map_to_list.
Qed.

(** [findReusableAgent] finds a GUID exactly when an offline twin exists,
    and the GUID it finds is that of an offline twin. *)
Lemma findReusableAgent_spec (handle' projectId' hostname' : string) (k : Kv.t) :
  Kv.bucketInstance k = true →
  match Tools.findReusableAgent handle' projectId' hostname' k with
  | Some g =>
      ∃ key e, Kv.entries k !! key = Some e
               ∧ ToolsStated.offline_twin handle' projectId' hostname' e
               ∧ g = guid e
  | None =>
      ¬ ∃ key e, Kv.entries k !! key = Some e
                 ∧ ToolsStated.offline_twin handle' projectId' hostname' e
  end.
Proof.
  intros Hb. unfold Tools.findReusableAgent, Kv.listRegistryEntries. rewrite Hb.
  destruct (List.filter _ _) as [|first rest] eqn:El.
  - intros (key & e & Hk & Htwin).
    assert (Hin : e ∈ List.filter (Tools.reusable handle' projectId' hostname')
                        (snd <$> map_to_list (Kv.entries k))).
    { apply elem_of_listed. split; [by apply reusable_spec | eauto]. }
    rewrite El in Hin. by apply elem_of_nil in Hin.
  - assert (Hin : first ∈ List.filter (Tools.reusable handle' projectId' hostname')
                            (snd <$> map_to_list (Kv.entries k))).
    { rewrite El. apply list_elem_of_here. }
    apply elem_of_listed in Hin as [Hf (key & Hk)].
    exists key, first. split; [done|]. split; [by apply reusable_spec | done].
Qed.

Lemma initializeRegistry_Ok (connected : bool) (k : Kv.t) :
  Kv.bucketInstance k = true ∨ connected = true →
  Kv.initializeRegistry connected k = (Ok tt, Kv.mkKv true (Kv.entries k)).
Proof.
  unfold Kv.initializeRegistry. destruct k as [[] m]; cbn; [done|].
  intros [H | ->]; [discriminate | done].
Qed.

(** C5. A registration that goes through (a named agent type, a handle
    that is set or whose generated form is valid, a registry that can be
    opened) over a registry whose entries all carry a GUID: when some
    existing entry has the same handle, the same projectId and the same
    hostname and is offline, the new entry takes the GUID of such an entry
    and the answer says so; in every other case the new entry's GUID is the
    UUID that was minted for it. Either way the entry is stored under its
    GUID and the session carries it. *)
Theorem register_reuses_offline_guid (h : Tools.Host) (args : Tools.RegisterArgs)
    (state : Tools.SessionState) (config : Tools.ResolvedConfig) (w : Tools.World)
    (t : string) :
  Tools.arg_agentType args = Some t →
  Js.trim_is_empty t = false →
  (Js.truthy_opt (Tools.st_handle state) = true
   ∨ Tools.validateHandle h (Tools.generateHandle t) = None) →
  (Kv.bucketInstance (Tools.kv w) = true ∨ Nats.connected (Tools.broker w) = true) →
  (∀ key e, Kv.entries (Tools.kv w) !! key = Some e → guid e ≠ "") →
  let twin :=
    ToolsStated.offline_twin (ToolsStated.chosen_handle state t)
      (Tools.generateProjectId h (Tools.cfg_projectPath config)) (Tools.os_hostname h) in
  ∃ reg st' w',
    Tools.handleRegisterAgent h args state config w = (Tools.RSuccess reg, st', w')
    ∧ Tools.agentGuid st' = Some (guid (Tools.reg_entry reg))
    ∧ Kv.entries (Tools.kv w') !! guid (Tools.reg_entry reg) = Some (Tools.reg_entry reg)
    ∧ ((∃ key e, Kv.entries (Tools.kv w) !! key = Some e ∧ twin e) →
       Tools.reg_reused reg = true
       ∧ ∃ key e, Kv.entries (Tools.kv w) !! key = Some e ∧ twin e
                  ∧ guid (Tools.reg_entry reg) = guid e)
    ∧ ((¬ ∃ key e, Kv.entries (Tools.kv w) !! key = Some e ∧ twin e) →
       Tools.reg_reused reg = false
       ∧ guid (Tools.reg_entry reg) = Tools.randomUUID h).
Proof.
  intros Ht Hblank Hhandle Hinit Hwf twin.
  assert (Htruthy : Js.truthy t = true).
  { destruct (Js.truthy t) eqn:E; [done|].
    apply trim_is_empty_falsy in E. congruence. }
  unfold Tools.handleRegisterAgent. rewrite Ht.
  change (default "" (Some t)) with t.
  rewrite Htruthy, Hblank. cbn [negb orb].
  assert (Hval : (if Js.truthy_opt (Tools.st_handle state) then None
                  else Tools.validateHandle h
                         (if Js.truthy_opt (Tools.st_handle state)
                          then default "" (Tools.st_handle state)
                          else Tools.generateHandle t)) = None).
  { destruct (Js.truthy_opt (Tools.st_handle state)); [done|].
    destruct Hhandle; [discriminate | done]. }
  rewrite Hval.
  rewrite (initializeRegistry_Ok _ _ Hinit).
  cbv zeta.
  fold (ToolsStated.chosen_handle state t).
  change (projectId (Tools.createRegistryEntry h _))
    with (Tools.generateProjectId h (Tools.cfg_projectPath config)).
  pose proof (findReusableAgent_spec (ToolsStated.chosen_handle state t)
                (Tools.generateProjectId h (Tools.cfg_projectPath config))
                (Tools.os_hostname h)
                (Kv.mkKv true (Kv.entries (Tools.kv w))) eq_refl) as Hfind.
  destruct (Tools.findReusableAgent _ _ _ _) as [g|].
  - destruct Hfind as (key & e & Hk & Htwin & ->).
    cbn [Kv.entries] in Hk.
    assert (Hg : Js.truthy (guid e) = true) by (apply truthy_true; eauto).
    cbn [Js.truthy_opt default]. rewrite Hg.
    unfold Kv.putRegistryEntry. cbn [Kv.bucketInstance Kv.entries].
    destruct (Tools.createInboxStream _ _) as [[] b'];
      (do 3 eexists; split; [reflexivity|]; cbn;
       split; [reflexivity|]; split; [apply lookup_insert_eq|];
       split; [intros _; split; [reflexivity|]; exists key, e; done|];
       intros Hno; exfalso; apply Hno; eauto).
  - cbn [Js.truthy_opt default].
    unfold Kv.putRegistryEntry. cbn [Kv.bucketInstance Kv.entries].
    destruct (Tools.createInboxStream _ _) as [[] b'];
      (do 3 eexists; split; [reflexivity|]; cbn;
       split; [reflexivity|]; split; [apply lookup_insert_eq|];
       split; [intros Hex; exfalso; apply Hfind; exact Hex|];
       intros _; split; reflexivity).
Qed.

Lemma register_reuses_offline_guid_witness :
  (∃ reg st' w',
      Tools.handleRegisterAgent ToolsScenario.host ToolsScenario.register_args
        ToolsScenario.fresh_state ToolsScenario.config ToolsScenario.offline_world
      = (Tools.RSuccess reg, st', w')
      ∧ Tools.reg_reused reg = true
      ∧ guid (Tools.reg_entry reg) = ToolsScenario.testGuid)
  ∧ (∃ reg st' w',
      Tools.handleRegisterAgent ToolsScenario.host ToolsScenario.register_args
        ToolsScenario.fresh_state ToolsScenario.config ToolsScenario.world
      = (Tools.RSuccess reg, st', w')
      ∧ Tools.reg_reused reg = false
      ∧ guid (Tools.reg_entry reg) = Scenario.U).
Proof.
  split.
  - destruct (register_reuses_offline_guid ToolsScenario.host ToolsScenario.register_args
                ToolsScenario.fresh_state ToolsScenario.config
                ToolsScenario.offline_world "developer" eq_refl eq_refl
                (or_introl eq_refl) (or_introl eq_refl))
      as (reg & st' & w' & Heq & _ & _ & Hre & _).
    + intros key e Hk.
      cbv [ToolsScenario.offline_world ToolsScenario.world Tools.kv Kv.entries] in Hk;
        apply lookup_insert_Some in Hk as [[_ <-] | [_ Hk]];
        [discriminate | by rewrite lookup_empty in Hk].
    + exists reg, st', w'. split; [exact Heq|].
      destruct Hre as (Hr & key & e & Hk & _ & Hg).
      * exists ToolsScenario.testGuid, (Tools.set_status Offline ToolsScenario.entry).
        split; [reflexivity|]. repeat split.
      * split; [exact Hr|]. rewrite Hg.
        cbv [ToolsScenario.offline_world ToolsScenario.world Tools.kv Kv.entries] in Hk;
        apply lookup_insert_Some in Hk as [[_ <-] | [_ Hk]];
          [reflexivity | by rewrite lookup_empty in Hk].
  - destruct (register_reuses_offline_guid ToolsScenario.host ToolsScenario.register_args
                ToolsScenario.fresh_state ToolsScenario.config
                ToolsScenario.world "developer" eq_refl eq_refl
                (or_introl eq_refl) (or_introl eq_refl))
      as (reg & st' & w' & Heq & _ & _ & _ & Hfresh).
    + intros key e Hk.
      cbv [ToolsScenario.offline_world ToolsScenario.world Tools.kv Kv.entries] in Hk;
        apply lookup_insert_Some in Hk as [[_ <-] | [_ Hk]];
        [discriminate | by rewrite lookup_empty in Hk].
    + exists reg, st', w'. split; [exact Heq|].
      apply Hfresh. intros (key & e & Hk & _ & _ & _ & Hst).
      cbv [ToolsScenario.offline_world ToolsScenario.world Tools.kv Kv.entries] in Hk;
        apply lookup_insert_Some in Hk as [[_ <-] | [_ Hk]];
        [discriminate Hst | by rewrite lookup_empty in Hk].
Defined.

(* ===================================================================== *)
(** ** tools/registry.ts: reading the inbox *)
(* ===================================================================== *)

Example read_inbox_scenario :
  let r := Tools.handleReadDirectMessages InboxScenario.args ToolsScenario.state
             InboxScenario.broker in
  r.1 = Tools.RSuccess
          [InboxScenario.message "m4" InboxScenario.sender "text" 100;
           InboxScenario.message "m1" InboxScenario.sender "text" 300]
  ∧ (Nats.c_acked <$>
       (Nats.streams r.2 !! Tools.inboxStreamName ToolsScenario.testGuid
          ≫= fun s => Nats.s_consumers s !! Tools.INBOX_CONSUMER))
    = Some ({[1%nat; 2%nat; 3%nat; 4%nat]} : gset nat).
Proof. vm_compute. split; reflexivity. Qed.


















(* ===================================================================== *)
(** ** The model on the repository's scenarios *)
(* ===================================================================== *)

(** The coordinator tests (recordClaim, recordProgress, recordError),
    replayed on the model. *)
Example coordinator_tests :
  let c := CoordinatorScenario.claimed.1 in
  let b := CoordinatorScenario.claimed.2 in
  let status_of (c : Coordinator.t) :=
    Coordinator.a_status <$> Coordinator.assignments c !! Scenario.U in
  let progress_of (c : Coordinator.t) :=
    Coordinator.a_progress <$> Coordinator.assignments c !! Scenario.U in
  (* should reject claim for unknown work item / for non-pending work *)
  (Coordinator.recordClaim 2500 "unknown-id" "worker-1" c).1 = false
  ∧ (Coordinator.recordClaim 2500 Scenario.U "worker-2" c).1 = false
  (* should record progress update; should clamp progress to 0-100 *)
  ∧ status_of (Coordinator.recordProgress 2500 Scenario.U 50 c).2
    = Some Coordinator.InProgress
  ∧ progress_of (Coordinator.recordProgress 2500 Scenario.U 50 c).2 = Some 50
  ∧ progress_of (Coordinator.recordProgress 2500 Scenario.U 150 c).2 = Some 100
  ∧ progress_of (Coordinator.recordProgress 2500 Scenario.U (-10) c).2 = Some 0
  (* should retry recoverable errors *)
  ∧ status_of (Coordinator.call 3000
                 (Coordinator.CallError Scenario.U "Temporary failure" true) c b).1
    = Some Coordinator.Pending
  (* should move non-recoverable errors to DLQ immediately *)
  ∧ status_of CoordinatorScenario.failed.1 = Some Coordinator.Failed
  ∧ (List.length ∘ Nats.s_msgs) <$>
      Nats.streams CoordinatorScenario.failed.2 !! Dlq.DLQ_STREAM_NAME = Some 1%nat.
Proof. vm_compute. repeat split. Qed.

(** Publishing a work item and claiming it returns the item with attempts 1
    and removes it from the queue; a second claim finds nothing. *)
Example work_item_round_trip :
  let b1 := (Workqueue.publishWorkItem Scenario.item Scenario.queue_broker).2 in
  let r := Workqueue.claimWorkItem "typescript" 5000 b1 in
  r.1 = Ok (Some (Workqueue.set_attempts 1 Scenario.item))
  ∧ (Workqueue.getPendingWorkCount "typescript" b1).1 = Ok 1%nat
  ∧ (Workqueue.getPendingWorkCount "typescript" r.2).1 = Ok 0%nat
  ∧ (Workqueue.claimWorkItem "typescript" 5000 r.2).1 = Ok None.
Proof. vm_compute. repeat split. Qed.

(** Moving the same work item to the dead letter queue twice leaves one
    record; retrying it with [resetAttempts] makes the next claim see
    attempts 1; after the retry the record is gone. *)
Example dead_letter_round_trip :
  let b1 := (Dlq.moveToDeadLetter 2500 Scenario.item "again" None Scenario.dlq_broker).2 in
  let b2 := (Dlq.retryDeadLetterItem Scenario.U true b1).2 in
  (List.length ∘ Nats.s_msgs) <$> Nats.streams b1 !! Dlq.DLQ_STREAM_NAME = Some 1%nat
  ∧ (Dlq.getDeadLetterItem Scenario.U b1).1 = Ok (Some Scenario.dlq_record)
  ∧ (Workqueue.claimWorkItem "typescript" 5000 b2).1
    = Ok (Some (Workqueue.set_attempts 1 Scenario.item))
  ∧ (Dlq.getDeadLetterItem Scenario.U b2).1 = Ok None
  ∧ (Dlq.discardDeadLetterItem Scenario.U b2).1
    = Throw ("DLQ item " +:+ Scenario.U +:+ " not found").
Proof. vm_compute. repeat split. Qed.

(* ===================================================================== *)
(** ** coordinator.ts: invariants of a run, queries *)
(* ===================================================================== *)

Lemma step_config (now : timestamp) (op : CoordinatorRuns.Op) (c : Coordinator.t)
    (b : Nats.Broker) :
  Coordinator.config (CoordinatorRuns.step now op c b).1 = Coordinator.config c.
Proof.
  destruct op as [u r|k|i|]; simpl.
  - unfold Coordinator.submitWork. repeat case_match; simplify_eq; done.
  - destruct k; simpl.
    + unfold Coordinator.recordClaim. repeat case_match; done.
    + unfold Coordinator.recordProgress. repeat case_match; done.
    + unfold Coordinator.recordCompletion. repeat case_match; done.
    + unfold Coordinator.recordError. repeat case_match; simplify_eq; done.
  - unfold Coordinator.timeoutFired, Coordinator.recordError.
    repeat case_match; simplify_eq; done.
  - done.
Qed.

(** Case analysis of one method of the coordinator on the assignment it
    touches. *)
Ltac coordinator_cases :=
  unfold Coordinator.submitWork, Coordinator.recordClaim, Coordinator.recordProgress,
    Coordinator.recordCompletion, Coordinator.timeoutFired, Coordinator.recordError,
    Coordinator.resetTimeoutChecker, Coordinator.startTimeoutChecker,
    Coordinator.clearTimeoutChecker, Coordinator.set_assignment;
  repeat case_match; simplify_eq; simpl.

Lemma step_budget (now : timestamp) (op : CoordinatorRuns.Op) (c : Coordinator.t)
    (b : Nats.Broker) :
  (1 ≤ Coordinator.maxAttempts (Coordinator.config c))%Z →
  map_Forall (λ _ a, CoordinatorRuns.within_budget c a) (Coordinator.assignments c) →
  map_Forall (λ _ a, CoordinatorRuns.within_budget (CoordinatorRuns.step now op c b).1 a)
    (Coordinator.assignments (CoordinatorRuns.step now op c b).1).
Proof.
  intros Hmax Hinv.
  assert (Hold : ∀ i a, Coordinator.assignments c !! i = Some a →
                        CoordinatorRuns.within_budget c a) by exact Hinv.
  destruct op as [u r|k|i|]; [| destruct k | |]; simpl; coordinator_cases;
    try exact Hinv;
    try (apply map_Forall_insert_2; [|exact Hinv]);
    repeat match goal with
           | H : Coordinator.assignments c !! _ = Some _ |- _ =>
               apply Hold in H; destruct H as (? & ? & ?)
           end;
    unfold CoordinatorRuns.within_budget in *; simpl in *;
    repeat match goal with
           | H : negb _ = false |- _ => apply negb_false_iff in H
           | H : bool_decide _ = true |- _ => apply bool_decide_eq_true in H
           | H : _ && _ = true |- _ => apply andb_true_iff in H; destruct H
           | H : (_ <? _)%Z = true |- _ => apply Z.ltb_lt in H
           end;
    repeat match goal with
           | H : ?P → _, H' : ?P |- _ => specialize (H H')
           end;
    split_and!; intros; try done; try lia.
Qed.

Lemma run_cons (now : timestamp) (op : CoordinatorRuns.Op)
    (rest : list (timestamp * CoordinatorRuns.Op)) (c : Coordinator.t) (b : Nats.Broker) :
  CoordinatorRuns.run ((now, op) :: rest) c b
  = CoordinatorRuns.run rest (CoordinatorRuns.step now op c b).1
      (CoordinatorRuns.step now op c b).2.
Proof. simpl. by destruct (CoordinatorRuns.step now op c b). Qed.

Lemma run_config (ops : list (timestamp * CoordinatorRuns.Op)) (c : Coordinator.t)
    (b : Nats.Broker) :
  Coordinator.config (CoordinatorRuns.run ops c b).1 = Coordinator.config c.
Proof.
  revert c b. induction ops as [|[now op] rest IH]; intros c b; [done|].
  rewrite run_cons, IH. apply step_config.
Qed.

Lemma run_budget (ops : list (timestamp * CoordinatorRuns.Op)) (c : Coordinator.t)
    (b : Nats.Broker) :
  (1 ≤ Coordinator.maxAttempts (Coordinator.config c))%Z →
  map_Forall (λ _ a, CoordinatorRuns.within_budget c a) (Coordinator.assignments c) →
  map_Forall (λ _ a, CoordinatorRuns.within_budget (CoordinatorRuns.run ops c b).1 a)
    (Coordinator.assignments (CoordinatorRuns.run ops c b).1).
Proof.
  revert c b. induction ops as [|[now op] rest IH]; intros c b Hmax Hinv; [done|].
  rewrite run_cons. apply IH.
  - by rewrite step_config.
  - by apply step_budget.
Qed.

(** X1. In any run of a coordinator whose maxAttempts is at least 1, every
    tracked assignment has between 0 and maxAttempts attempts, and a pending
    one has strictly fewer than maxAttempts: a claim can never push the
    attempts of a work item over the budget. *)
Theorem attempts_within_budget (cfg : Coordinator.CoordinatorConfig)
    (ops : list (timestamp * CoordinatorRuns.Op)) (b : Nats.Broker)
    (id : string) (a : Coordinator.WorkAssignment) :
  (1 ≤ default 3 (Coordinator.cfg_maxAttempts cfg))%Z →
  Coordinator.getAssignment id
    (CoordinatorRuns.run ops (Coordinator.createCoordinator cfg) b).1 = Some a →
  Coordinator.a_maxAttempts a = default 3 (Coordinator.cfg_maxAttempts cfg)
  ∧ (0 ≤ Coordinator.a_attempts a ≤ Coordinator.a_maxAttempts a)%Z
  ∧ (Coordinator.a_status a = Coordinator.Pending →
     (Coordinator.a_attempts a < Coordinator.a_maxAttempts a)%Z).
Proof.
  intros Hmax Ha.
  pose proof (run_budget ops (Coordinator.createCoordinator cfg) b Hmax) as Hrun.
  specialize (Hrun (map_Forall_empty _)).
  specialize (Hrun id a Ha). unfold CoordinatorRuns.within_budget in Hrun.
  by rewrite run_config in Hrun.
Qed.

Lemma attempts_within_budget_witness :
  let ops := [(1000, CoordinatorRuns.OpSubmit Scenario.U CoordinatorScenario.request);
              (2000, CoordinatorRuns.OpCall (Coordinator.CallClaim Scenario.U "worker-1"))] in
  Coordinator.getAssignment Scenario.U
    (CoordinatorRuns.run ops CoordinatorScenario.c0 Scenario.queues_broker).1
  = Some CoordinatorScenario.claimed_assignment
  ∧ (0 ≤ Coordinator.a_attempts CoordinatorScenario.claimed_assignment ≤ 3)%Z.
Proof.
  assert (Hrun : Coordinator.getAssignment Scenario.U
            (CoordinatorRuns.run
               [(1000, CoordinatorRuns.OpSubmit Scenario.U CoordinatorScenario.request);
                (2000, CoordinatorRuns.OpCall (Coordinator.CallClaim Scenario.U "worker-1"))]
               CoordinatorScenario.c0 Scenario.queues_broker).1
          = Some CoordinatorScenario.claimed_assignment) by (vm_compute; reflexivity).
  split; [exact Hrun|].
  assert (Hmax : (1 ≤ default 3 (Coordinator.cfg_maxAttempts
            (Coordinator.mkCoordinatorConfig None None None "coord-guid-1234"
               "project-1234" (Some "coordinator"))))%Z) by (simpl; lia).
  exact (proj1 (proj2 (attempts_within_budget _ _ _ _ _ Hmax Hrun))).
Defined.




Lemma step_timers (now : timestamp) (op : CoordinatorRuns.Op) (c : Coordinator.t)
    (b : Nats.Broker) :
  CoordinatorRuns.timers_ok c →
  CoordinatorRuns.timers_ok (CoordinatorRuns.step now op c b).1.
Proof.
  intros Hinv.
  destruct op as [u r|k|i|]; [| destruct k | |]; simpl; coordinator_cases;
    try exact Hinv; intros id Hid; simpl in *;
    try (by apply is_Some_None in Hid);
    match goal with
    | |- context [<[?i := _]> (Coordinator.assignments c)] =>
        destruct (decide (i = id)) as [->|Hne];
        [ rewrite lookup_insert_eq; eexists; split; [reflexivity|]
        | rewrite lookup_insert_ne by done;
          rewrite ?lookup_insert_ne, ?lookup_delete_ne in Hid by done;
          by apply Hinv ]
    end;
    rewrite ?lookup_delete_eq in Hid; try (by apply is_Some_None in Hid);
    simpl; unfold Coordinator.is_terminal; try done.
Qed.


(** X3. In any run of a coordinator a timeout timer is only ever armed for
    a tracked assignment that is neither completed nor failed: completion
    and final failure clear the timer, and no timer is left for an unknown
    work item. *)
Theorem timers_only_for_open_work (cfg : Coordinator.CoordinatorConfig)
    (ops : list (timestamp * CoordinatorRuns.Op)) (b : Nats.Broker) :
  CoordinatorRuns.timers_ok
    (CoordinatorRuns.run ops (Coordinator.createCoordinator cfg) b).1.
Proof.
  assert (Hrun : ∀ c b', CoordinatorRuns.timers_ok c →
            CoordinatorRuns.timers_ok (CoordinatorRuns.run ops c b').1).
  { induction ops as [|[now op] rest IH]; intros c b' Hinv; [done|].
    rewrite run_cons. apply IH. by apply step_timers. }
  apply Hrun. intros id Hid. simpl in Hid. rewrite lookup_empty in Hid.
  by apply is_Some_None in Hid.
Qed.

Lemma count_partition (l : list Coordinator.WorkAssignment) :
  List.length l
  = (CoordinatorQueries.count Coordinator.Pending l
     + CoordinatorQueries.count Coordinator.Assigned l
     + CoordinatorQueries.count Coordinator.InProgress l
     + CoordinatorQueries.count Coordinator.Completed l
     + CoordinatorQueries.count Coordinator.Failed l)%nat.
Proof.
  unfold CoordinatorQueries.count.
  induction l as [|a l IH]; [done|].
  cbn [List.filter]. destruct (Coordinator.a_status a);
    repeat (case_bool_decide; try congruence); cbn [List.length]; lia.
Qed.

Lemma elem_of_values (c : Coordinator.t) (a : Coordinator.WorkAssignment) :
  a ∈ CoordinatorQueries.values c ↔ ∃ id, Coordinator.assignments c !! id = Some a.
Proof.
  unfold CoordinatorQueries.values. rewrite list_elem_of_fmap. split.
  - intros ([id a'] & -> & Hin). exists id. by apply elem_of_map_to_list.
  - intros (id & Hid). exists (id, a). split; [done|]. by apply elem_of_map_to_list.
Qed.

(** X4. The statistics of a coordinator partition its assignments: total is
    the number of tracked work items and equals the sum of the pending,
    assigned, in-progress, completed and failed counts. *)
Theorem getStats_partition (c : Coordinator.t) :
  let s := CoordinatorQueries.getStats c in
  CoordinatorQueries.total s = size (Coordinator.assignments c)
  ∧ CoordinatorQueries.total s
    = (CoordinatorQueries.pending s + CoordinatorQueries.assigned s
       + CoordinatorQueries.inProgress s + CoordinatorQueries.completed s
       + CoordinatorQueries.failed s)%nat.
Proof.
  cbn. split; [|apply count_partition].
  unfold CoordinatorQueries.values.
  by rewrite length_fmap, length_map_to_list.
Qed.

Lemma elem_of_List_filter {A : Type} (f : A → bool) (l : list A) (x : A) :
  x ∈ List.filter f l ↔ x ∈ l ∧ f x = true.
Proof. rewrite !list_elem_of_In. apply filter_In. Qed.

(** X5. getAssignments returns exactly the tracked assignments that have
    the status of the filter, when it names one, and the capability of the
    filter, when it names a non-empty one; an empty capability string
    filters nothing. *)
Theorem getAssignments_spec (filter : option CoordinatorQueries.AssignmentFilter)
    (c : Coordinator.t) (a : Coordinator.WorkAssignment) :
  a ∈ CoordinatorQueries.getAssignments filter c
  ↔ (∃ id, Coordinator.getAssignment id c = Some a)
    ∧ (∀ s, filter ≫= CoordinatorQueries.f_status = Some s → Coordinator.a_status a = s)
    ∧ (∀ cap, filter ≫= CoordinatorQueries.f_capability = Some cap → cap ≠ "" →
              Coordinator.a_capability a = cap).
Proof.
  unfold CoordinatorQueries.getAssignments, Coordinator.getAssignment.
  rewrite <- elem_of_values.
  destruct (filter ≫= CoordinatorQueries.f_status) as [s|];
    destruct (filter ≫= CoordinatorQueries.f_capability) as [cap|]; cbn;
    try destruct (Js.truthy cap) eqn:Hcap;
    rewrite ?elem_of_List_filter, ?bool_decide_eq_true, ?string_eqb_eq;
    try (apply truthy_true in Hcap);
    try (assert (cap = "") by (by destruct cap); subst cap);
    split; intros; destruct_and?; split_and?; try done; intros; simplify_eq; eauto.
Qed.

(* ===================================================================== *)
(** ** Array.prototype.sort *)
(* ===================================================================== *)

Section SortFacts.
Context {A : Type} (compare : A → A → Z) (R : A → A → Prop).
Hypothesis compare_le : ∀ x y, (compare x y ≤ 0)%Z → R x y.
Hypothesis compare_gt : ∀ x y, (0 < compare x y)%Z → R y x.

Lemma insert_perm (m : A) (l : list A) : JsArray.insert compare m l ≡ₚ m :: l.
Proof.
  induction l as [|x l IH]; cbn; [done|].
  destruct (compare x m <=? 0)%Z; [|done].
  rewrite IH. apply Permutation_swap.
Qed.

Lemma sort_perm (l : list A) : JsArray.sort compare l ≡ₚ l.
Proof.
  unfold JsArray.sort.
  assert (H : ∀ acc, foldl (fun acc m => JsArray.insert compare m acc) acc l
                     ≡ₚ (acc ++ l)%list).
  { induction l as [|m l IH]; intros acc; cbn.
    - by rewrite app_nil_r.
    - rewrite IH, insert_perm. apply Permutation_middle. }
  apply (H []).
Qed.

Lemma insert_hd (a m : A) (l : list A) :
  HdRel R a l → R a m → HdRel R a (JsArray.insert compare m l).
Proof.
  intros Hl Hm. destruct l as [|x l]; cbn; [by constructor|].
  destruct (compare x m <=? 0)%Z; constructor; [|done].
  by inversion Hl.
Qed.

Lemma insert_sorted (m : A) (l : list A) :
  Sorted R l → Sorted R (JsArray.insert compare m l).
Proof.
  induction l as [|x l IH]; intros Hs; cbn.
  - repeat constructor.
  - inversion Hs as [|? ? Hl Hx]; subst.
    destruct (Z.leb_spec (compare x m) 0).
    + constructor; [by apply IH | apply insert_hd; [done | by apply compare_le]].
    + constructor; [done|]. constructor. by apply compare_gt.
Qed.

Lemma sort_sorted (l : list A) : Sorted R (JsArray.sort compare l).
Proof.
  unfold JsArray.sort.
  assert (H : ∀ acc, Sorted R acc →
                     Sorted R (foldl (fun acc m => JsArray.insert compare m acc) acc l)).
  { induction l as [|m l IH]; intros acc Hacc; cbn; [done|].
    apply IH. by apply insert_sorted. }
  apply H. constructor.
Qed.

End SortFacts.

(* ===================================================================== *)
(** ** coordinator.ts: findWorkers *)
(* ===================================================================== *)

Lemma compareWorkers_le (a b : RegistryEntry) :
  (CoordinatorQueries.compareWorkers a b ≤ 0)%Z → CoordinatorQueriesStated.ranks_before a b.
Proof.
  unfold CoordinatorQueries.compareWorkers, CoordinatorQueriesStated.ranks_before.
  repeat case_bool_decide; cbn; intros; try lia; intuition lia.
Qed.

Lemma compareWorkers_gt (a b : RegistryEntry) :
  (0 < CoordinatorQueries.compareWorkers a b)%Z → CoordinatorQueriesStated.ranks_before b a.
Proof.
  unfold CoordinatorQueries.compareWorkers, CoordinatorQueriesStated.ranks_before.
  repeat case_bool_decide; cbn; intros; try lia; intuition lia.
Qed.

Lemma ranks_before_trans : Transitive CoordinatorQueriesStated.ranks_before.
Proof.
  intros a b c. unfold CoordinatorQueriesStated.ranks_before.
  destruct (decide (status a = Online)), (decide (status b = Online)),
    (decide (status c = Online)); intuition lia.
Qed.

Lemma existsb_eqb (x : string) (l : list string) :
  existsb (String.eqb x) l = true ↔ x ∈ l.
Proof.
  rewrite existsb_exists. split.
  - intros (y & Hin & Heq). apply string_eqb_eq in Heq as ->. by apply list_elem_of_In.
  - intros Hin. exists x. split; [by apply list_elem_of_In | by apply string_eqb_eq].
Qed.

Lemma eligible_spec (capability : string) (c : Coordinator.t) (e : RegistryEntry) :
  CoordinatorQueries.eligible capability c e = true
  ↔ capability ∈ capabilities e
    ∧ status e ≠ Offline
    ∧ Registry.isVisibleTo e (CoordinatorQueries.getRequester c) = true
    ∧ guid e ≠ Coordinator.coordinatorGuid (Coordinator.config c).
Proof.
  unfold CoordinatorQueries.eligible. rewrite <- existsb_eqb.
  destruct (existsb _ _); cbn; [|intuition congruence].
  case_bool_decide; [intuition congruence|].
  destruct (Registry.isVisibleTo _ _); cbn; [|intuition congruence].
  destruct (String.eqb _ _) eqn:Heq.
  - apply string_eqb_eq in Heq. intuition congruence.
  - apply string_eqb_neq in Heq. intuition congruence.
Qed.

(** X6. On an opened registry findWorkers returns exactly the stored
    entries that have the capability, are not offline, are visible to the
    coordinator and are not the coordinator itself, each as often as it is
    stored, ordered so that online workers precede busy ones and, within
    the same status, workers with fewer current tasks come first. Without an
    opened registry it throws. *)
Theorem findWorkers_spec (capability : string) (c : Coordinator.t) (kv : Kv.t) :
  (Kv.bucketInstance kv = true →
   ∃ workers,
     CoordinatorQueries.findWorkers capability c kv = Ok workers
     ∧ (∀ e, e ∈ workers ↔ CoordinatorQueriesStated.available capability c kv e)
     ∧ workers ≡ₚ List.filter (CoordinatorQueries.eligible capability c)
                    (snd <$> map_to_list (Kv.entries kv))
     ∧ StronglySorted CoordinatorQueriesStated.ranks_before workers)
  ∧ (Kv.bucketInstance kv = false →
     CoordinatorQueries.findWorkers capability c kv = Throw Kv.not_initialized).
Proof.
  unfold CoordinatorQueries.findWorkers, Kv.listRegistryEntries.
  split; intros Hb; rewrite Hb; [|done].
  eexists. split; [reflexivity|].
  assert (Hall : List.filter (λ _ : RegistryEntry, true) (snd <$> map_to_list (Kv.entries kv))
                 = snd <$> map_to_list (Kv.entries kv)).
  { induction (snd <$> map_to_list (Kv.entries kv)) as [|x l IH]; cbn; [done|].
    by rewrite IH. }
  rewrite Hall. unfold CoordinatorQueries.sortWorkers.
  split; [|split].
  - intros e. rewrite (sort_perm CoordinatorQueries.compareWorkers).
    rewrite elem_of_listed, eligible_spec.
    unfold CoordinatorQueriesStated.available. tauto.
  - apply sort_perm.
  - apply Sorted_StronglySorted; [apply ranks_before_trans|].
    apply (sort_sorted _ _ compareWorkers_le compareWorkers_gt).
Qed.

Lemma findWorkers_spec_witness :
  let kv := Kv.mkKv true (<["w1" := Fixtures.baseEntry Public]> ∅) in
  Kv.bucketInstance kv = true
  ∧ ∃ workers,
      CoordinatorQueries.findWorkers "typescript" CoordinatorScenario.c0 kv = Ok workers
      ∧ Fixtures.baseEntry Public ∈ workers.
Proof.
  split; [reflexivity|].
  destruct (proj1 (findWorkers_spec "typescript" CoordinatorScenario.c0
                     (Kv.mkKv true (<["w1" := Fixtures.baseEntry Public]> ∅))) eq_refl)
    as (workers & Hw & Hin & _).
  exists workers. split; [exact Hw|].
  apply Hin. split; [exists "w1"; reflexivity|].
  split; [apply list_elem_of_here|]. split; [discriminate|]. split; [reflexivity|discriminate].
Defined.

(* ===================================================================== *)
(** ** coordinator.ts: claims and timeouts *)
(* ===================================================================== *)

(** X7. A claim that succeeds turns a pending assignment into one assigned
    to the claiming worker, with one more attempt; after it every further
    claim of the same work item is refused and changes nothing, so a work
    item has at most one worker at a time. *)
Theorem recordClaim_once (now : timestamp) (id worker : string) (c c' : Coordinator.t) :
  Coordinator.recordClaim now id worker c = (true, c') →
  ∃ a a',
    Coordinator.getAssignment id c = Some a
    ∧ Coordinator.a_status a = Coordinator.Pending
    ∧ Coordinator.getAssignment id c' = Some a'
    ∧ Coordinator.a_status a' = Coordinator.Assigned
    ∧ Coordinator.a_assignedTo a' = Some worker
    ∧ Coordinator.a_assignedAt a' = Some now
    ∧ Coordinator.a_attempts a' = (Coordinator.a_attempts a + 1)%Z
    ∧ ∀ now' worker', Coordinator.recordClaim now' id worker' c' = (false, c').
Proof.
  unfold Coordinator.recordClaim, Coordinator.getAssignment.
  destruct (Coordinator.assignments c !! id) as [a|] eqn:Ha; [|done].
  destruct (negb _) eqn:Hp; [done|]. intros [= <-].
  apply negb_false_iff, bool_decide_eq_true in Hp.
  eexists a, _. split; [done|]. split; [done|].
  split; [cbn; apply lookup_insert_eq|]. cbn. split_and!; try done.
  intros now' worker'. by rewrite lookup_insert_eq.
Qed.

Lemma recordClaim_once_witness :
  ∃ c', Coordinator.recordClaim 2000 Scenario.U "worker-1" CoordinatorScenario.submitted.1
        = (true, c')
        ∧ Coordinator.recordClaim 2500 Scenario.U "worker-2" c' = (false, c').
Proof.
  assert (H : Coordinator.recordClaim 2000 Scenario.U "worker-1"
                CoordinatorScenario.submitted.1
              = (true, (Coordinator.recordClaim 2000 Scenario.U "worker-1"
                          CoordinatorScenario.submitted.1).2))
    by (vm_compute; reflexivity).
  eexists. split; [exact H|].
  destruct (recordClaim_once _ _ _ _ _ H) as (a & a' & _ & _ & _ & _ & _ & _ & _ & Hagain).
  apply Hagain.
Defined.

Lemma publishWorkItem_Ok_inv (item : WorkItem) (b b' : Nats.Broker) (r : string) :
  Workqueue.publishWorkItem item b = (Ok r, b') →
  Workqueue.validateWorkItem item = Ok tt
  ∧ Nats.connected b = true
  ∧ r = w_id item
  ∧ ∃ name q,
      Nats.routes b !! Workqueue.getWorkQueueSubject (w_capability item) = Some name
      ∧ Nats.streams b !! name = Some q
      ∧ b' = Nats.set_streams
               (insert name (WorkqueueStated.appended (Nats.PWorkItem item) q)) b.
Proof.
  unfold Workqueue.publishWorkItem.
  destruct (Workqueue.validateWorkItem item) as [[]|e] eqn:Hv; [|done].
  unfold Nats.bind, Nats.getJetStreamClient, Nats.try_catch, Nats.publish.
  destruct (Nats.connected b) eqn:Hc; [|done].
  destruct (Nats.routes b !! _) as [name|] eqn:Hr; [|done].
  destruct (Nats.streams b !! name) as [q|] eqn:Hq; [|done].
  cbn. intros [= <- <-]. split_and!; try done. by exists name, q.
Qed.

Lemma validateWorkItem_Ok_inv (item : WorkItem) :
  Workqueue.validateWorkItem item = Ok tt →
  Workqueue.isValidUUID (w_id item) = true
  ∧ Js.truthy (w_capability item) = true
  ∧ Js.trim_is_empty (w_capability item) = false
  ∧ ∀ p, w_priority item = Some p → (1 ≤ p ≤ 10)%Z.
Proof.
  unfold Workqueue.validateWorkItem.
  destruct (Workqueue.isValidUUID _); [|done]. cbn.
  destruct (Js.truthy _); [|done]. cbn.
  destruct (Js.trim_is_empty _); [done|].
  destruct (w_priority item) as [p|]; [|done].
  destruct ((p <? 1)%Z || (p >? 10)%Z) eqn:Hp; [done|].
  intros _. split_and!; try done. intros ? [= <-].
  apply orb_false_iff in Hp as [H1 H2]. lia.
Qed.

Lemma validateWorkItem_Ok (item : WorkItem) :
  Workqueue.isValidUUID (w_id item) = true →
  Js.trim_is_empty (w_capability item) = false →
  (∀ p, w_priority item = Some p → (1 ≤ p ≤ 10)%Z) →
  Workqueue.validateWorkItem item = Ok tt.
Proof.
  intros Hid Hcap Hp. unfold Workqueue.validateWorkItem. rewrite Hid, Hcap. cbn.
  destruct (Js.truthy (w_capability item)) eqn:Ht.
  - cbn. destruct (w_priority item) as [p|]; [|done].
    specialize (Hp p eq_refl).
    destruct (Z.ltb_spec p 1), (Z.gtb_spec p 10); cbn; try done; lia.
  - apply trim_is_empty_falsy in Ht. congruence.
Qed.

(** The work item that [submitWork] publishes. *)
Lemma submitWork_Ok_inv (now : timestamp) (u : string) (r : Coordinator.WorkRequest)
    (c c1 : Coordinator.t) (b b1 : Nats.Broker) (id : string) :
  Coordinator.submitWork now u r c b = (Ok id, c1, b1) →
  let item :=
    mkWorkItem u (Coordinator.q_taskId r) (Coordinator.q_capability r)
      (Coordinator.q_description r) (Some (default 5 (Coordinator.q_priority r)))
      (Coordinator.q_deadline r) (Coordinator.q_contextData r)
      (Coordinator.coordinatorGuid (Coordinator.config c)) now 0 in
  let a :=
    Coordinator.mkWorkAssignment u (Coordinator.q_taskId r) (Coordinator.q_capability r)
      None None Coordinator.Pending 0 0 (Coordinator.maxAttempts (Coordinator.config c))
      now None None None in
  id = u
  ∧ c1 = Coordinator.startTimeoutChecker now u (Coordinator.set_assignment u a c)
  ∧ ∃ b0, Workqueue.createWorkQueueStream (Coordinator.q_capability r) b = (Ok tt, b0)
          ∧ Workqueue.publishWorkItem item b0 = (Ok u, b1).
Proof.
  unfold Coordinator.submitWork. cbn zeta.
  destruct (Workqueue.createWorkQueueStream _ b) as [[[]|e] b0] eqn:Hc; [|done].
  destruct (Workqueue.publishWorkItem _ b0) as [[i|e] b2] eqn:Hp; [|done].
  intros [= <- <- <-]. split_and!; try done. exists b0. split; [done|].
  pose proof (publishWorkItem_Ok_inv _ _ _ _ Hp) as (_ & _ & Hi & _).
  cbn in Hi. subst i. exact Hp.
Qed.

(** X8. When a submitted work item is not claimed before its timer fires
    (automatic retry on, maxAttempts at least 1), the timeout publishes a
    second work item with the same id and priority 7 behind the first one,
    which is still in the queue; the assignment stays pending with 0
    attempts and its timer is armed again. *)
Theorem unclaimed_timeout_republishes (now now' : timestamp) (u id : string)
    (r : Coordinator.WorkRequest) (c c1 : Coordinator.t) (b b1 : Nats.Broker) :
  Coordinator.submitWork now u r c b = (Ok id, c1, b1) →
  Coordinator.autoRetry (Coordinator.config c) = true →
  (1 ≤ Coordinator.maxAttempts (Coordinator.config c))%Z →
  ∃ (name : string) (q : Nats.Stream) (first again : WorkItem) (c2 : Coordinator.t)
    (a2 : Coordinator.WorkAssignment),
    Nats.routes b1 !! Workqueue.getWorkQueueSubject (Coordinator.q_capability r) = Some name
    ∧ Nats.streams b1 !! name = Some q
    ∧ last (Nats.s_msgs q) = Some (Nats.mkStoredMsg (Nats.s_last_seq q) (Nats.PWorkItem first))
    ∧ w_id first = id
    ∧ Coordinator.timeoutFired now' id c1 b1
      = (Ok true, c2,
         Nats.set_streams
           (insert name (WorkqueueStated.appended (Nats.PWorkItem again) q)) b1)
    ∧ w_id again = id
    ∧ w_capability again = Coordinator.q_capability r
    ∧ w_priority again = Some 7
    ∧ w_attempts again = 0
    ∧ Coordinator.getAssignment id c2 = Some a2
    ∧ Coordinator.a_status a2 = Coordinator.Pending
    ∧ Coordinator.a_attempts a2 = 0
    ∧ Coordinator.timeoutCheckers c2 !! id
      = Some (now' + Coordinator.assignmentTimeoutMs (Coordinator.config c))%Z.
Proof.
  intros Hsub Hauto Hmax.
  apply submitWork_Ok_inv in Hsub as (-> & -> & b0 & _ & Hpub).
  apply publishWorkItem_Ok_inv in Hpub as (Hv & Hc & _ & name & q0 & Hr & Hq & ->).
  apply validateWorkItem_Ok_inv in Hv as (Hid & _ & Hcap & _).
  cbn [w_id w_capability] in Hid, Hcap, Hr.
  set (b1 := Nats.set_streams _ b0).
  assert (Hq1 : Nats.streams b1 !! name
                = Some (WorkqueueStated.appended (Nats.PWorkItem
                    (mkWorkItem u (Coordinator.q_taskId r) (Coordinator.q_capability r)
                       (Coordinator.q_description r)
                       (Some (default 5 (Coordinator.q_priority r)))
                       (Coordinator.q_deadline r) (Coordinator.q_contextData r)
                       (Coordinator.coordinatorGuid (Coordinator.config c)) now 0)) q0))
    by apply lookup_insert_eq.
  eexists name, _, _, _, _, _.
  split; [exact Hr|]. split; [exact Hq1|].
  split; [cbn; apply last_snoc|]. split; [reflexivity|].
  unfold Coordinator.timeoutFired, Coordinator.recordError.
  cbn [Coordinator.assignments Coordinator.startTimeoutChecker Coordinator.set_assignment
       Coordinator.clearTimeoutChecker Coordinator.config Coordinator.a_status
       Coordinator.a_attempts Coordinator.a_maxAttempts].
  rewrite lookup_insert_eq.
  cbn [Coordinator.a_status Coordinator.a_attempts Coordinator.a_maxAttempts].
  rewrite bool_decide_eq_true_2 by done. cbn [orb andb].
  rewrite Hauto. cbn [andb].
  destruct (Z.ltb_spec 0 (Coordinator.maxAttempts (Coordinator.config c))) as [_|?]; [|lia].
  erewrite publishWorkItem_ok; [| | exact Hc | exact Hr | exact Hq1].
  2: { apply validateWorkItem_Ok; [exact Hid | exact Hcap |].
       cbn. intros p [= <-]. lia. }
  split; [reflexivity|]. cbn.
  split_and!; first [apply lookup_insert_eq | reflexivity].
Qed.

Lemma unclaimed_timeout_republishes_witness :
  ∃ c1 b1 c2 b2,
    Coordinator.submitWork 1000 Scenario.U CoordinatorScenario.request
      CoordinatorScenario.c0 Scenario.queues_broker = (Ok Scenario.U, c1, b1)
    ∧ Coordinator.timeoutFired 301000 Scenario.U c1 b1 = (Ok true, c2, b2)
    ∧ Coordinator.a_status <$> Coordinator.getAssignment Scenario.U c2
      = Some Coordinator.Pending.
Proof.
  assert (Hsub : Coordinator.submitWork 1000 Scenario.U CoordinatorScenario.request
                   CoordinatorScenario.c0 Scenario.queues_broker
                 = (Ok Scenario.U, CoordinatorScenario.submitted.1,
                    CoordinatorScenario.submitted.2)) by (vm_compute; reflexivity).
  destruct (unclaimed_timeout_republishes 1000 301000 _ _ _ _ _ _ _ Hsub eq_refl
              ltac:(simpl; lia))
    as (name & q & first & again & c2 & a2 & _ & _ & _ & _ & Hfire & _ & _ & _ & _
        & Ha & Hst & _).
  eexists _, _, c2, _. split; [exact Hsub|]. split; [exact Hfire|].
  rewrite Ha. cbn. by rewrite Hst.
Defined.

(* ===================================================================== *)
(** ** workqueue.ts: claims *)
(* ===================================================================== *)

Lemma set_streams_id (name : string) (s : Nats.Stream) (b : Nats.Broker) :
  Nats.streams b !! name = Some s → Nats.set_streams (insert name s) b = b.
Proof. intros H. destruct b. unfold Nats.set_streams. cbn in *. by rewrite insert_id. Qed.

Lemma set_streams_twice (name : string) (s s' : Nats.Stream) (b : Nats.Broker) :
  Nats.set_streams (insert name s') (Nats.set_streams (insert name s) b)
  = Nats.set_streams (insert name s') b.
Proof. unfold Nats.set_streams. cbn. by rewrite insert_insert_eq. Qed.

Lemma ensure_consumer (capability : string) (q : Nats.Stream) (b : Nats.Broker) :
  Nats.streams b !! Workqueue.streamName capability = Some q →
  Nats.try_catch
    (Nats.bind (Nats.consumers_info (Workqueue.streamName capability)
                  (Workqueue.consumerName capability)) (fun _ => Nats.ret tt))
    (fun _ => Nats.consumers_add (Workqueue.streamName capability)
                (Workqueue.consumerName capability)
                (Some Workqueue.DEFAULT_maxDeliveryAttempts)) b
  = (Ok tt,
     Nats.set_streams
       (insert (Workqueue.streamName capability) (ClaimStated.ensured capability q)) b).
Proof.
  intros Hq.
  unfold Nats.try_catch, Nats.bind, Nats.consumers_info, Nats.consumers_add, Nats.ret.
  unfold ClaimStated.ensured, ClaimStated.worker. rewrite Hq.
  destruct (Nats.s_consumers q !! Workqueue.consumerName capability) as [c|] eqn:Hc.
  - cbn. f_equal. symmetry. apply set_streams_id. rewrite Hq. f_equal.
    destruct q. unfold Nats.set_consumers. cbn in *. by rewrite insert_id.
  - rewrite Hq, Hc. reflexivity.
Qed.

Lemma stream_exists_step (name : string) (q : Nats.Stream) (b : Nats.Broker) :
  Nats.streams b !! name = Some q →
  Nats.try_catch (Nats.bind (Nats.streams_info name) (fun _ => Nats.ret true))
    (fun _ => Nats.ret false) b = (Ok true, b).
Proof.
  intros Hq. apply try_catch_Ok. by rewrite (bind_Ok _ _ _ _ _ (streams_info_Ok _ _ _ Hq)).
Qed.

Lemma claim_body (capability : string) (timeoutMs : Z) (q : Nats.Stream)
    (b b' : Nats.Broker) (r : option WorkItem) :
  Nats.connected b = true →
  Nats.streams b !! Workqueue.streamName capability = Some q →
  Nats.bind
    (Nats.fetch (Workqueue.streamName capability) (Workqueue.consumerName capability) 1)
    (fun messages => Workqueue.claim_loop (Workqueue.streamName capability)
                       (Workqueue.consumerName capability) messages)
    (Nats.set_streams
       (insert (Workqueue.streamName capability) (ClaimStated.ensured capability q)) b)
  = (Ok r, b') →
  Workqueue.claimWorkItem capability timeoutMs b = (Ok r, b').
Proof.
  intros Hc Hq Hbody. unfold Workqueue.claimWorkItem.
  rewrite (bind_Ok _ _ _ _ _ (getJetStreamClient_Ok _ Hc)).
  rewrite (bind_Ok _ _ _ _ _ (getJetStreamManager_Ok _ Hc)).
  cbn zeta. apply try_catch_Ok.
  rewrite (bind_Ok _ _ _ _ _ (stream_exists_step _ _ _ Hq)). cbn [negb].
  rewrite (bind_Ok _ _ _ _ _ (ensure_consumer _ _ _ Hq)).
  exact Hbody.
Qed.

Lemma claim_first (capability : string) (timeoutMs : Z)
    (q : Nats.Stream) (m : Nats.StoredMsg) (rest : list Nats.StoredMsg) (b : Nats.Broker) :
  Nats.connected b = true →
  Nats.streams b !! Workqueue.streamName capability = Some q →
  Nats.pending (ClaimStated.worker capability q) (Nats.s_msgs q) = m :: rest →
  Workqueue.claimWorkItem capability timeoutMs b
  = (Ok (ClaimStated.handed capability m q),
     Nats.set_streams
       (insert (Workqueue.streamName capability) (ClaimStated.claimed capability m q)) b).
Proof.
  intros Hc Hq Hp. apply claim_body with (q := q); [done|done|].
  set (name := Workqueue.streamName capability) in *.
  set (cname := Workqueue.consumerName capability) in *.
  set (w := ClaimStated.worker capability q) in *.
  set (b1 := Nats.set_streams (insert name (ClaimStated.ensured capability q)) b).
  assert (Hq1 : Nats.streams b1 !! name = Some (ClaimStated.ensured capability q))
    by apply lookup_insert_eq.
  assert (Hw1 : Nats.s_consumers (ClaimStated.ensured capability q) !! cname = Some w)
    by apply lookup_insert_eq.
  assert (Hfetch :
    Nats.fetch name cname 1 b1
    = (Ok [Nats.mkJsMsg (Nats.m_seq m) (Nats.m_data m) (S (Nats.deliveries w (Nats.m_seq m)))],
       Nats.set_streams
         (insert name
            (Nats.set_consumers (insert cname (Nats.mark_delivered [m] w))
               (ClaimStated.ensured capability q))) b1)).
  { unfold Nats.fetch. rewrite Hq1, Hw1.
    change (Nats.s_msgs (ClaimStated.ensured capability q)) with (Nats.s_msgs q).
    rewrite Hp. reflexivity. }
  rewrite (bind_Ok _ _ _ _ _ Hfetch).
  set (q2 := Nats.set_consumers _ (ClaimStated.ensured capability q)).
  set (b2 := Nats.set_streams (insert name q2) b1).
  assert (Hack :
    Nats.ack name cname (Nats.m_seq m) b2
    = (Ok tt,
       Nats.set_streams (insert name (ClaimStated.claimed capability m q)) b)).
  { unfold Nats.ack.
    assert (Hq2 : Nats.streams b2 !! name = Some q2) by apply lookup_insert_eq.
    assert (Hw2 : Nats.s_consumers q2 !! cname = Some (Nats.mark_delivered [m] w))
      by apply lookup_insert_eq.
    rewrite Hq2, Hw2. cbn zeta. f_equal.
    subst b2 b1. rewrite !set_streams_twice. f_equal. f_equal.
    subst q2. unfold ClaimStated.claimed, ClaimStated.ensured, ClaimStated.acknowledged.
    fold cname. fold w.
    unfold Nats.set_consumers, Nats.set_msgs, Nats.mark_delivered. cbn.
    rewrite !insert_insert_eq.
    destruct (Nats.s_workqueue q) eqn:Hwq; cbn; rewrite ?Hwq; reflexivity. }
  unfold ClaimStated.handed. fold w.
  cbn [Workqueue.claim_loop Nats.j_data Nats.j_seq Nats.j_deliveryCount].
  destruct (Nats.parseWorkItem (Nats.m_data m)) as [item|];
    rewrite (bind_Ok _ _ _ _ _ Hack); reflexivity.
Qed.

Lemma mark_delivered_nil (c : Nats.Consumer) : Nats.mark_delivered [] c = c.
Proof. by destruct c. Qed.

Lemma claim_nothing (capability : string) (timeoutMs : Z)
    (q : Nats.Stream) (b : Nats.Broker) :
  Nats.connected b = true →
  Nats.streams b !! Workqueue.streamName capability = Some q →
  Nats.pending (ClaimStated.worker capability q) (Nats.s_msgs q) = [] →
  Workqueue.claimWorkItem capability timeoutMs b
  = (Ok None,
     Nats.set_streams
       (insert (Workqueue.streamName capability) (ClaimStated.ensured capability q)) b).
Proof.
  intros Hc Hq Hp. apply claim_body with (q := q); [done|done|].
  set (b1 := Nats.set_streams _ b).
  assert (Hq1 : Nats.streams b1 !! Workqueue.streamName capability
                = Some (ClaimStated.ensured capability q)) by apply lookup_insert_eq.
  assert (Hw1 : Nats.s_consumers (ClaimStated.ensured capability q)
                  !! Workqueue.consumerName capability
                = Some (ClaimStated.worker capability q)) by apply lookup_insert_eq.
  unfold Nats.bind, Nats.fetch. rewrite Hq1, Hw1.
  change (Nats.s_msgs (ClaimStated.ensured capability q)) with (Nats.s_msgs q).
  rewrite Hp. cbn [take List.map Workqueue.claim_loop Nats.ret].
  rewrite mark_delivered_nil. subst b1. rewrite set_streams_twice. f_equal. f_equal. f_equal.
  unfold ClaimStated.ensured, Nats.set_consumers. cbn. by rewrite insert_insert_eq.
Qed.










(* ===================================================================== *)
(** ** workqueue.ts and dlq.ts: creation of the streams *)
(* ===================================================================== *)

Lemma create_if_absent (name subject : string) (workqueue : bool) (b : Nats.Broker) :
  Nats.bind
    (Nats.try_catch (Nats.bind (Nats.streams_info name) (fun s => Nats.ret (Some s)))
       (fun _ => Nats.ret None))
    (fun existingStream =>
       match existingStream with
       | Some _ => Nats.ret tt
       | None => Nats.streams_add name subject workqueue
       end) b
  = match Nats.streams b !! name, Nats.routes b !! subject with
    | Some _, _ => (Ok tt, b)
    | None, Some _ => (Throw "subjects overlap with an existing stream", b)
    | None, None =>
        (Ok tt,
         Nats.mkBroker (Nats.connected b)
           (<[name := Nats.mkStream subject workqueue [] 0 ∅ ∅]> (Nats.streams b))
           (<[subject := name]> (Nats.routes b)))
    end.
Proof.
  unfold Nats.bind, Nats.try_catch, Nats.streams_info, Nats.streams_add, Nats.ret.
  destruct (Nats.streams b !! name) eqn:Hs; [done|]. rewrite Hs.
  by destruct (Nats.routes b !! subject).
Qed.

Lemma createWorkQueueStream_cases (capability : string) (b : Nats.Broker) :
  Nats.connected b = true →
  Workqueue.createWorkQueueStream capability b
  = match Nats.streams b !! Workqueue.streamName capability,
          Nats.routes b !! Workqueue.getWorkQueueSubject capability with
    | Some _, _ => (Ok tt, b)
    | None, Some _ =>
        (Throw ("Failed to create work queue stream for " +:+ capability
                +:+ ": subjects overlap with an existing stream"), b)
    | None, None =>
        (Ok tt,
         Nats.mkBroker (Nats.connected b)
           (<[Workqueue.streamName capability
              := Nats.mkStream (Workqueue.getWorkQueueSubject capability) true [] 0 ∅ ∅]>
              (Nats.streams b))
           (<[Workqueue.getWorkQueueSubject capability := Workqueue.streamName capability]>
              (Nats.routes b)))
    end.
Proof.
  intros Hc. unfold Workqueue.createWorkQueueStream.
  rewrite (bind_Ok _ _ _ _ _ (getJetStreamManager_Ok _ Hc)).
  unfold Nats.try_catch at 1. rewrite create_if_absent.
  destruct (Nats.streams b !! _); [done|].
  destruct (Nats.routes b !! _); done.
Qed.

Lemma createDLQStream_cases (b : Nats.Broker) :
  Nats.connected b = true →
  Dlq.createDLQStream b
  = match Nats.streams b !! Dlq.DLQ_STREAM_NAME, Nats.routes b !! Dlq.DLQ_SUBJECT with
    | Some _, _ => (Ok tt, b)
    | None, Some _ =>
        (Throw "Failed to create DLQ stream: subjects overlap with an existing stream", b)
    | None, None =>
        (Ok tt,
         Nats.mkBroker (Nats.connected b)
           (<[Dlq.DLQ_STREAM_NAME := Nats.mkStream Dlq.DLQ_SUBJECT false [] 0 ∅ ∅]>
              (Nats.streams b))
           (<[Dlq.DLQ_SUBJECT := Dlq.DLQ_STREAM_NAME]> (Nats.routes b)))
    end.
Proof.
  intros Hc. unfold Dlq.createDLQStream.
  rewrite (bind_Ok _ _ _ _ _ (getJetStreamManager_Ok _ Hc)).
  unfold Nats.try_catch at 1. rewrite create_if_absent.
  destruct (Nats.streams b !! _); [done|].
  destruct (Nats.routes b !! _); done.
Qed.

(** X11. Creating the work queue of a capability, or the dead letter
    stream, is idempotent on a connected broker: when the call succeeds the
    stream exists afterwards, a stream that existed before is left exactly
    as it was with all its messages, and a second call succeeds and changes
    nothing. *)
Theorem stream_creation_idempotent (capability : string) (b b1 b2 : Nats.Broker) :
  Nats.connected b = true →
  (Workqueue.createWorkQueueStream capability b = (Ok tt, b1) →
   is_Some (Nats.streams b1 !! Workqueue.streamName capability)
   ∧ (is_Some (Nats.streams b !! Workqueue.streamName capability) → b1 = b)
   ∧ Workqueue.createWorkQueueStream capability b1 = (Ok tt, b1))
  ∧ (Dlq.createDLQStream b = (Ok tt, b2) →
     is_Some (Nats.streams b2 !! Dlq.DLQ_STREAM_NAME)
     ∧ (is_Some (Nats.streams b !! Dlq.DLQ_STREAM_NAME) → b2 = b)
     ∧ Dlq.createDLQStream b2 = (Ok tt, b2)).
Proof.
  intros Hc. split.
  - rewrite (createWorkQueueStream_cases _ _ Hc).
    destruct (Nats.streams b !! Workqueue.streamName capability) as [s|] eqn:Hs.
    + intros [= <-]. split; [by rewrite Hs|]. split; [done|].
      by rewrite (createWorkQueueStream_cases _ _ Hc), Hs.
    + destruct (Nats.routes b !! _); [done|]. intros [= <-].
      split; [cbn; by rewrite lookup_insert_eq|].
      split; [by intros [? ?]|].
      rewrite createWorkQueueStream_cases by done. cbn. by rewrite lookup_insert_eq.
  - rewrite (createDLQStream_cases _ Hc).
    destruct (Nats.streams b !! Dlq.DLQ_STREAM_NAME) as [s|] eqn:Hs.
    + intros [= <-]. split; [by rewrite Hs|]. split; [done|].
      by rewrite (createDLQStream_cases _ Hc), Hs.
    + destruct (Nats.routes b !! _); [done|]. intros [= <-].
      split; [cbn; by rewrite lookup_insert_eq|].
      split; [by intros [? ?]|].
      rewrite createDLQStream_cases by done. cbn. by rewrite lookup_insert_eq.
Qed.

Lemma stream_creation_idempotent_witness :
  Nats.connected Scenario.empty_broker = true
  ∧ Workqueue.createWorkQueueStream "typescript" Scenario.queue_broker
    = (Ok tt, Scenario.queue_broker)
  ∧ Dlq.createDLQStream Scenario.queues_broker = (Ok tt, Scenario.queues_broker).
Proof.
  split; [reflexivity|].
  destruct (stream_creation_idempotent "typescript" Scenario.empty_broker
              Scenario.queue_broker
              (Dlq.createDLQStream Scenario.empty_broker).2 eq_refl) as [Hq Hd].
  split.
  - apply Hq. vm_compute. reflexivity.
  - vm_compute. reflexivity.
Defined.

(* ===================================================================== *)
(** ** workqueue.ts: from publication to claim *)
(* ===================================================================== *)

Lemma getPendingWorkCount_cases (capability : string) (b : Nats.Broker) :
  Nats.connected b = true →
  Workqueue.getPendingWorkCount capability b
  = (Ok (match Nats.streams b !! Workqueue.streamName capability with
         | Some q => List.length (Nats.s_msgs q)
         | None => 0%nat
         end), b).
Proof.
  intros Hc. unfold Workqueue.getPendingWorkCount.
  rewrite (bind_Ok _ _ _ _ _ (getJetStreamManager_Ok _ Hc)).
  destruct (Nats.streams b !! Workqueue.streamName capability) as [q|] eqn:Hq.
  - apply try_catch_Ok. by rewrite (bind_Ok _ _ _ _ _ (streams_info_Ok _ _ _ Hq)).
  - erewrite try_catch_Throw.
    2: { apply bind_Throw. by apply streams_info_Throw. }
    reflexivity.
Qed.

(** X12. A work item published to a newly created queue comes back from the
    next claim: on a connected broker that has neither the stream nor the
    subject of a capability, createWorkQueueStream, publishWorkItem of a
    valid item of that capability and claimWorkItem succeed in turn, the
    claim returns the published item with attempts 1, and the pending count
    of the capability goes from 0 to 1 and back to 0. *)
Theorem publish_then_claim (item : WorkItem) (timeoutMs : Z) (b : Nats.Broker) :
  let capability := w_capability item in
  Nats.connected b = true →
  Nats.streams b !! Workqueue.streamName capability = None →
  Nats.routes b !! Workqueue.getWorkQueueSubject capability = None →
  Workqueue.validateWorkItem item = Ok tt →
  ∃ b1 b2 b3,
    Workqueue.createWorkQueueStream capability b = (Ok tt, b1)
    ∧ Workqueue.getPendingWorkCount capability b1 = (Ok 0%nat, b1)
    ∧ Workqueue.publishWorkItem item b1 = (Ok (w_id item), b2)
    ∧ Workqueue.getPendingWorkCount capability b2 = (Ok 1%nat, b2)
    ∧ Workqueue.claimWorkItem capability timeoutMs b2
      = (Ok (Some (Workqueue.set_attempts 1 item)), b3)
    ∧ Workqueue.getPendingWorkCount capability b3 = (Ok 0%nat, b3).
Proof.
  intros capability Hc Hs Hr Hv.
  set (q0 := Nats.mkStream (Workqueue.getWorkQueueSubject capability) true [] 0 ∅ ∅).
  set (b1 := Nats.mkBroker (Nats.connected b)
               (<[Workqueue.streamName capability := q0]> (Nats.streams b))
               (<[Workqueue.getWorkQueueSubject capability := Workqueue.streamName capability]>
                  (Nats.routes b))).
  assert (H1 : Workqueue.createWorkQueueStream capability b = (Ok tt, b1)).
  { rewrite (createWorkQueueStream_cases _ _ Hc), Hs, Hr. reflexivity. }
  assert (Hq1 : Nats.streams b1 !! Workqueue.streamName capability = Some q0)
    by apply lookup_insert_eq.
  assert (Hr1 : Nats.routes b1 !! Workqueue.getWorkQueueSubject (w_capability item)
                = Some (Workqueue.streamName capability)) by apply lookup_insert_eq.
  pose proof (publishWorkItem_ok item _ q0 b1 Hv Hc Hr1 Hq1) as H2.
  set (q1 := WorkqueueStated.appended (Nats.PWorkItem item) q0) in *.
  set (b2 := Nats.set_streams _ b1) in *.
  assert (Hq2 : Nats.streams b2 !! Workqueue.streamName capability = Some q1)
    by apply lookup_insert_eq.
  pose proof (claim_first capability timeoutMs q1 (Nats.mkStoredMsg 1 (Nats.PWorkItem item))
                [] b2 Hc Hq2 eq_refl) as H3.
  eexists b1, b2, _.
  split; [exact H1|]. split; [by rewrite (getPendingWorkCount_cases _ b1 Hc), Hq1|].
  split; [exact H2|]. split; [by rewrite (getPendingWorkCount_cases _ b2 Hc), Hq2|].
  split; [exact H3|].
  rewrite getPendingWorkCount_cases by exact Hc.
  cbn [Nats.streams Nats.set_streams]. by rewrite lookup_insert_eq.
Qed.

Lemma publish_then_claim_witness :
  Nats.connected Scenario.empty_broker = true
  ∧ ∃ b1 b2 b3,
      Workqueue.createWorkQueueStream "typescript" Scenario.empty_broker = (Ok tt, b1)
      ∧ Workqueue.publishWorkItem Scenario.item b1 = (Ok Scenario.U, b2)
      ∧ Workqueue.claimWorkItem "typescript" 5000 b2
        = (Ok (Some (Workqueue.set_attempts 1 Scenario.item)), b3).
Proof.
  split; [reflexivity|].
  destruct (publish_then_claim Scenario.item 5000 Scenario.empty_broker)
    as (b1 & b2 & b3 & H1 & _ & H2 & _ & H3 & _);
    [reflexivity | reflexivity | reflexivity | vm_compute; reflexivity |].
  exists b1, b2, b3. split; [exact H1|]. split; [exact H2|exact H3].
Defined.

Lemma append_inj_l (p a b : string) : p +:+ a = p +:+ b → a = b.
Proof.
  induction p as [|c p IH]; intros H; [exact H|].
  apply IH. by injection H.
Qed.

Lemma getWorkQueueSubject_inj (c1 c2 : string) :
  Workqueue.getWorkQueueSubject c1 = Workqueue.getWorkQueueSubject c2 → c1 = c2.
Proof.
  unfold Workqueue.getWorkQueueSubject. intros H.
  by apply append_inj_l, append_inj_l in H.
Qed.

(** X13. Two different capabilities, made of ASCII characters, that
    sanitizeCapability maps to the same name (such as "typescript" and
    "TypeScript") share one stream name but not one subject: once the queue of the first exists, creating
    the queue of the second reports success without creating anything, and
    on a broker that captures no other stream on the second subject every
    publishWorkItem for the second capability fails with the
    "Failed to publish" error and stores nothing. *)
Theorem sanitized_name_collision (cap1 cap2 : string) (item : WorkItem) (b : Nats.Broker) :
  Nats.connected b = true →
  Nats.streams b !! Workqueue.streamName cap1 = None →
  Nats.routes b !! Workqueue.getWorkQueueSubject cap1 = None →
  Nats.routes b !! Workqueue.getWorkQueueSubject cap2 = None →
  NameStated.ascii_only cap1 = true →
  NameStated.ascii_only cap2 = true →
  cap1 ≠ cap2 →
  Workqueue.sanitizeCapability cap1 = Workqueue.sanitizeCapability cap2 →
  w_capability item = cap2 →
  Workqueue.validateWorkItem item = Ok tt →
  ∃ b1,
    Workqueue.createWorkQueueStream cap1 b = (Ok tt, b1)
    ∧ Workqueue.createWorkQueueStream cap2 b1 = (Ok tt, b1)
    ∧ Workqueue.publishWorkItem item b1
      = (Throw ("Failed to publish work item " +:+ w_id item +:+ " to queue "
                +:+ cap2 +:+ ": 503"), b1).
Proof.
  intros Hc Hs Hr1 Hr2 _ _ Hne Hsan Hcap Hv.
  eexists. split.
  { rewrite (createWorkQueueStream_cases _ _ Hc), Hs, Hr1. reflexivity. }
  set (b1 := Nats.mkBroker _ _ _).
  assert (Hname : Workqueue.streamName cap2 = Workqueue.streamName cap1).
  { unfold Workqueue.streamName. by rewrite Hsan. }
  split.
  - rewrite (createWorkQueueStream_cases _ b1 Hc), Hname.
    subst b1. cbn [Nats.streams]. by rewrite lookup_insert_eq.
  - unfold Workqueue.publishWorkItem. rewrite Hv, Hcap.
    rewrite (bind_Ok _ _ _ _ _ (getJetStreamClient_Ok b1 Hc)).
    erewrite try_catch_Throw; [reflexivity|].
    apply bind_Throw. unfold Nats.publish. subst b1. cbn [Nats.routes].
    rewrite lookup_insert_ne, Hr2; [done|].
    intros Heq. by apply getWorkQueueSubject_inj in Heq.
Qed.

Lemma sanitized_name_collision_witness :
  let item :=
    mkWorkItem Scenario.U "task-123" "TypeScript" "Test task" None None None "o" 0 0 in
  Nats.connected Scenario.empty_broker = true
  ∧ Workqueue.createWorkQueueStream "TypeScript" Scenario.queue_broker
    = (Ok tt, Scenario.queue_broker)
  ∧ Workqueue.publishWorkItem item Scenario.queue_broker
    = (Throw ("Failed to publish work item " +:+ Scenario.U
              +:+ " to queue TypeScript: 503"), Scenario.queue_broker).
Proof.
  split; [reflexivity|].
  destruct (sanitized_name_collision "typescript" "TypeScript"
              (mkWorkItem Scenario.U "task-123" "TypeScript" "Test task" None None None
                 "o" 0 0) Scenario.empty_broker)
    as (b1 & H1 & H2 & H3);
    [reflexivity | reflexivity | reflexivity | reflexivity | reflexivity | reflexivity
     | discriminate | vm_compute; reflexivity | reflexivity | vm_compute; reflexivity |].
  assert (Hb1 : b1 = Scenario.queue_broker).
  { assert (H : Workqueue.createWorkQueueStream "typescript" Scenario.empty_broker
                = (Ok tt, Scenario.queue_broker)) by (vm_compute; reflexivity).
    rewrite H in H1. by injection H1. }
  subst b1. split; [exact H2 | exact H3].
Defined.

(** X14. The stream name derived from a capability contains only
    upper-case letters, digits and underscores, whatever characters the
    capability contains, and sanitizing a sanitized name changes nothing. *)
Theorem sanitizeCapability_alphabet (capability : string) :
  Forall (fun c => NameStated.name_char c = true)
    (list_ascii_of_string (Workqueue.streamName capability))
  ∧ Workqueue.sanitizeCapability (Workqueue.sanitizeCapability capability)
    = Workqueue.sanitizeCapability capability.
Proof.
  assert (Hchar : ∀ c, NameStated.name_char
                         (if Js.is_alnum c then Js.to_upper c else "_"%char) = true
                       ∧ (let c' := if Js.is_alnum c then Js.to_upper c else "_"%char in
                          (if Js.is_alnum c' then Js.to_upper c' else "_"%char) = c')).
  { intros [[] [] [] [] [] [] [] []]; vm_compute; split; reflexivity. }
  split.
  - unfold Workqueue.streamName.
    change ("WORKQUEUE_" +:+ ?s) with
      (String "W" (String "O" (String "R" (String "K" (String "Q" (String "U"
         (String "E" (String "U" (String "E" (String "_" s)))))))))).
    cbn [list_ascii_of_string]. repeat (constructor; [reflexivity|]).
    induction capability as [|c rest IH]; cbn; [constructor|].
    constructor; [apply Hchar | exact IH].
  - induction capability as [|c rest IH]; [done|].
    cbn [Workqueue.sanitizeCapability]. rewrite IH. f_equal. apply Hchar.
Qed.

(* ===================================================================== *)
(** ** dlq.ts: records *)
(* ===================================================================== *)

Lemma store_seen (payload : Nats.Payload) (i : string) (s : Nats.Stream) :
  i ∈ Nats.s_msgids s → Nats.store payload (Some i) s = s.
Proof. intros H. unfold Nats.store. by rewrite bool_decide_eq_true_2. Qed.

Lemma store_remembers (payload : Nats.Payload) (i : string) (s : Nats.Stream) :
  i ∈ Nats.s_msgids (Nats.store payload (Some i) s).
Proof.
  unfold Nats.store. case_bool_decide; [done|]. cbn.
  apply elem_of_union. left. by apply elem_of_singleton.
Qed.

(** X15. moveToDeadLetter publishes under the work item's id as message id.
    On a connected broker with a dead letter stream, the first move of an
    id appends the record (item, reason, attempts, time, errors) to the
    stream; a move of an id that the stream still remembers reports success
    and stores nothing, so a second failure of the same work item leaves no
    second record. *)
Theorem moveToDeadLetter_deduplicates (now : timestamp) (item : WorkItem) (reason : string)
    (errors : option (list string)) (dn : string) (s : Nats.Stream) (b : Nats.Broker) :
  Nats.connected b = true →
  Nats.routes b !! Dlq.DLQ_SUBJECT = Some dn →
  Nats.streams b !! dn = Some s →
  (w_id item ∈ Nats.s_msgids s →
   Dlq.moveToDeadLetter now item reason errors b = (Ok tt, b))
  ∧ (w_id item ∉ Nats.s_msgids s →
     ∃ s', Dlq.moveToDeadLetter now item reason errors b
           = (Ok tt, Nats.set_streams (insert dn s') b)
           ∧ Nats.s_msgs s'
             = (Nats.s_msgs s
                ++ [Nats.mkStoredMsg (S (Nats.s_last_seq s))
                      (Nats.PDLQItem (DlqStated2.record now item reason errors))])%list
           ∧ Nats.s_last_seq s' = S (Nats.s_last_seq s))
  ∧ (∀ (now' : timestamp) (item' : WorkItem) (reason' : string)
       (errors' : option (list string)),
       w_id item' = w_id item →
       let b1 := (Dlq.moveToDeadLetter now item reason errors b).2 in
       Dlq.moveToDeadLetter now' item' reason' errors' b1 = (Ok tt, b1)).
Proof.
  intros Hc Hr Hs. split; [|split].
  - intros Hin. rewrite (moveToDeadLetter_Ok _ _ _ _ _ _ _ Hc Hr Hs).
    rewrite store_seen by done. by rewrite set_streams_id.
  - intros Hnew. eexists. split; [apply (moveToDeadLetter_Ok _ _ _ _ _ _ _ Hc Hr Hs)|].
    split; [by apply store_fresh|].
    unfold Nats.store. by rewrite bool_decide_eq_false_2.
  - intros now' item' reason' errors' Hid.
    rewrite (moveToDeadLetter_Ok _ _ _ _ _ _ _ Hc Hr Hs). cbn [snd].
    set (s1 := Nats.store _ _ s).
    assert (Hs1 : Nats.streams (Nats.set_streams (insert dn s1) b) !! dn = Some s1)
      by apply lookup_insert_eq.
    rewrite (moveToDeadLetter_Ok now' item' reason' errors' dn s1
               (Nats.set_streams (insert dn s1) b) Hc Hr Hs1).
    rewrite store_seen by (rewrite Hid; apply store_remembers).
    by rewrite set_streams_id.
Qed.

Lemma moveToDeadLetter_deduplicates_witness :
  Nats.connected Scenario.dlq_broker = true
  ∧ Dlq.moveToDeadLetter 9000 Scenario.item "failed again" None Scenario.dlq_broker
    = (Ok tt, Scenario.dlq_broker).
Proof.
  split; [reflexivity|].
  destruct (moveToDeadLetter_deduplicates 9000 Scenario.item "failed again" None
              Dlq.DLQ_STREAM_NAME Scenario.dlq_stream Scenario.dlq_broker)
    as (Hseen & _ & _); [reflexivity | reflexivity | reflexivity |].
  apply Hseen. vm_compute. reflexivity.
Defined.










(* ===================================================================== *)
(** ** dlq.ts: listing *)
(* ===================================================================== *)















(* ===================================================================== *)
(** ** tools/registry.ts: the dead letter tools *)
(* ===================================================================== *)







(* ===================================================================== *)
(** ** tools/registry.ts: get_agent_info and discover_agents *)
(* ===================================================================== *)

Lemma uuid_truthy (g : string) :
  Js.matches Js.UUID_V4_PATTERN g = true → Js.truthy g = true.
Proof. by destruct g. Qed.

(** X22. For a registered caller and a UUID v4 on an opened registry,
    get_agent_info gives the same error, "Agent not found or not visible to
    you", for a GUID that is not registered and for an agent that is not
    visible to the caller, and only then; for a visible agent it shows the
    rows of the redacted entry, and for the caller's own entry the rows of
    the full entry. *)
Theorem handleGetAgentInfo_spec (guid g : string) (e0 : RegistryEntry)
    (state : Tools.SessionState) (k : Kv.t) :
  Tools.registered state = Some (g, e0) →
  Js.matches Js.UUID_V4_PATTERN guid = true →
  Kv.bucketInstance k = true →
  let r := ToolsDirectory.requester_of g e0 in
  let answer := ToolsDirectory.handleGetAgentInfo (Some guid) state k in
  (answer = Tools.RError ToolsDirectory.not_found_text
   ↔ ∀ e, Kv.entries k !! guid = Some e → Registry.isVisibleTo e r = false)
  ∧ (∀ e, Kv.entries k !! guid = Some e → Registry.isVisibleTo e r = true →
          answer = Tools.RSuccess
                     (ToolsDirectory.mkAgentInfo (handle e)
                        (ToolsDirectory.rows (Registry.redactEntry e r))))
  ∧ (∀ e, Kv.entries k !! guid = Some e → Types.guid e = g →
          answer = Tools.RSuccess
                     (ToolsDirectory.mkAgentInfo (handle e)
                        (ToolsDirectory.rows (Registry.full_view e)))).
Proof.
  intros Hreg Hm Hb r answer.
  assert (Hans : answer
                 = match Kv.entries k !! guid with
                   | Some e =>
                       if Registry.isVisibleTo e r
                       then Tools.RSuccess
                              (ToolsDirectory.mkAgentInfo (handle e)
                                 (ToolsDirectory.rows (Registry.redactEntry e r)))
                       else Tools.RError ToolsDirectory.not_found_text
                   | None => Tools.RError ToolsDirectory.not_found_text
                   end).
  { subst answer. unfold ToolsDirectory.handleGetAgentInfo.
    change (default "" (Some guid)) with guid.
    rewrite Hm, (uuid_truthy _ Hm), Hreg. cbn [negb orb].
    unfold Kv.getRegistryEntry. rewrite Hb. fold r.
    destruct (Kv.entries k !! guid) as [e|]; [|done].
    by destruct (Registry.isVisibleTo e r). }
  rewrite Hans. destruct (Kv.entries k !! guid) as [e|].
  - split; [|split].
    + destruct (Registry.isVisibleTo e r) eqn:Hv; split; try done.
      * intros H. specialize (H e eq_refl). congruence.
      * by intros _ e' [= <-].
    + intros e' [= <-] Hv. by rewrite Hv.
    + intros e' [= <-] Hg.
      assert (Hrg : r_guid r = Types.guid e) by (by rewrite Hg).
      rewrite (visible_to_self e r Hrg).
      unfold Registry.redactEntry. rewrite (visible_to_self e r Hrg). cbn [negb].
      rewrite Hrg, String.eqb_refl. reflexivity.
  - split; [|split]; try done.
Qed.

Lemma handleGetAgentInfo_spec_witness :
  ToolsDirectory.handleGetAgentInfo (Some Scenario.U) ToolsScenario.state
    (Tools.kv ToolsScenario.world)
  = Tools.RError "Error: Agent not found or not visible to you."
  ∧ ToolsDirectory.handleGetAgentInfo (Some ToolsScenario.testGuid) ToolsScenario.state
      (Tools.kv ToolsScenario.world)
    = Tools.RSuccess
        (ToolsDirectory.mkAgentInfo "test-agent"
           (ToolsDirectory.rows (Registry.full_view ToolsScenario.entry))).
Proof.
  split.
  - apply (handleGetAgentInfo_spec Scenario.U ToolsScenario.testGuid ToolsScenario.entry
             ToolsScenario.state (Tools.kv ToolsScenario.world) eq_refl eq_refl eq_refl).
    intros e He. vm_compute in He. discriminate.
  - pose proof (handleGetAgentInfo_spec ToolsScenario.testGuid ToolsScenario.testGuid
                  ToolsScenario.entry ToolsScenario.state (Tools.kv ToolsScenario.world)
                  eq_refl eq_refl eq_refl) as H.
    cbv zeta in H. destruct H as (_ & _ & Hown).
    apply (Hown ToolsScenario.entry); reflexivity.
Defined.

Lemma elem_of_filter_if (x : option string) (p : string → RegistryEntry → bool)
    (P : string → RegistryEntry → Prop) (l : list RegistryEntry) (e : RegistryEntry) :
  (∀ v, p v e = true ↔ P v e) →
  e ∈ ToolsDirectory.filter_if x p l ↔ e ∈ l ∧ DirectoryStated.asked x (fun v => P v e).
Proof.
  intros Hp. unfold ToolsDirectory.filter_if, DirectoryStated.asked.
  destruct x as [v|]; cbn.
  - destruct (Js.truthy v) eqn:Ht.
    + rewrite elem_of_List_filter, Hp. split.
      * intros [? ?]. split; [done|]. by intros ? [= <-] _.
      * intros [? H]. split; [done|]. apply H; [done|]. by apply truthy_true.
    + split; [|tauto]. intros ?. split; [done|]. intros ? [= <-] Hne.
      apply truthy_true in Hne. congruence.
  - split; [|tauto]. intros ?. split; [done|]. intros ? [=].
Qed.

Lemma elem_of_List_map {A B : Type} (f : A → B) (l : list A) (y : B) :
  y ∈ List.map f l ↔ ∃ x, x ∈ l ∧ y = f x.
Proof.
  rewrite list_elem_of_In, in_map_iff. split.
  - intros (x & <- & Hx). exists x. by rewrite list_elem_of_In.
  - intros (x & Hx & ->). exists x. by rewrite <- list_elem_of_In.
Qed.

Lemma List_filter_true {A : Type} (l : list A) : List.filter (fun _ => true) l = l.
Proof. induction l as [|x l IH]; cbn; [done|]. by rewrite IH. Qed.

Lemma compareHeartbeat_le (a b : PartialEntry) :
  (ToolsDirectory.compareHeartbeat a b ≤ 0)%Z → DirectoryStated.newest_first a b.
Proof. unfold ToolsDirectory.compareHeartbeat, DirectoryStated.newest_first. lia. Qed.

Lemma compareHeartbeat_gt (a b : PartialEntry) :
  (0 < ToolsDirectory.compareHeartbeat a b)%Z → DirectoryStated.newest_first b a.
Proof. unfold ToolsDirectory.compareHeartbeat, DirectoryStated.newest_first. lia. Qed.

Lemma newest_first_trans : Transitive DirectoryStated.newest_first.
Proof. intros a b c. unfold DirectoryStated.newest_first. lia. Qed.

(** X23. For a registered caller, on an opened registry or a connected
    broker, discover_agents succeeds and leaves the registry entries as
    they are. It returns exactly the redacted entries of the stored agents
    that pass every filter given and are visible to the caller, most recent
    heartbeat first. Offline agents are left out unless includeOffline is
    true, so asking for status offline without includeOffline finds
    nothing. *)
Theorem handleDiscoverAgents_spec (args : ToolsDirectory.DiscoverArgs)
    (state : Tools.SessionState) (connected : bool) (k : Kv.t) (g : string)
    (e0 : RegistryEntry) :
  Tools.registered state = Some (g, e0) →
  Kv.bucketInstance k = true ∨ connected = true →
  let r := ToolsDirectory.requester_of (guid e0) e0 in
  ∃ views k',
    ToolsDirectory.handleDiscoverAgents args state connected k = (Tools.RSuccess views, k')
    ∧ Kv.entries k' = Kv.entries k
    ∧ (∀ v, v ∈ views
            ↔ ∃ e, (∃ key, Kv.entries k !! key = Some e)
                   ∧ DirectoryStated.selected args e
                   ∧ Registry.isVisibleTo e r = true
                   ∧ v = Registry.redactEntry e r)
    ∧ StronglySorted DirectoryStated.newest_first views
    ∧ (ToolsDirectory.arg_status args = Some Offline →
       ToolsDirectory.arg_includeOffline args ≠ Some true → views = []).
Proof.
  intros Hreg Hopen r.
  unfold ToolsDirectory.handleDiscoverAgents. rewrite Hreg.
  assert (Hinit : ∃ k', Kv.initializeRegistry connected k = (Ok tt, k')
                        ∧ Kv.bucketInstance k' = true ∧ Kv.entries k' = Kv.entries k).
  { unfold Kv.initializeRegistry. destruct (Kv.bucketInstance k) eqn:Hb; [by exists k|].
    destruct Hopen as [?| ->]; [done|]. by eexists. }
  destruct Hinit as (k' & -> & Hb' & Hentries).
  unfold Kv.listRegistryEntries. rewrite Hb', List_filter_true, Hentries. fold r.
  cbv zeta. eexists _, k'. split; [reflexivity|]. split; [done|].
  assert (Hmem : ∀ v, v ∈ JsArray.sort ToolsDirectory.compareHeartbeat
                        (List.map (fun entry => Registry.redactEntry entry r)
                           (ToolsDirectory.filterEntries args r
                              (snd <$> map_to_list (Kv.entries k))))
                 ↔ ∃ e, (∃ key, Kv.entries k !! key = Some e)
                        ∧ DirectoryStated.selected args e
                        ∧ Registry.isVisibleTo e r = true
                        ∧ v = Registry.redactEntry e r).
  { intros v. rewrite (sort_perm ToolsDirectory.compareHeartbeat), elem_of_List_map.
    apply exist_proper. intros e. unfold ToolsDirectory.filterEntries. cbv zeta.
    rewrite elem_of_List_filter.
    assert (Hbase : e ∈ snd <$> map_to_list (Kv.entries k)
                    ↔ ∃ key, Kv.entries k !! key = Some e).
    { rewrite <- (List_filter_true (snd <$> _)), elem_of_listed. tauto. }
    assert (Hsel :
      e ∈ ToolsDirectory.filter_if (ToolsDirectory.arg_projectId args)
            (fun x entry => String.eqb (projectId entry) x)
            (ToolsDirectory.filter_if (ToolsDirectory.arg_hostname args)
               (fun x entry => String.eqb (hostname entry) x)
               (ToolsDirectory.filter_if (ToolsDirectory.arg_capability args)
                  (fun x entry => existsb (String.eqb x) (capabilities entry))
                  (ToolsDirectory.filter_if (ToolsDirectory.arg_agentType args)
                     (fun x entry => String.eqb (agentType entry) x)
                     (snd <$> map_to_list (Kv.entries k)))))
      ↔ (∃ key, Kv.entries k !! key = Some e)
        ∧ DirectoryStated.asked (ToolsDirectory.arg_agentType args) (fun v => agentType e = v)
        ∧ DirectoryStated.asked (ToolsDirectory.arg_capability args)
            (fun v => v ∈ capabilities e)
        ∧ DirectoryStated.asked (ToolsDirectory.arg_hostname args) (fun v => hostname e = v)
        ∧ DirectoryStated.asked (ToolsDirectory.arg_projectId args)
            (fun v => projectId e = v)).
    { rewrite (elem_of_filter_if _ _ (fun v e => projectId e = v))
        by (intros; apply string_eqb_eq).
      rewrite (elem_of_filter_if _ _ (fun v e => hostname e = v))
        by (intros; apply string_eqb_eq).
      rewrite (elem_of_filter_if _ _ (fun v e => v ∈ capabilities e))
        by (intros; apply existsb_eqb).
      rewrite (elem_of_filter_if _ _ (fun v e => agentType e = v))
        by (intros; apply string_eqb_eq).
      rewrite Hbase. tauto. }
    unfold DirectoryStated.selected.
    destruct (ToolsDirectory.arg_includeOffline args) as [[]|];
      destruct (ToolsDirectory.arg_scope args) as [sc|];
      destruct (ToolsDirectory.arg_status args) as [st|];
      cbv beta iota delta [default from_option id negb];
      rewrite ?elem_of_List_filter, ?negb_true_iff, ?bool_decide_eq_true,
        ?bool_decide_eq_false, Hsel;
      split; intros; destruct_and?; split_and?; try done;
      try (intros; simplify_eq; done); eauto.
    all: try (intros _ Hoff; by rewrite bool_decide_eq_true_2 in * by done).
    all: rewrite bool_decide_eq_false_2; [done|];
      match goal with H : _ ≠ Some true → _ |- _ => by apply H end. }
  split; [exact Hmem|]. split.
  - apply Sorted_StronglySorted; [apply newest_first_trans|].
    apply (sort_sorted _ _ compareHeartbeat_le compareHeartbeat_gt).
  - intros Hst Hinc.
    match goal with |- ?l = [] => destruct l as [|v rest] eqn:Hl; [done|] end.
    assert (Hv : v ∈ v :: rest) by apply list_elem_of_here.
    apply Hmem in Hv as (e & _ & Hsel & _).
    destruct Hsel as (_ & _ & _ & _ & Hs & _ & Hoff).
    specialize (Hs _ Hst). by specialize (Hoff Hinc).
Qed.

Lemma handleDiscoverAgents_spec_witness :
  let args :=
    ToolsDirectory.mkDiscoverArgs None None None None (Some Offline) None None in
  ∃ k', ToolsDirectory.handleDiscoverAgents args ToolsScenario.state false
          (Tools.kv ToolsScenario.offline_world) = (Tools.RSuccess [], k').
Proof.
  destruct (handleDiscoverAgents_spec
              (ToolsDirectory.mkDiscoverArgs None None None None (Some Offline) None None)
              ToolsScenario.state false (Tools.kv ToolsScenario.offline_world)
              ToolsScenario.testGuid ToolsScenario.entry eq_refl (or_introl eq_refl))
    as (views & k' & Heq & _ & _ & _ & Hempty).
  exists k'. rewrite <- (Hempty eq_refl ltac:(discriminate)). exact Heq.
Defined.

(* ===================================================================== *)
(** ** tools/registry.ts: direct messages *)
(* ===================================================================== *)




(* ===================================================================== *)
(** ** tools/registry.ts: broadcast_work_offer and claim_work *)
(* ===================================================================== *)

Lemma claim_no_stream (capability : string) (timeoutMs : Z) (b : Nats.Broker) :
  Nats.connected b = true →
  Nats.streams b !! Workqueue.streamName capability = None →
  Workqueue.claimWorkItem capability timeoutMs b = (Ok None, b).
Proof.
  intros Hc Hs. unfold Workqueue.claimWorkItem.
  rewrite (bind_Ok _ _ _ _ _ (getJetStreamClient_Ok b Hc)).
  rewrite (bind_Ok _ _ _ _ _ (getJetStreamManager_Ok b Hc)).
  cbv zeta. apply try_catch_Ok.
  erewrite bind_Ok.
  2: { erewrite try_catch_Throw; [reflexivity|].
       apply bind_Throw, streams_info_Throw, Hs. }
  reflexivity.
Qed.

Lemma claim_total (capability : string) (timeoutMs : Z) (b : Nats.Broker) :
  Nats.connected b = true →
  ∃ r b', Workqueue.claimWorkItem capability timeoutMs b = (Ok r, b').
Proof.
  intros Hc.
  destruct (Nats.streams b !! Workqueue.streamName capability) as [q|] eqn:Hq.
  - destruct (Nats.pending (ClaimStated.worker capability q) (Nats.s_msgs q))
      as [|m rest] eqn:Hp.
    + eexists _, _. by apply claim_nothing with (q := q).
    + eexists _, _. by apply claim_first with (q := q) (rest := rest).
  - eexists _, _. by apply claim_no_stream.
Qed.

Lemma existsb_eqb_false (x : string) (l : list string) :
  x ∉ l → existsb (String.eqb x) l = false.
Proof.
  intros H. destruct (existsb (String.eqb x) l) eqn:E; [|done].
  by apply existsb_eqb in E.
Qed.

Lemma blank_false (x : string) :
  ToolsWork.blank x = false → Js.trim_is_empty x = false.
Proof. unfold ToolsWork.blank. intros H. by apply orb_false_iff in H as [_ ?]. Qed.

Lemma handleClaimWork_helper (cap : string) (timeout : option Z)
    (state : Tools.SessionState) (b : Nats.Broker) (g : string) (e : RegistryEntry) :
  Tools.registered state = Some (g, e) →
  ToolsWork.blank cap = false →
  let args := ToolsWork.mkClaimArgs (Some cap) timeout in
  (cap ∉ capabilities e →
   ToolsWork.handleClaimWork args state b
   = (Tools.RError (ToolsWork.missing_capability_text cap (capabilities e)), b))
  ∧ (cap ∈ capabilities e → Nats.connected b = true →
     ∃ r b',
       Workqueue.claimWorkItem cap (Z.min (default 5000 timeout) 30000) b = (Ok r, b')
       ∧ ToolsWork.handleClaimWork args state b = (Tools.RSuccess r, b')).
Proof.
  intros Hreg Hblank args. unfold ToolsWork.handleClaimWork. cbv zeta.
  change (default "" (ToolsWork.arg_capability args)) with cap.
  change (ToolsWork.arg_timeout args) with timeout.
  rewrite Hblank, Hreg. split.
  - intros Hno. apply existsb_eqb_false in Hno. by rewrite Hno.
  - intros Hin Hc. apply existsb_eqb in Hin. rewrite Hin. cbn [negb].
    destruct (claim_total cap (Z.min (default 5000 timeout) 30000) b Hc) as (r & b' & Hcl).
    exists r, b'. split; [done|]. by rewrite Hcl.
Qed.

(** X25. The claim_work tool serves only the capabilities of the session's
    registered entry. For a registered agent and a non-blank capability: if
    the entry does not list the capability the tool answers with the "You do
    not have the capability" error and does not touch the broker; if it
    does, on a connected broker the tool never fails and answers with what
    claimWorkItem returns for that capability, the timeout being the one
    given (5000 ms by default) capped at 30000 ms. *)
Theorem handleClaimWork_gate (cap : string) (timeout : option Z)
    (state : Tools.SessionState) (b : Nats.Broker) (g : string) (e : RegistryEntry) :
  Tools.registered state = Some (g, e) →
  ToolsWork.blank cap = false →
  let args := ToolsWork.mkClaimArgs (Some cap) timeout in
  (cap ∉ capabilities e →
   ToolsWork.handleClaimWork args state b
   = (Tools.RError (ToolsWork.missing_capability_text cap (capabilities e)), b))
  ∧ (cap ∈ capabilities e → Nats.connected b = true →
     ∃ r b',
       Workqueue.claimWorkItem cap (Z.min (default 5000 timeout) 30000) b = (Ok r, b')
       ∧ ToolsWork.handleClaimWork args state b = (Tools.RSuccess r, b')).
Proof. apply handleClaimWork_helper. Qed.

Lemma handleClaimWork_gate_witness :
  ToolsWork.handleClaimWork (ToolsWork.mkClaimArgs (Some "python") None)
    ToolsScenario.state Scenario.queue_broker
  = (Tools.RError (ToolsWork.missing_capability_text "python" ["typescript"]),
     Scenario.queue_broker).
Proof.
  apply (handleClaimWork_gate "python" None ToolsScenario.state Scenario.queue_broker
           ToolsScenario.testGuid ToolsScenario.entry eq_refl eq_refl).
  intros H. apply list_elem_of_singleton in H. discriminate.
Defined.

Lemma presence_success (h : Tools.Host) (args : Tools.PresenceArgs)
    (state st' : Tools.SessionState) (w w' : Tools.World) (g : string)
    (e0 e' : RegistryEntry) :
  Tools.registered state = Some (g, e0) →
  Tools.handleUpdatePresence h args state w = (Tools.RSuccess e', st', w') →
  Tools.registered st' = Some (g, e')
  ∧ ∃ old, Kv.entries (Tools.kv w) !! g = Some old
           ∧ e' = ToolsStated.presence_update (Tools.now h) args old
           ∧ Kv.entries (Tools.kv w') !! g = Some e'.
Proof.
  intros Hreg. pose proof (registered_guid _ _ _ Hreg) as [Hg He].
  assert (Htruthy : Js.truthy g = true).
  { unfold Tools.registered in Hreg. rewrite Hg, He in Hreg.
    by destruct (Js.truthy g). }
  unfold Tools.handleUpdatePresence. rewrite Hreg.
  unfold Kv.getRegistryEntry, Kv.putRegistryEntry.
  destruct (Kv.bucketInstance (Tools.kv w)) eqn:Hb.
  - destruct (Kv.entries (Tools.kv w) !! g) as [old|] eqn:Hold.
    + destruct (Tools.arg_status args) as [s|] eqn:Es;
        destruct (Tools.arg_currentTaskCount args) as [n|] eqn:En;
        destruct (Tools.arg_presence_capabilities args) as [l|] eqn:El;
        try discriminate;
        intros [= <- <- <-]; cbn;
        (split; [unfold Tools.registered; cbn; by rewrite Hg, Htruthy|]);
        exists old; (split; [done|]);
        (split; [unfold ToolsStated.presence_update; by rewrite Es, En, El|]);
        apply lookup_insert_eq.
    + destruct (Tools.arg_status args), (Tools.arg_currentTaskCount args),
        (Tools.arg_presence_capabilities args); discriminate.
  - destruct (Tools.arg_status args), (Tools.arg_currentTaskCount args),
      (Tools.arg_presence_capabilities args); discriminate.
Qed.

(** X26. The capabilities that claim_work accepts are those of the last
    presence update of the session: after a successful update_presence
    that sets the capabilities, claim_work on a connected broker serves
    every non-blank capability of the new list and refuses, without
    touching the broker, every capability that is not in it, whatever the
    agent had registered before. *)
Theorem claim_follows_presence (h : Tools.Host) (pargs : Tools.PresenceArgs)
    (state st' : Tools.SessionState) (w w' : Tools.World) (g : string)
    (e0 e' : RegistryEntry) (caps : list string) (cap : string) (timeout : option Z)
    (b : Nats.Broker) :
  Tools.registered state = Some (g, e0) →
  Tools.handleUpdatePresence h pargs state w = (Tools.RSuccess e', st', w') →
  Tools.arg_presence_capabilities pargs = Some caps →
  ToolsWork.blank cap = false →
  Nats.connected b = true →
  let args := ToolsWork.mkClaimArgs (Some cap) timeout in
  (cap ∈ caps →
   ∃ r b', ToolsWork.handleClaimWork args st' b = (Tools.RSuccess r, b'))
  ∧ (cap ∉ caps →
     ToolsWork.handleClaimWork args st' b
     = (Tools.RError (ToolsWork.missing_capability_text cap caps), b)).
Proof.
  intros Hreg Hup Hcaps Hblank Hc args.
  destruct (presence_success _ _ _ _ _ _ _ _ _ Hreg Hup) as (Hreg' & old & _ & He' & _).
  assert (Hcap' : capabilities e' = caps).
  { rewrite He'. unfold ToolsStated.presence_update. cbn. by rewrite Hcaps. }
  destruct (handleClaimWork_helper cap timeout st' b g e' Hreg' Hblank) as [Hno Hyes].
  rewrite Hcap' in Hno, Hyes. split.
  - intros Hin. destruct (Hyes Hin Hc) as (r & b' & _ & Heq). by exists r, b'.
  - exact Hno.
Qed.

Lemma claim_follows_presence_witness :
  let pargs := Tools.mkPresenceArgs None None (Some ["rust"]) in
  let e' := ToolsStated.presence_update (Tools.now ToolsScenario.host) pargs
              ToolsScenario.entry in
  let st' := Tools.mkSessionState (Some "test-agent") (Some ToolsScenario.testGuid)
               (Some e') in
  Nats.connected Scenario.queue_broker = true
  ∧ (∃ r b', ToolsWork.handleClaimWork (ToolsWork.mkClaimArgs (Some "rust") None) st'
               Scenario.queue_broker = (Tools.RSuccess r, b'))
  ∧ ToolsWork.handleClaimWork (ToolsWork.mkClaimArgs (Some "typescript") None) st'
      Scenario.queue_broker
    = (Tools.RError (ToolsWork.missing_capability_text "typescript" ["rust"]),
       Scenario.queue_broker).
Proof.
  intros pargs e' st'. split; [reflexivity|].
  assert (Hup : Tools.handleUpdatePresence ToolsScenario.host pargs ToolsScenario.state
                  ToolsScenario.world
                = (Tools.RSuccess e', st',
                   Tools.mkWorld
                     (Kv.mkKv true (<[ToolsScenario.testGuid := e']>
                                      (<[ToolsScenario.testGuid := ToolsScenario.entry]> ∅)))
                     Scenario.empty_broker (Some ToolsScenario.testGuid)
                     (Some ToolsScenario.testGuid))) by (vm_compute; reflexivity).
  split.
  - apply (claim_follows_presence ToolsScenario.host pargs ToolsScenario.state st'
             ToolsScenario.world _ ToolsScenario.testGuid ToolsScenario.entry e' ["rust"]
             "rust" None Scenario.queue_broker eq_refl Hup eq_refl eq_refl eq_refl).
    apply list_elem_of_here.
  - apply (claim_follows_presence ToolsScenario.host pargs ToolsScenario.state st'
             ToolsScenario.world _ ToolsScenario.testGuid ToolsScenario.entry e' ["rust"]
             "typescript" None Scenario.queue_broker eq_refl Hup eq_refl eq_refl eq_refl).
    intros H. apply list_elem_of_singleton in H. discriminate.
Defined.

(** X27. An offer that passes the checks of broadcast_work_offer passes
    validateWorkItem, and the work it offers can be claimed: for a registered
    offerer with a non-blank taskId, description and capability, a priority
    (5 when omitted) between 1 and 10 and a UUID v4 from randomUUID, on a
    connected broker that has neither the stream nor the subject of the
    capability, the tool creates the queue and publishes a work item with
    that priority, 0 attempts and the offerer's GUID; claim_work by a
    registered agent that lists the capability then returns this work item
    with attempts 1. *)
Theorem broadcast_then_claim (h : Tools.Host) (oargs : ToolsWork.OfferArgs)
    (offerer claimer : Tools.SessionState) (b : Nats.Broker) (g g2 : string)
    (e0 e2 : RegistryEntry) (cap : string) (timeout : option Z) :
  Tools.registered offerer = Some (g, e0) →
  ToolsWork.blank (default "" (ToolsWork.arg_taskId oargs)) = false →
  ToolsWork.blank (default "" (ToolsWork.arg_description oargs)) = false →
  ToolsWork.arg_requiredCapability oargs = Some cap →
  ToolsWork.blank cap = false →
  (1 ≤ default 5 (ToolsWork.arg_priority oargs) ≤ 10)%Z →
  Workqueue.isValidUUID (Tools.randomUUID h) = true →
  Nats.connected b = true →
  Nats.streams b !! Workqueue.streamName cap = None →
  Nats.routes b !! Workqueue.getWorkQueueSubject cap = None →
  Tools.registered claimer = Some (g2, e2) →
  cap ∈ capabilities e2 →
  let item := ToolsWork.offer h oargs g in
  ∃ b1 b2,
    ToolsWork.handleBroadcastWorkOffer h oargs offerer b
    = (Tools.RSuccess (Tools.randomUUID h, item), b1)
    ∧ ToolsWork.handleClaimWork (ToolsWork.mkClaimArgs (Some cap) timeout) claimer b1
      = (Tools.RSuccess (Some (Workqueue.set_attempts 1 item)), b2)
    ∧ w_capability item = cap
    ∧ w_priority item = Some (default 5 (ToolsWork.arg_priority oargs))
    ∧ w_offeredBy item = g
    ∧ w_attempts item = 0.
Proof.
  intros Hreg Htask Hdesc Hcap Hblank Hprio Hid Hc Hs Hr Hreg2 Hin item.
  assert (Hicap : w_capability item = cap).
  { subst item. unfold ToolsWork.offer. cbn. by rewrite Hcap. }
  assert (Hv : Workqueue.validateWorkItem item = Ok tt).
  { apply validateWorkItem_Ok; [exact Hid | |].
    - rewrite Hicap. by apply blank_false.
    - subst item. cbn. intros p [= <-]. exact Hprio. }
  set (q0 := Nats.mkStream (Workqueue.getWorkQueueSubject cap) true [] 0 ∅ ∅).
  set (b0 := Nats.mkBroker (Nats.connected b)
               (<[Workqueue.streamName cap := q0]> (Nats.streams b))
               (<[Workqueue.getWorkQueueSubject cap := Workqueue.streamName cap]>
                  (Nats.routes b))).
  assert (H0 : Workqueue.createWorkQueueStream cap b = (Ok tt, b0)).
  { rewrite (createWorkQueueStream_cases _ _ Hc), Hs, Hr. reflexivity. }
  assert (Hq0 : Nats.streams b0 !! Workqueue.streamName cap = Some q0)
    by apply lookup_insert_eq.
  assert (Hr0 : Nats.routes b0 !! Workqueue.getWorkQueueSubject (w_capability item)
                = Some (Workqueue.streamName cap))
    by (rewrite Hicap; apply lookup_insert_eq).
  pose proof (publishWorkItem_ok item _ q0 b0 Hv Hc Hr0 Hq0) as H1.
  set (q1 := WorkqueueStated.appended (Nats.PWorkItem item) q0) in *.
  set (b1 := Nats.set_streams _ b0) in *.
  assert (Hq1 : Nats.streams b1 !! Workqueue.streamName cap = Some q1)
    by apply lookup_insert_eq.
  pose proof (claim_first cap (Z.min (default 5000 timeout) 30000) q1
                (Nats.mkStoredMsg 1 (Nats.PWorkItem item)) [] b1 Hc Hq1 eq_refl) as H2.
  eexists b1, _. split; [|split; [|done]].
  - unfold ToolsWork.handleBroadcastWorkOffer. cbv zeta.
    rewrite Htask, Hdesc, Hcap.
    change (default "" (Some cap)) with cap. rewrite Hblank.
    destruct (Z.ltb_spec (default 5 (ToolsWork.arg_priority oargs)) 1) as [?|_]; [lia|].
    destruct (Z.gtb_spec (default 5 (ToolsWork.arg_priority oargs)) 10) as [?|_]; [lia|].
    cbn [orb]. rewrite Hreg, H0. fold item. rewrite H1. reflexivity.
  - unfold ToolsWork.handleClaimWork. cbv zeta.
    change (default "" (ToolsWork.arg_capability _)) with cap.
    change (ToolsWork.arg_timeout _) with timeout.
    rewrite Hblank, Hreg2. apply existsb_eqb in Hin. rewrite Hin. cbn [negb].
    rewrite H2. reflexivity.
Qed.

Lemma broadcast_then_claim_witness :
  let oargs :=
    ToolsWork.mkOfferArgs (Some "task-123") (Some "Test task") (Some "typescript")
      None None None in
  Nats.connected Scenario.empty_broker = true
  ∧ ∃ b1 b2,
      ToolsWork.handleBroadcastWorkOffer ToolsScenario.host oargs ToolsScenario.state
        Scenario.empty_broker
      = (Tools.RSuccess (Scenario.U, ToolsWork.offer ToolsScenario.host oargs
                                       ToolsScenario.testGuid), b1)
      ∧ ToolsWork.handleClaimWork (ToolsWork.mkClaimArgs (Some "typescript") None)
          ToolsScenario.state b1
        = (Tools.RSuccess
             (Some (Workqueue.set_attempts 1
                      (ToolsWork.offer ToolsScenario.host oargs ToolsScenario.testGuid))),
           b2).
Proof.
  intros oargs. split; [reflexivity|].
  destruct (broadcast_then_claim ToolsScenario.host oargs ToolsScenario.state
              ToolsScenario.state Scenario.empty_broker ToolsScenario.testGuid
              ToolsScenario.testGuid ToolsScenario.entry ToolsScenario.entry
              "typescript" None)
    as (b1 & b2 & H1 & H2 & _);
    [reflexivity | reflexivity | reflexivity | reflexivity | reflexivity
     | simpl; lia | reflexivity | reflexivity | reflexivity | reflexivity | reflexivity
     | apply list_elem_of_here |].
  exists b1, b2. split; [exact H1 | exact H2].
Defined.

(* ===================================================================== *)
(** ** tools/registry.ts: the life cycle of a registration *)
(* ===================================================================== *)

Lemma generateHandle_nonempty (agentType : string) :
  Tools.generateHandle agentType ≠ "".
Proof.
  unfold Tools.generateHandle.
  destruct (Js.truthy _) eqn:Ht; [|done]. by apply truthy_true.
Qed.

Lemma register_explicit (h : Tools.Host) (args : Tools.RegisterArgs)
    (state : Tools.SessionState) (config : Tools.ResolvedConfig) (w : Tools.World)
    (t : string) :
  Tools.arg_agentType args = Some t →
  Js.trim_is_empty t = false →
  (Js.truthy_opt (Tools.st_handle state) = true
   ∨ Tools.validateHandle h (Tools.generateHandle t) = None) →
  (Kv.bucketInstance (Tools.kv w) = true ∨ Nats.connected (Tools.broker w) = true) →
  let handle := ToolsStated.chosen_handle state t in
  let pid := Tools.generateProjectId h (Tools.cfg_projectPath config) in
  let reusableGuid :=
    Tools.findReusableAgent handle pid (Tools.os_hostname h)
      (Kv.mkKv true (Kv.entries (Tools.kv w))) in
  let params :=
    Tools.mkEntryParams t handle (Tools.os_hostname h) (Tools.cfg_projectPath config)
      (Tools.cfg_natsUrl config) (Some (default [] (Tools.arg_capabilities args)))
      (Some (default ScopeProject (Tools.arg_scope args)))
      (Some (default ProjectOnly (Tools.arg_visibility args)))
      (if Js.truthy_opt (Tools.env_user h) then Tools.env_user h else None) in
  let entry :=
    if Js.truthy_opt reusableGuid
    then Tools.set_guid (default "" reusableGuid) (Tools.createRegistryEntry h params)
    else Tools.createRegistryEntry h params in
  ∃ b' inbox,
    Tools.handleRegisterAgent h args state config w
    = (Tools.RSuccess (Tools.mkRegistered entry (Js.truthy_opt reusableGuid)),
       Tools.mkSessionState (Some handle) (Some (guid entry)) (Some entry),
       Tools.mkWorld (Kv.mkKv true (<[guid entry := entry]> (Kv.entries (Tools.kv w))))
         b' (Some (guid entry)) inbox).
Proof.
  intros Ht Hblank Hhandle Hinit handle pid reusableGuid params entry.
  assert (Htruthy : Js.truthy t = true).
  { destruct (Js.truthy t) eqn:E; [done|].
    apply trim_is_empty_falsy in E. congruence. }
  unfold Tools.handleRegisterAgent. rewrite Ht.
  change (default "" (Some t)) with t.
  rewrite Htruthy, Hblank. cbn [negb orb].
  assert (Hval : (if Js.truthy_opt (Tools.st_handle state) then None
                  else Tools.validateHandle h
                         (if Js.truthy_opt (Tools.st_handle state)
                          then default "" (Tools.st_handle state)
                          else Tools.generateHandle t)) = None).
  { destruct (Js.truthy_opt (Tools.st_handle state)); [done|].
    destruct Hhandle; [discriminate | done]. }
  rewrite Hval.
  rewrite (initializeRegistry_Ok _ _ Hinit).
  cbv zeta.
  fold (ToolsStated.chosen_handle state t). fold handle.
  change (projectId (Tools.createRegistryEntry h _)) with pid.
  fold reusableGuid. fold params. fold entry.
  unfold Kv.putRegistryEntry. cbn [Kv.bucketInstance Kv.entries].
  destruct (Tools.createInboxStream _ _) as [[] b']; by eexists _, _.
Qed.

Lemma deregister_explicit (state : Tools.SessionState) (w : Tools.World)
    (g : string) (e0 old : RegistryEntry) :
  Tools.registered state = Some (g, e0) →
  Kv.bucketInstance (Tools.kv w) = true →
  Kv.entries (Tools.kv w) !! g = Some old →
  Tools.handleDeregisterAgent state w
  = (Tools.RSuccess (g, handle e0),
     Tools.mkSessionState (Tools.st_handle state) None None,
     Tools.mkWorld
       (Kv.mkKv true (<[g := Tools.set_status Offline old]> (Kv.entries (Tools.kv w))))
       (Tools.broker w) None None).
Proof.
  intros Hreg Hb Hold.
  unfold Tools.handleDeregisterAgent. rewrite Hreg.
  unfold Kv.getRegistryEntry, Kv.putRegistryEntry. cbn. by rewrite Hb, Hold.
Qed.

(** X28. An agent that registers, deregisters and registers again from the
    same session keeps its GUID. Over a registry that holds no entry with
    the agent's handle, project and host: the first register_agent stores a
    new entry under the UUID that was minted; deregister_agent turns it
    offline and keeps the session's handle; the second register_agent, on a
    host with the same hostname and project id, finds that offline entry,
    reports a reuse and stores the new online entry under the first GUID,
    not under the UUID minted for the second registration. *)
Theorem reregistration_keeps_guid (h1 h2 : Tools.Host) (args : Tools.RegisterArgs)
    (state : Tools.SessionState) (config : Tools.ResolvedConfig) (w : Tools.World)
    (t : string) :
  Tools.arg_agentType args = Some t →
  Js.trim_is_empty t = false →
  (Js.truthy_opt (Tools.st_handle state) = true
   ∨ Tools.validateHandle h1 (Tools.generateHandle t) = None) →
  (Kv.bucketInstance (Tools.kv w) = true ∨ Nats.connected (Tools.broker w) = true) →
  Tools.randomUUID h1 ≠ "" →
  Tools.os_hostname h2 = Tools.os_hostname h1 →
  Tools.generateProjectId h2 (Tools.cfg_projectPath config)
  = Tools.generateProjectId h1 (Tools.cfg_projectPath config) →
  (∀ key e, Kv.entries (Tools.kv w) !! key = Some e →
            ¬ (handle e = ToolsStated.chosen_handle state t
               ∧ projectId e = Tools.generateProjectId h1 (Tools.cfg_projectPath config)
               ∧ hostname e = Tools.os_hostname h1)) →
  ∃ reg1 st1 w1 out st2 w2 reg3 st3 w3,
    Tools.handleRegisterAgent h1 args state config w = (Tools.RSuccess reg1, st1, w1)
    ∧ guid (Tools.reg_entry reg1) = Tools.randomUUID h1
    ∧ Tools.reg_reused reg1 = false
    ∧ Tools.handleDeregisterAgent st1 w1 = (Tools.RSuccess out, st2, w2)
    ∧ (status <$> Kv.entries (Tools.kv w2) !! Tools.randomUUID h1) = Some Offline
    ∧ Tools.handleRegisterAgent h2 args st2 config w2 = (Tools.RSuccess reg3, st3, w3)
    ∧ guid (Tools.reg_entry reg3) = Tools.randomUUID h1
    ∧ Tools.reg_reused reg3 = true
    ∧ status (Tools.reg_entry reg3) = Online
    ∧ registeredAt (Tools.reg_entry reg3) = Tools.now h2
    ∧ Kv.entries (Tools.kv w3) !! Tools.randomUUID h1 = Some (Tools.reg_entry reg3)
    ∧ Tools.agentGuid st3 = Some (Tools.randomUUID h1).
Proof.
  intros Ht Hblank Hhandle Hinit Hu Hhost Hpid Hnone.
  set (hd := ToolsStated.chosen_handle state t) in *.
  set (pid := Tools.generateProjectId h1 (Tools.cfg_projectPath config)) in *.
  (* first registration *)
  destruct (register_explicit h1 args state config w t Ht Hblank Hhandle Hinit)
    as (b1 & inbox1 & Hreg1).
  fold hd pid in Hreg1.
  assert (Hfind1 : Tools.findReusableAgent hd pid (Tools.os_hostname h1)
                     (Kv.mkKv true (Kv.entries (Tools.kv w))) = None).
  { pose proof (findReusableAgent_spec hd pid (Tools.os_hostname h1)
                  (Kv.mkKv true (Kv.entries (Tools.kv w))) eq_refl) as Hspec.
    unfold ToolsStated.offline_twin in Hspec.
    destruct (Tools.findReusableAgent hd pid (Tools.os_hostname h1)
                (Kv.mkKv true (Kv.entries (Tools.kv w)))) as [g|]; [|done].
    destruct Hspec as (key & e & Hk & (H1 & H2 & H3 & _) & _).
    by destruct (Hnone key e Hk). }
  rewrite Hfind1 in Hreg1. cbn [Js.truthy_opt] in Hreg1.
  set (e1 := Tools.createRegistryEntry h1 _) in Hreg1.
  assert (Hg1 : guid e1 = Tools.randomUUID h1) by reflexivity.
  rewrite Hg1 in Hreg1.
  set (st1 := Tools.mkSessionState (Some hd) (Some (Tools.randomUUID h1)) (Some e1)) in *.
  set (w1 := Tools.mkWorld _ b1 _ inbox1) in Hreg1.
  (* deregistration *)
  assert (Hregd : Tools.registered st1 = Some (Tools.randomUUID h1, e1)).
  { unfold Tools.registered. cbn. apply truthy_true in Hu. by rewrite Hu. }
  pose proof (deregister_explicit st1 w1 (Tools.randomUUID h1) e1 e1 Hregd eq_refl
                (lookup_insert_eq _ _ _)) as Hder.
  cbn [Tools.st_handle st1 Tools.kv w1 Kv.entries Tools.broker] in Hder.
  rewrite insert_insert_eq in Hder.
  set (st2 := Tools.mkSessionState (Some hd) None None) in *.
  set (w2 := Tools.mkWorld _ b1 None None) in Hder.
  (* second registration *)
  assert (Hhd : Js.truthy hd = true).
  { subst hd. unfold ToolsStated.chosen_handle.
    destruct (Tools.st_handle state) as [x|]; cbn.
    - destruct (Js.truthy x) eqn:Hx; [done|]. cbn.
      apply truthy_true, generateHandle_nonempty.
    - apply truthy_true, generateHandle_nonempty. }
  destruct (register_explicit h2 args st2 config w2 t Ht Hblank
              (or_introl Hhd) (or_introl eq_refl)) as (b3 & inbox3 & Hreg3).
  assert (Hhd2 : ToolsStated.chosen_handle st2 t = hd).
  { unfold ToolsStated.chosen_handle. cbn. by rewrite Hhd. }
  rewrite Hhd2, Hpid, Hhost in Hreg3. fold pid in Hreg3.
  assert (Hfind3 : Tools.findReusableAgent hd pid (Tools.os_hostname h1)
                     (Kv.mkKv true (Kv.entries (Tools.kv w2)))
                   = Some (Tools.randomUUID h1)).
  { pose proof (findReusableAgent_spec hd pid (Tools.os_hostname h1)
                  (Kv.mkKv true (Kv.entries (Tools.kv w2))) eq_refl) as Hspec.
    unfold ToolsStated.offline_twin in Hspec.
    destruct (Tools.findReusableAgent hd pid (Tools.os_hostname h1)
                (Kv.mkKv true (Kv.entries (Tools.kv w2)))) as [g|].
    - destruct Hspec as (key & e & Hk & (H1 & H2 & H3 & _) & ->). f_equal.
      cbn in Hk. apply lookup_insert_Some in Hk as [[_ <-] | [_ Hk]]; [done|].
      by destruct (Hnone key e Hk).
    - exfalso. apply Hspec. exists (Tools.randomUUID h1), (Tools.set_status Offline e1).
      split; [cbn; apply lookup_insert_eq|]. repeat split. }
  rewrite Hfind3 in Hreg3. cbn [Js.truthy_opt default] in Hreg3.
  apply truthy_true in Hu. rewrite Hu in Hreg3.
  eexists _, _, _, _, _, _, _, _, _.
  split; [exact Hreg1|]. split; [done|]. split; [done|].
  split; [exact Hder|]. split; [cbn; by rewrite lookup_insert_eq|].
  split; [exact Hreg3|]. cbn.
  split_and!; try done. apply lookup_insert_eq.
Qed.

Lemma reregistration_keeps_guid_witness :
  let h2 :=
    Tools.mkHost "test-host" (Some "tester") 1736942400000 Scenario.U'
      (fun _ => None) (fun _ => "1234567890abcdef") in
  let w := Tools.mkWorld (Kv.mkKv true ∅) Scenario.empty_broker None None in
  ∃ reg1 st1 w1 out st2 w2 reg3 st3 w3,
    Tools.handleRegisterAgent ToolsScenario.host ToolsScenario.register_args
      ToolsScenario.fresh_state ToolsScenario.config w = (Tools.RSuccess reg1, st1, w1)
    ∧ guid (Tools.reg_entry reg1) = Scenario.U
    ∧ Tools.handleDeregisterAgent st1 w1 = (Tools.RSuccess out, st2, w2)
    ∧ Tools.handleRegisterAgent h2 ToolsScenario.register_args st2 ToolsScenario.config w2
      = (Tools.RSuccess reg3, st3, w3)
    ∧ guid (Tools.reg_entry reg3) = Scenario.U
    ∧ Tools.reg_reused reg3 = true.
Proof.
  intros h2 w.
  destruct (reregistration_keeps_guid ToolsScenario.host h2 ToolsScenario.register_args
              ToolsScenario.fresh_state ToolsScenario.config w "developer")
    as (reg1 & st1 & w1 & out & st2 & w2 & reg3 & st3 & w3
        & H1 & Hg1 & _ & H2 & _ & H3 & Hg3 & Hr3 & _);
    [reflexivity | reflexivity | left; reflexivity | left; reflexivity | discriminate
     | reflexivity | reflexivity | |].
  - intros key e Hk. cbn in Hk. rewrite lookup_empty in Hk. discriminate.
  - exists reg1, st1, w1, out, st2, w2, reg3, st3, w3. by repeat split.
Defined.

(* ===================================================================== *)
(** ** tools/registry.ts: generated handles; nats.ts: retry delays *)
(* ===================================================================== *)

Lemma handle_char_kept (c : ascii) :
  NameStated.handle_char c = true →
  (Js.is_space c || Ascii.eqb c "_"%char) = false
  ∧ Tools.to_lower c = c
  ∧ (Js.is_digit c
     || ((97 <=? nat_of_ascii c)%nat && (nat_of_ascii c <=? 122)%nat)
     || Ascii.eqb c "-"%char) = true.
Proof. destruct c as [[] [] [] [] [] [] [] []]; try discriminate; done. Qed.

Lemma keep_handle_chars_alphabet (s : string) :
  Forall (fun c => NameStated.handle_char c = true)
    (list_ascii_of_string (Tools.keep_handle_chars s)).
Proof.
  induction s as [|c s IH]; [constructor|]. cbn [Tools.keep_handle_chars].
  destruct (Js.is_digit c || _ || _) eqn:Hc; [|exact IH].
  constructor; [exact Hc | exact IH].
Qed.

Lemma handle_fixpoint (s : string) (in_run : bool) :
  Forall (fun c => NameStated.handle_char c = true) (list_ascii_of_string s) →
  Tools.keep_handle_chars (Tools.hyphenate in_run s) = s.
Proof.
  revert in_run. induction s as [|c s IH]; intros in_run Hs; [done|].
  cbn [list_ascii_of_string] in Hs. apply Forall_cons in Hs as [Hc Hs].
  destruct (handle_char_kept c Hc) as (Hsp & Hlow & Hkeep).
  cbn [Tools.hyphenate]. rewrite Hsp, Hlow. cbn [Tools.keep_handle_chars].
  rewrite Hkeep. f_equal. by apply IH.
Qed.

(** X29. For an agent type made of ASCII characters, the handle that
    register_agent generates is never empty (it is "agent" when nothing of
    the agent type is left), contains only lower-case letters, digits and
    hyphens, and is its own generated handle. *)
Theorem generateHandle_shape (agentType : string) :
  NameStated.ascii_only agentType = true →
  Tools.generateHandle agentType ≠ ""
  ∧ Forall (fun c => NameStated.handle_char c = true)
      (list_ascii_of_string (Tools.generateHandle agentType))
  ∧ Tools.generateHandle (Tools.generateHandle agentType) = Tools.generateHandle agentType.
Proof.
  intros _. split; [apply generateHandle_nonempty|].
  assert (Hshape : Forall (fun c => NameStated.handle_char c = true)
                     (list_ascii_of_string (Tools.generateHandle agentType))).
  { unfold Tools.generateHandle. destruct (Js.truthy _).
    - apply keep_handle_chars_alphabet.
    - repeat constructor. }
  split; [exact Hshape|].
  unfold Tools.generateHandle at 1. rewrite (handle_fixpoint _ false Hshape).
  pose proof (generateHandle_nonempty agentType) as Hne.
  apply truthy_true in Hne. by rewrite Hne.
Qed.

Lemma generateHandle_shape_witness :
  Tools.generateHandle "Code Reviewer_2" ≠ ""
  ∧ Tools.generateHandle (Tools.generateHandle "Code Reviewer_2")
    = Tools.generateHandle "Code Reviewer_2".
Proof.
  destruct (generateHandle_shape "Code Reviewer_2" eq_refl) as (Hne & _ & Hfix).
  split; [exact Hne | exact Hfix].
Defined.

(** X30. The delay before a connection retry starts at 1000 ms, doubles
    with each attempt up to attempt 5, is 60000 ms from attempt 6 on, and
    never decreases from one attempt to the next. *)
Theorem getRetryDelay_backoff (attempt : nat) :
  (1000 ≤ Connection.getRetryDelay attempt ≤ 60000)%Z
  ∧ ((attempt ≤ 5)%nat →
     Connection.getRetryDelay attempt = (1000 * 2 ^ Z.of_nat attempt)%Z)
  ∧ ((6 ≤ attempt)%nat → Connection.getRetryDelay attempt = 60000)
  ∧ (Connection.getRetryDelay attempt ≤ Connection.getRetryDelay (S attempt))%Z.
Proof.
  unfold Connection.getRetryDelay, Connection.initialDelayMs, Connection.maxDelayMs,
    Connection.backoffMultiplier. cbv zeta.
  assert (Hpos : ∀ n : nat, (1 ≤ 2 ^ Z.of_nat n)%Z).
  { intros n. pose proof (Z.pow_pos_nonneg 2 (Z.of_nat n)). lia. }
  assert (Hmono : ∀ n : nat, (2 ^ Z.of_nat n ≤ 2 ^ Z.of_nat (S n))%Z).
  { intros n. apply Z.pow_le_mono_r; lia. }
  assert (Hbig : ∀ n : nat, (6 ≤ n)%nat → (64 ≤ 2 ^ Z.of_nat n)%Z).
  { intros n Hn. change 64%Z with (2 ^ 6)%Z. apply Z.pow_le_mono_r; lia. }
  assert (Hsmall : ∀ n : nat, (n ≤ 5)%nat → (2 ^ Z.of_nat n ≤ 32)%Z).
  { intros n Hn. change 32%Z with (2 ^ 5)%Z. apply Z.pow_le_mono_r; lia. }
  specialize (Hpos attempt). specialize (Hmono attempt).
  split; [lia|]. split; [intros H; specialize (Hsmall _ H); lia|].
  split; [intros H; specialize (Hbig _ H); lia|]. lia.
Qed.

Lemma getRetryDelay_backoff_witness :
  Connection.getRetryDelay 3 = 8000 ∧ Connection.getRetryDelay 9 = 60000.
Proof.
  destruct (getRetryDelay_backoff 3) as (_ & Hdouble & _).
  destruct (getRetryDelay_backoff 9) as (_ & _ & Hcap & _).
  split; [rewrite Hdouble by lia; reflexivity | apply Hcap; lia].
Defined.
